(** * The feedback bot: approval store, feedback extractor and interaction server

    A shallow embedding of [src/approval-handler.js] (class ApprovalHandler),
    of the message analyzer (class MessageAnalyzer), of the parts of the Slack
    client the server calls, and of [src/interactive-server.js]
    (class InteractiveServer), followed by the properties of the
    specification that concern them.

    Conventions of the embedding:
    - a JavaScript object is a finite map from property names to values; a
      property that holds [undefined] reads like a missing one and is dropped
      by [JSON.stringify], so it is modelled as missing;
    - the [Map] of pending approvals is a [gmap] keyed by the message id and
      the [Set] of processed messages a [gset]; their iteration order is the
      one of [map_to_list] and [elements];
    - a string is its sequence of code units, each below 256;
    - what the JavaScript runtime provides (JSON text parsing, conversions,
      dates) is the class [Runtime]; what the remote services answer is the
      record [env]; nothing is assumed about either. *)

From Stdlib Require Import Ascii QArith.
From stdpp Require Import gmap strings list fin_maps numbers.

Local Open Scope Z_scope.

(** ** Values *)

#[warnings="-register-all"]
Inductive json : Type :=
  | JNull
  | JBool (b : bool)
  | JNum (q : Q)
  | JStr (s : string)
  | JArr (l : list json)
  | JObj (o : gmap string json).

(** An object: property name to value. *)
Abbreviation obj := (gmap string json).

(** The value of an expression that may be [undefined]. *)
Abbreviation jsval := (option json).

(** What a call hands back when the callee has no [return] statement. *)
Inductive returned : Type :=
  | Undefined
  | Returned (v : json).

Definition str_truthy (s : string) : bool := negb (String.eqb s "").

(** ToBoolean. *)
Definition truthy (v : jsval) : bool :=
  match v with
  | None => false
  | Some JNull => false
  | Some (JBool b) => b
  | Some (JNum q) => negb (Qeq_bool q 0)
  | Some (JStr s) => str_truthy s
  | Some (JArr _) => true
  | Some (JObj _) => true
  end.

Definition opt_truthy (s : option string) : bool :=
  match s with
  | Some s => str_truthy s
  | None => false
  end.

(** [v || null] *)
Definition or_null (v : jsval) : json :=
  match v with
  | Some j => if truthy v then j else JNull
  | None => JNull
  end.

(** [{...a, ...b}]: the properties of [b] win. [...null] spreads nothing. *)
Definition spread (a : obj) (b : option obj) : obj :=
  match b with
  | Some b => b ∪ a
  | None => a
  end.

(** ** Strings *)

Definition nl : string := String "010"%char "".

(** WhiteSpace and LineTerminator code units: TAB, LF, VT, FF, CR, SP, NBSP. *)
Definition is_space (c : ascii) : bool :=
  match c with
  | "009" | "010" | "011" | "012" | "013" | " " | "160" => true
  | _ => false
  end%char.

Fixpoint trimStart (s : string) : string :=
  match s with
  | String c t => if is_space c then trimStart t else s
  | EmptyString => EmptyString
  end.

Fixpoint trimEnd (s : string) : string :=
  match s with
  | String c t =>
      match trimEnd t with
      | EmptyString => if is_space c then EmptyString else String c EmptyString
      | t' => String c t'
      end
  | EmptyString => EmptyString
  end.

(** [s.trim()] *)
Definition trim (s : string) : string := trimEnd (trimStart s).

(** [s.indexOf(pat)] *)
Definition indexOf (pat s : string) : option nat := String.index 0 pat s.

Fixpoint drop_str (n : nat) (s : string) : string :=
  match n, s with
  | S n, String _ t => drop_str n t
  | _, _ => s
  end.

Definition take_str (n : nat) (s : string) : string := String.substring 0 n s.

(** [s.lastIndexOf(c)] for one code unit. *)
Fixpoint lastIndexOf (c : ascii) (s : string) : option nat :=
  match s with
  | String d t =>
      match lastIndexOf c t with
      | Some i => Some (S i)
      | None => if Ascii.eqb c d then Some 0%nat else None
      end
  | EmptyString => None
  end.

(** [s.replace(a, b)] with a string pattern: the first occurrence only. *)
Definition replace_first (a b s : string) : string :=
  match indexOf a s with
  | Some i => take_str i s +:+ b +:+ drop_str (i + String.length a) s
  | None => s
  end.

(** [s.replace(/-/g, '')] *)
Fixpoint remove_dashes (s : string) : string :=
  match s with
  | String c t => if Ascii.eqb c "-"%char then remove_dashes t else String c (remove_dashes t)
  | EmptyString => EmptyString
  end.

Definition strip_prefix (p s : string) : string :=
  if String.prefix p s then drop_str (String.length p) s else s.

(** The first match of [/```(?:json)?\s*([\s\S]*?)```/] in [s], as its capture
    group. A match starts at the first fence: neither [json] nor white space
    holds a backquote, so taking them greedily never loses a closing fence,
    and the lazy group ends at the first fence that follows. *)
Definition code_block (s : string) : option string :=
  match indexOf "```" s with
  | Some i =>
      let rest := trimStart (strip_prefix "json" (drop_str (i + 3) s)) in
      match indexOf "```" rest with
      | Some j => Some (take_str j rest)
      | None => None
      end
  | None => None
  end.

(** The match of [/\{[\s\S]*\}/] in [s]: from the first opening brace to the
    last closing brace, when that one comes later. *)
Definition object_match (s : string) : option string :=
  match indexOf "{" s with
  | Some i =>
      match lastIndexOf "}"%char (drop_str (S i) s) with
      | Some j => Some (String.substring i (j + 2) s)
      | None => None
      end
  | None => None
  end.

Definition is_closer (c : ascii) : bool :=
  match c with
  | "}" | "]" => true
  | _ => false
  end%char.

(** [s.replace(/,\s*([}\]])/g, '$1')], as the left-to-right scan it is:
    [held] is a comma already read and the white space after it, kept back
    until the next code unit tells whether they are dropped. *)
Fixpoint strip_commas (held : option string) (s : string) : string :=
  match s with
  | String c t =>
      match held with
      | None =>
          if Ascii.eqb c ","%char then strip_commas (Some EmptyString) t
          else String c (strip_commas None t)
      | Some ws =>
          if is_space c then strip_commas (Some (ws +:+ String c EmptyString)) t
          else if is_closer c then String c (strip_commas None t)
          else if Ascii.eqb c ","%char then "," +:+ ws +:+ strip_commas (Some EmptyString) t
          else "," +:+ ws +:+ String c (strip_commas None t)
      end
  | EmptyString =>
      match held with
      | Some ws => "," +:+ ws
      | None => EmptyString
      end
  end.

Definition strip_trailing_commas (s : string) : string := strip_commas None s.

(** The text [analyzeFeedback] hands to [JSON.parse]. *)
Definition extract_json (responseText : string) : string :=
  let jsonString := trim responseText in
  let jsonString :=
    match code_block jsonString with
    | Some inner => trim inner
    | None =>
        match object_match jsonString with
        | Some o => o
        | None => jsonString
        end
    end in
  strip_trailing_commas (trim jsonString).

(** ** The JavaScript runtime

    The built-in operations the program calls and this development does not
    look into. *)
Class Runtime : Type := {
  (** [JSON.parse(text)]; [None] when it throws a SyntaxError. *)
  JSON_parse : string -> option json;
  (** The string a template literal [`${v}`] makes of a value. *)
  ToString : jsval -> string;
  (** [v >= q] for a string, an array or an object [v], which the runtime
      first converts to a number. *)
  ToNumber_ge : json -> Q -> bool;
  (** [new Date(ms).toISOString()] *)
  toISOString : Z -> string;
  (** [new Date(v).getTime()]; [None] stands for NaN. *)
  Date_getTime : jsval -> option Z;
  (** The capture group of
      [/\/archives\/[^/]+\/p\d+\?thread_ts=[\d.]+.*&cid=([^&]+)/]
      in a string, when the expression matches. *)
  match_from_url : string -> option string;
}.

(** [`${v}`]: a string is spliced as it is. *)
Definition template `{Runtime} (v : jsval) : string :=
  match v with
  | Some (JStr s) => s
  | _ => ToString v
  end.

(** [v >= 60]: [undefined] converts to NaN, [null] to 0, a boolean to 0 or 1. *)
Definition ge_60 `{Runtime} (v : jsval) : bool :=
  match v with
  | None => false
  | Some JNull => false
  | Some (JBool _) => false
  | Some (JNum q) => Qle_bool 60 q
  | Some j => ToNumber_ge j 60
  end.

(** ** Messages, prompts and task payloads *)

(** A Slack attachment, with the fields the server reads. *)
Record attachment : Type := {
  att_text : option string;
  att_title : option string;
  att_fallback : option string;
  att_author_name : option string;
  att_from_url : option string;
}.

(** A Slack [message] event, with the fields [processFeedbackMessage] reads. *)
Record event : Type := {
  ev_ts : string;
  ev_text : option string;
  ev_user : option string;
  ev_channel : option string;
  ev_attachments : option (list attachment);
}.

(** The message handed to the analyzer; its [permalink] is always null and is
    added by [message_obj]. *)
Record message : Type := {
  msg_text : string;
  msg_userId : option string;
  msg_channelId : option string;
  msg_channelName : string;
  msg_ts : string;
}.

Definition set_opt (k : string) (v : option string) (o : obj) : obj :=
  match v with
  | Some s => <[k := JStr s]> o
  | None => o
  end.

(** The message as the object stored under [originalMessage]. *)
Definition message_obj (m : message) : obj :=
  set_opt "userId" (msg_userId m)
    (set_opt "channelId" (msg_channelId m)
       (<["text" := JStr (msg_text m)]>
          (<["channelName" := JStr (msg_channelName m)]>
             (<["ts" := JStr (msg_ts m)]>
                (<["permalink" := JNull]> ∅))))).

(** The user object of [users.info]. *)
Record userInfo : Type := {
  ui_real_name : option string;
  ui_profile_real_name : option string;
  ui_profile_display_name : option string;
  ui_name : option string;
}.

(** A block of the reply of the model API. *)
Record content_block : Type := {
  cb_type : string;
  cb_text : string;
}.

Inductive element : Type :=
  | Button (text : string) (value : option string) (action_id : option string)
      (style : option string) (url : option string).

Inductive block : Type :=
  | Header (text : string)
  | Divider
  | Section (text : string)
  | SectionFields (fields : list string)
  | Actions (elements : list element).

(** The argument of [chat.postMessage] in [sendApprovalMessage]. *)
Record approval_message : Type := {
  am_channel : string;
  am_blocks : list block;
}.

(** The body posted to a response URL. *)
Record slack_update : Type := {
  su_text : string;
  su_blocks : list block;
  su_replace_original : bool;
}.

(** The view of [views.open] in [handleReview]. *)
Record review_modal : Type := {
  rm_callback_id : string;
  rm_title : jsval;
  rm_description : jsval;
}.

(** The argument of [notionClient.createTask]. *)
Record taskData : Type := {
  td_title : jsval;
  td_description : jsval;
  td_priority : jsval;
  td_type : jsval;
  td_messageLink : json;
  td_dueDate : json;
}.

(** The page [createTask] resolves to. *)
Record page : Type := { page_id : string }.

(** ** The world: the handler's memory, its data file, and what was done *)

(** The object [saveData] writes; [loadData] reads each list with [|| []]. *)
Record snapshot : Type := {
  snap_pendingApprovals : option (list (string * obj));
  snap_processedMessages : option (list string);
  snap_lastSaved : option string;
}.

(** What [data/approvals.json] holds. *)
Inductive file : Type :=
  | Unparsable
  | Stored (data : snapshot).

(** Calls that leave the process, in the order they were made. *)
Inductive effect : Type :=
  | EModelCall (sourceName : string) (text : string)
  | EUsersInfo (user : string)
  | EGetPermalink (channel : option string) (ts : string)
  | EPostMessage (m : approval_message)
  | EViewsOpen (trigger_id : option string) (view : review_modal)
  | ECreateTask (t : taskData)
  | EAssignTask (pageId : string) (person : string)
  | EFetch (url : string) (body : slack_update)
  | EWriteFile (data : snapshot).

(** Lines of the console the properties below refer to. *)
Inductive log_line : Type :=
  | LogAlreadyProcessed
  | LogNoText
  | LogNoFeedback
  | LogNoPending (messageId : string)
  | LogNoApprovalChannel
  | LogCleared (n : Z)
  | LogError (what : string).

Record world : Type := {
  pendingApprovals : gmap string obj;
  processedMessages : gset string;
  dataFile : option file;
  tick : nat;
  trace : list effect;
  console : list log_line;
}.

Definition set_pendingApprovals (f : gmap string obj -> gmap string obj) (w : world) : world :=
  {| pendingApprovals := f (pendingApprovals w); processedMessages := processedMessages w;
     dataFile := dataFile w; tick := tick w; trace := trace w; console := console w |}.

Definition set_processedMessages (f : gset string -> gset string) (w : world) : world :=
  {| pendingApprovals := pendingApprovals w; processedMessages := f (processedMessages w);
     dataFile := dataFile w; tick := tick w; trace := trace w; console := console w |}.

Definition set_dataFile (d : option file) (w : world) : world :=
  {| pendingApprovals := pendingApprovals w; processedMessages := processedMessages w;
     dataFile := d; tick := tick w; trace := trace w; console := console w |}.

Definition next_tick (w : world) : world :=
  {| pendingApprovals := pendingApprovals w; processedMessages := processedMessages w;
     dataFile := dataFile w; tick := S (tick w); trace := trace w; console := console w |}.

Definition emit (e : effect) (w : world) : world :=
  {| pendingApprovals := pendingApprovals w; processedMessages := processedMessages w;
     dataFile := dataFile w; tick := tick w; trace := trace w ++ [e]; console := console w |}.

Definition print (l : log_line) (w : world) : world :=
  {| pendingApprovals := pendingApprovals w; processedMessages := processedMessages w;
     dataFile := dataFile w; tick := tick w; trace := trace w; console := console w ++ [l] |}.

(** How a statement ends: normally with a value, or by throwing. *)
Inductive completion (A : Type) : Type :=
  | Normal (a : A)
  | Throw (error : string).
Arguments Normal {A} a.
Arguments Throw {A} error.

(** What the remote services and the file system answer during one run. *)
Record env : Type := {
  (** the clock, read by [new Date()] and [Date.now()], in milliseconds *)
  clock : nat -> Z;
  (** whether [data/approvals.json] can be written *)
  fs_writable : bool;
  (** [slackClient.approvalChannelId] *)
  approvalChannelId : option string;
  (** [client.messages.create]: the [content] of the reply *)
  messages_create : string -> string -> completion (list content_block);
  (** [client.users.info]: [result.user] *)
  users_info : string -> completion (option userInfo);
  (** [client.chat.getPermalink]: [result.permalink] *)
  chat_getPermalink : option string -> string -> completion (option string);
  chat_postMessage : approval_message -> completion unit;
  views_open : option string -> review_modal -> completion unit;
  (** [notionClient.createTask]: the page, or a falsy value *)
  notion_createTask : taskData -> completion (option page);
  notion_assignTaskToPerson : string -> string -> completion unit;
  (** [fetch]: [response.ok] *)
  fetch : string -> slack_update -> completion bool;
}.

(** ** Computations: state and exceptions *)

Definition M (A : Type) : Type := world -> completion A * world.

Definition ret {A} (a : A) : M A := fun w => (Normal a, w).

Definition bind {A B} (m : M A) (k : A -> M B) : M B :=
  fun w =>
    match m w with
    | (Normal a, w') => k a w'
    | (Throw e, w') => (Throw e, w')
    end.

Declare Scope js_scope.
Delimit Scope js_scope with js.
Notation "x <- m ;; k" := (bind m (fun x => k))
  (at level 100, m at next level, right associativity) : js_scope.
Notation "m ;; k" := (bind m (fun _ => k))
  (at level 100, right associativity) : js_scope.
Open Scope js_scope.

(** [try { m } catch (error) { h error }] *)
Definition try_catch {A} (m : M A) (h : string -> M A) : M A :=
  fun w =>
    match m w with
    | (Normal a, w') => (Normal a, w')
    | (Throw e, w') => h e w'
    end.

Definition throw {A} (e : string) : M A := fun w => (Throw e, w).

Definition gets {A} (f : world -> A) : M A := fun w => (Normal (f w), w).

Definition modify (f : world -> world) : M unit := fun w => (Normal tt, f w).

Definition log (l : log_line) : M unit := modify (print l).

(** A call that leaves the process: it is recorded, then its answer returns. *)
Definition call {A} (e : effect) (answer : completion A) : M A :=
  fun w => (answer, emit e w).

(** [for (const x of l) { body x }] *)
Fixpoint for_each {A} (l : list A) (body : A -> M unit) : M unit :=
  match l with
  | x :: l' => body x ;; for_each l' body
  | [] => ret tt
  end.

(** [new Map(entries)]: a later entry replaces an earlier one with its key. *)
Definition Map_of (entries : list (string * obj)) : gmap string obj :=
  foldl (fun m e => <[e.1 := e.2]> m) ∅ entries.

(** [new Set(items)] *)
Definition Set_of (items : list string) : gset string := list_to_set items.

(** [msg_${messageTs.replace('.', '_')}] *)
Definition messageId_of (messageTs : string) : string :=
  "msg_" +:+ replace_first "." "_" messageTs.

Section Program.
Context `{R : Runtime} (E : env).

(** [new Date()] and [Date.now()]: the clock is read, and time goes on. *)
Definition Date_now : M Z :=
  fun w => (Normal (clock E (tick w)), next_tick w).

(** *** ApprovalHandler *)

Definition saveData : M unit :=
  try_catch
    (now <- Date_now ;;
     pending <- gets pendingApprovals ;;
     processed <- gets processedMessages ;;
     let data :=
       {| snap_pendingApprovals := Some (map_to_list pending);
          snap_processedMessages := Some (elements processed);
          snap_lastSaved := Some (toISOString now) |} in
     if fs_writable E
     then modify (fun w => emit (EWriteFile data) (set_dataFile (Some (Stored data)) w))
     else throw "EACCES")
    (fun _ => log (LogError "Error saving approval data:")).

Definition loadData : M unit :=
  try_catch
    (f <- gets dataFile ;;
     match f with
     | Some (Stored data) =>
         modify (set_pendingApprovals
                   (fun _ => Map_of (default [] (snap_pendingApprovals data)))) ;;
         modify (set_processedMessages
                   (fun _ => Set_of (default [] (snap_processedMessages data))))
     | Some Unparsable => throw "SyntaxError"
     | None => ret tt
     end)
    (fun _ => log (LogError "Error loading approval data:")).

(** [new ApprovalHandler()] in a process that finds [w]'s data file. *)
Definition constructor : M unit :=
  modify (set_pendingApprovals (fun _ => ∅)) ;;
  modify (set_processedMessages (fun _ => ∅)) ;;
  loadData.

Definition addPendingApproval (messageId : string) (feedback : obj) : M unit :=
  now <- Date_now ;;
  modify (set_pendingApprovals
            (<[messageId :=
                 <["status" := JStr "pending"]>
                   (<["createdAt" := JStr (toISOString now)]> feedback)]>)) ;;
  saveData.

Definition getPendingApproval (messageId : string) : M (option obj) :=
  gets (fun w => pendingApprovals w !! messageId).

Definition markAsProcessed (messageTs : string) : M unit :=
  modify (set_processedMessages (fun s => {[messageTs]} ∪ s)) ;;
  saveData.

Definition isProcessed (messageTs : string) : M bool :=
  gets (fun w => bool_decide (messageTs ∈ processedMessages w)).

(** [null] is [None]. *)
Definition approveFeedback (messageId : string) (updates : option obj) : M (option obj) :=
  approval <- gets (fun w => pendingApprovals w !! messageId) ;;
  match approval with
  | None => ret None
  | Some approval =>
      now <- Date_now ;;
      let approvedFeedback :=
        <["approvedAt" := JStr (toISOString now)]>
          (<["status" := JStr "approved"]> (spread approval updates)) in
      modify (set_pendingApprovals (<[messageId := approvedFeedback]>)) ;;
      saveData ;;
      ret (Some approvedFeedback)
  end.

Definition rejectFeedback (messageId : string) : M (option obj) :=
  approval <- gets (fun w => pendingApprovals w !! messageId) ;;
  match approval with
  | None => ret None
  | Some approval =>
      now <- Date_now ;;
      let rejectedFeedback :=
        <["rejectedAt" := JStr (toISOString now)]>
          (<["status" := JStr "rejected"]> approval) in
      modify (set_pendingApprovals (<[messageId := rejectedFeedback]>)) ;;
      saveData ;;
      ret (Some rejectedFeedback)
  end.

Definition has_status (s : string) (approval : obj) : bool :=
  match approval !! "status" with
  | Some (JStr t) => String.eqb t s
  | _ => false
  end.

Definition getApprovedFeedbacks : M (list obj) :=
  gets (fun w => filter (fun a => has_status "approved" a = true)
                   (snd <$> map_to_list (pendingApprovals w))).

Definition removePendingApproval (messageId : string) : M unit :=
  modify (set_pendingApprovals (delete messageId)) ;;
  saveData.

(** [new Date(value.createdAt).getTime() < cutoffTime]; false for NaN. *)
Definition created_before (cutoffTime : Z) (value : obj) : bool :=
  match Date_getTime (value !! "createdAt") with
  | Some createdTime => bool_decide (createdTime < cutoffTime)
  | None => false
  end.

(** The loop of [clearOldApprovals] over the entries of the map. *)
Definition clear_loop (cutoffTime : Z) (entries : list (string * obj))
    (pending : gmap string obj) : gmap string obj :=
  foldl (fun m e => if created_before cutoffTime e.2 then delete e.1 m else m)
    pending entries.

Definition clearOldApprovals (days : Z) : M returned :=
  now <- Date_now ;;
  let cutoffTime := now - days * 24 * 60 * 60 * 1000 in
  beforeSize <- gets (fun w => size (pendingApprovals w)) ;;
  modify (set_pendingApprovals (fun m => clear_loop cutoffTime (map_to_list m) m)) ;;
  afterSize <- gets (fun w => size (pendingApprovals w)) ;;
  (if bool_decide (beforeSize ≠ afterSize)
   then log (LogCleared (Z.of_nat beforeSize - Z.of_nat afterSize)) ;; saveData
   else ret tt) ;;
  ret Undefined.

Record stats : Type := {
  st_pending : nat;
  st_approved : nat;
  st_rejected : nat;
  st_processed : nat;
}.

Definition count_status (s : string) (m : gmap string obj) : nat :=
  length (filter (fun a => has_status s a = true) (snd <$> map_to_list m)).

Definition getStats : M stats :=
  gets (fun w =>
          {| st_pending := count_status "pending" (pendingApprovals w);
             st_approved := count_status "approved" (pendingApprovals w);
             st_rejected := count_status "rejected" (pendingApprovals w);
             st_processed := size (processedMessages w) |}).

(** *** MessageAnalyzer *)

(** The body of the [try] block of [analyzeFeedback]. *)
Definition analyzeFeedback_try (text sourceName : string) : M (option obj) :=
  content <- call (EModelCall sourceName text) (messages_create E sourceName text) ;;
  match content with
  | [] => throw "TypeError"
  | first :: _ =>
      let responseText :=
        if String.eqb (cb_type first) "text" then cb_text first else "" in
      match JSON_parse (extract_json responseText) with
      | None => throw "SyntaxError"
      | Some JNull => throw "TypeError"
      | Some (JObj feedback) =>
          if truthy (feedback !! "isFeedback") && ge_60 (feedback !! "confidence")
          then ret (Some (<["sourceName" := JStr sourceName]> feedback))
          else ret None
      | Some _ => ret None
      end
  end.

Definition analyzeFeedback (text sourceName : string) : M (option obj) :=
  try_catch (analyzeFeedback_try text sourceName)
    (fun _ => log (LogError "Error analyzing feedback:") ;; ret None).

(** [msg.text.substring(0, 100) + (msg.text.length > 100 ? '...' : '')] *)
Definition messageSnippet (text : string) : string :=
  take_str 100 text +:+ (if (100 <? String.length text)%nat then "..." else "").

Fixpoint analyzeBatch (messages : list message) : M (list obj) :=
  match messages with
  | msg :: rest =>
      result <- analyzeFeedback (msg_text msg) ("#" +:+ msg_channelName msg) ;;
      feedback <- analyzeBatch rest ;;
      ret (match result with
           | Some result =>
               <["messageSnippet" := JStr (messageSnippet (msg_text msg))]>
                 (<["originalMessage" := JObj (message_obj msg)]> result) :: feedback
           | None => feedback
           end)
  | [] => ret []
  end.

(** *** SlackClient *)

Definition getUserInfo (userId : string) : M (option userInfo) :=
  try_catch (call (EUsersInfo userId) (users_info E userId))
    (fun _ => log (LogError "Error fetching user") ;; ret None).

Definition approval_blocks (feedback : obj) (messageId : string) : list block :=
  [ Header "📋 New Customer Feedback Detected";
    SectionFields
      [ "*Source:*" +:+ nl +:+ template (feedback !! "sourceName");
        "*Type:*" +:+ nl +:+ template (feedback !! "type") ];
    Section ("*Suggested Title:*" +:+ nl +:+ template (feedback !! "title"));
    Section ("*Summary:*" +:+ nl +:+ template (feedback !! "description"));
    Section ("*Priority:* " +:+ template (feedback !! "priority") +:+ nl
             +:+ "*Original Message:* " +:+ template (feedback !! "messageSnippet"));
    Actions
      [ Button "✏️ Review & Edit" (Some messageId) (Some ("review_" +:+ messageId)) None None;
        Button "✅ Approve as-is" (Some messageId) (Some ("approve_" +:+ messageId))
          (Some "primary") None;
        Button "❌ Reject" (Some messageId) (Some ("reject_" +:+ messageId))
          (Some "danger") None ] ].

(** Whether a prompt went out ([result] is truthy). *)
Definition sendApprovalMessage (feedback : obj) (messageId : string) : M bool :=
  match approvalChannelId E with
  | Some channel =>
      if str_truthy channel
      then
        try_catch
          (let m := {| am_channel := channel;
                       am_blocks := approval_blocks feedback messageId |} in
           call (EPostMessage m) (chat_postMessage E m) ;;
           ret true)
          (fun _ => log (LogError "Error sending approval message:") ;; ret false)
      else log LogNoApprovalChannel ;; ret false
  | None => log LogNoApprovalChannel ;; ret false
  end.

Definition getMessagePermalink (channel : option string) (ts : string) : M (option string) :=
  try_catch (call (EGetPermalink channel ts) (chat_getPermalink E channel ts))
    (fun _ => log (LogError "Error getting message permalink:") ;; ret None).

(** *** InteractiveServer *)

Definition sendSlackUpdate (responseUrl : string) (body : slack_update) : M bool :=
  try_catch (call (EFetch responseUrl body) (fetch E responseUrl body))
    (fun _ => log (LogError "Error sending Slack update:") ;; ret false).

(** [if (responseUrl) { await this.sendSlackUpdate(responseUrl, body) }] *)
Definition notify (responseUrl : option string) (body : slack_update) : M unit :=
  match responseUrl with
  | Some url => if str_truthy url then sendSlackUpdate url body ;; ret tt else ret tt
  | None => ret tt
  end.

Definition taskData_of (approvedFeedback : obj) : taskData :=
  {| td_title := approvedFeedback !! "title";
     td_description := approvedFeedback !! "description";
     td_priority := approvedFeedback !! "priority";
     td_type := approvedFeedback !! "type";
     td_messageLink := or_null (approvedFeedback !! "messageLink");
     td_dueDate := or_null (approvedFeedback !! "dueDate") |}.

Definition task_created_update (t : taskData) (notionTask : page) : slack_update :=
  let notionPageUrl := "https://notion.so/" +:+ remove_dashes (page_id notionTask) in
  {| su_text := "✅ Task created: " +:+ template (td_title t);
     su_blocks :=
       [ Section "✅ *Task Approved and Created in Notion*";
         Divider;
         Section ("*Title:*" +:+ nl +:+ template (td_title t));
         Section ("*Description:*" +:+ nl +:+ template (td_description t));
         SectionFields
           [ "*Priority:*" +:+ nl +:+ template (td_priority t);
             "*Type:*" +:+ nl +:+ template (td_type t) ];
         Actions
           [ Button "📖 View in Notion" None None None (Some notionPageUrl);
             Button "👤 Assign to John" (Some (page_id notionTask))
               (Some ("assign_john_" +:+ page_id notionTask)) (Some "primary") None ] ];
     su_replace_original := true |}.

Definition task_failed_update : slack_update :=
  {| su_text := "❌ Approved but failed to create Notion task. Check logs.";
     su_blocks := [ Section "❌ *Failed to create Notion task. Check server logs.*" ];
     su_replace_original := true |}.

Definition rejected_update : slack_update :=
  {| su_text := "❌ Feedback rejected - no task created";
     su_blocks := [ Section "❌ *Feedback rejected - no task created in Notion*" ];
     su_replace_original := true |}.

Definition assigned_update : slack_update :=
  {| su_text := "✅ Task assigned to John Rice in Notion!";
     su_blocks := [ Section "✅ *Task Assigned to John Rice*" ];
     su_replace_original := false |}.

Definition assign_failed_update : slack_update :=
  {| su_text := "❌ Failed to assign task. Check logs.";
     su_blocks := [ Section "❌ *Failed to assign task to John Rice. Check server logs.*" ];
     su_replace_original := false |}.

Definition handleApproval (messageId : string) (triggerId responseUrl : option string)
    : M unit :=
  approval <- getPendingApproval messageId ;;
  match approval with
  | None => log (LogNoPending messageId)
  | Some _ =>
      approvedFeedback <- approveFeedback messageId None ;;
      try_catch
        (match approvedFeedback with
         | None => throw "TypeError"
         | Some approvedFeedback =>
             let taskData := taskData_of approvedFeedback in
             notionTask <- call (ECreateTask taskData) (notion_createTask E taskData) ;;
             match notionTask with
             | Some notionTask =>
                 removePendingApproval messageId ;;
                 notify responseUrl (task_created_update taskData notionTask)
             | None => ret tt
             end
         end)
        (fun _ =>
           log (LogError "Error creating Notion task:") ;;
           notify responseUrl task_failed_update)
  end.

Definition handleRejection (messageId : string) (triggerId responseUrl : option string)
    : M unit :=
  approval <- getPendingApproval messageId ;;
  match approval with
  | None => log (LogNoPending messageId)
  | Some _ =>
      rejectFeedback messageId ;;
      notify responseUrl rejected_update
  end.

Definition handleAssignToJohn (pageId : string) (responseUrl : option string) : M unit :=
  try_catch
    (call (EAssignTask pageId "John Rice") (notion_assignTaskToPerson E pageId "John Rice") ;;
     notify responseUrl assigned_update)
    (fun _ =>
       log (LogError "Error assigning task:") ;;
       notify responseUrl assign_failed_update).

Definition handleReview (messageId : string) (triggerId : option string) : M unit :=
  approval <- getPendingApproval messageId ;;
  match approval with
  | None => log (LogNoPending messageId)
  | Some approval =>
      let view :=
        {| rm_callback_id := "review_modal_" +:+ messageId;
           rm_title := approval !! "title";
           rm_description := approval !! "description" |} in
      try_catch (call (EViewsOpen triggerId view) (views_open E triggerId view))
        (fun _ => log (LogError "Error opening modal:"))
  end.

(** An element of [payload.actions]. *)
Record action : Type := {
  action_id : string;
  value : string;
}.

Definition handleBlockActions (actions : list action) (triggerId responseUrl : option string)
    : M unit :=
  for_each actions (fun a =>
    let actionId := action_id a in
    let messageId := value a in
    try_catch
      (if String.prefix "approve_" actionId then handleApproval messageId triggerId responseUrl
       else if String.prefix "reject_" actionId then handleRejection messageId triggerId responseUrl
       else if String.prefix "review_" actionId then handleReview messageId triggerId
       else if String.prefix "assign_john_" actionId then handleAssignToJohn messageId responseUrl
       else ret tt)
      (fun _ => log (LogError "Error handling action"))).

(** The text one attachment adds to [messageText]. *)
Definition attachment_text (a : attachment) : string :=
  if opt_truthy (att_text a) then nl +:+ default "" (att_text a)
  else if opt_truthy (att_title a) then nl +:+ default "" (att_title a)
  else if opt_truthy (att_fallback a) then nl +:+ default "" (att_fallback a)
  else "".

(** [event.text || ''] followed by the text of every attachment. *)
Definition messageText_of (ev : event) : string :=
  foldl (fun messageText a => messageText +:+ attachment_text a)
    (default "" (ev_text ev)) (default [] (ev_attachments ev)).

(** [s && s.trim()] *)
Definition nonblank (s : option string) : bool :=
  match s with
  | Some s => str_truthy s && str_truthy (trim s)
  | None => false
  end.

Definition name_of_userInfo (u : userInfo) (reporterName : string) : string :=
  if nonblank (ui_real_name u) then default "" (ui_real_name u)
  else if nonblank (ui_profile_real_name u) then default "" (ui_profile_real_name u)
  else if nonblank (ui_profile_display_name u) then default "" (ui_profile_display_name u)
  else if nonblank (ui_name u) then default "" (ui_name u)
  else reporterName.

(** The loop over the attachments of a forwarded message, with its [break]. *)
Fixpoint forwarded_name (attachments : list attachment) (reporterName : string) : string :=
  match attachments with
  | a :: rest =>
      if opt_truthy (att_author_name a) then default "" (att_author_name a)
      else if opt_truthy (att_from_url a)
           then match match_from_url (default "" (att_from_url a)) with
                | Some cid => forwarded_name rest cid
                | None => forwarded_name rest reporterName
                end
           else forwarded_name rest reporterName
  | [] => reporterName
  end.

Definition reporterName_of (ev : event) : M string :=
  reporterName <-
    match ev_user ev with
    | Some user =>
        if str_truthy user
        then try_catch
               (userInfo <- getUserInfo user ;;
                ret (match userInfo with
                     | Some u => name_of_userInfo u "Unknown"
                     | None => "Unknown"
                     end))
               (fun _ => ret "Unknown")
        else ret "Unknown"
    | None => ret "Unknown"
    end ;;
  ret (if String.eqb reporterName "Unknown"
       then forwarded_name (default [] (ev_attachments ev)) reporterName
       else reporterName).

(** The body of the loop over [feedbackArray]. *)
Definition request_approval (message : message) (reporterName : string) (item : obj) : M unit :=
  let messageId := messageId_of (msg_ts message) in
  let item :=
    <["description" :=
        JStr ("Task requested by " +:+ reporterName +:+ nl +:+ nl
              +:+ template (item !! "description"))]> item in
  addPendingApproval messageId item ;;
  permalink <- getMessagePermalink (msg_channelId message) (msg_ts message) ;;
  let item :=
    if opt_truthy permalink then <["messageLink" := JStr (default "" permalink)]> item
    else item in
  sendApprovalMessage item messageId ;;
  ret tt.

Definition processFeedbackMessage (ev : event) : M unit :=
  try_catch
    (let messageTs := ev_ts ev in
     processed <- isProcessed messageTs ;;
     if processed then log LogAlreadyProcessed
     else
       let messageText := messageText_of ev in
       if negb (str_truthy messageText) || (String.length (trim messageText) =? 0)%nat
       then log LogNoText
       else
         let message :=
           {| msg_text := trim messageText;
              msg_userId := ev_user ev;
              msg_channelId := ev_channel ev;
              msg_channelName := "feedback";
              msg_ts := messageTs |} in
         feedbackArray <- analyzeBatch [message] ;;
         (if (0 <? length feedbackArray)%nat
          then
            reporterName <- reporterName_of ev ;;
            for_each feedbackArray (request_approval message reporterName)
          else log LogNoFeedback) ;;
         markAsProcessed messageTs)
    (fun error =>
       log (LogError "Error processing feedback message:") ;;
       throw error).

End Program.

(** ** Reading a run *)

(** The approval prompts a trace holds, in the order they were posted. *)
Definition posted (tr : list effect) : list approval_message :=
  omap (fun e => match e with EPostMessage m => Some m | _ => None end) tr.

(** The task payloads a trace handed to [createTask]. *)
Definition created (tr : list effect) : list taskData :=
  omap (fun e => match e with ECreateTask t => Some t | _ => None end) tr.

(** From [w] to [w'] calls were made, none of them a prompt or a task. *)
Definition quiet (w w' : world) : Prop :=
  exists t, trace w' = trace w ++ t /\ posted t = [] /\ created t = [].

(** The memory of the handler is the same in [w] and [w']. *)
Definition same_memory (w w' : world) : Prop :=
  pendingApprovals w' = pendingApprovals w /\ processedMessages w' = processedMessages w.

(** The whole store: memory and data file. *)
Definition same_store (w w' : world) : Prop :=
  same_memory w w' /\ dataFile w' = dataFile w.

(** The flattened text of the event is neither empty nor white space only. *)
Definition has_text (ev : event) : Prop := trim (messageText_of ev) <> "".

(** The snapshot [saveData] builds from the memory of [w] at time [now]. *)
Definition snapshot_of `{Runtime} (w : world) (now : Z) : snapshot :=
  {| snap_pendingApprovals := Some (map_to_list (pendingApprovals w));
     snap_processedMessages := Some (elements (processedMessages w));
     snap_lastSaved := Some (toISOString now) |}.

(** The candidate [approveFeedback] stores for [approval] at time [now]. *)
Definition approved_at `{Runtime} (now : Z) (approval : obj) : obj :=
  <["approvedAt" := JStr (toISOString now)]> (<["status" := JStr "approved"]> approval).

(** The candidate [rejectFeedback] stores for [approval] at time [now]. *)
Definition rejected_at `{Runtime} (now : Z) (approval : obj) : obj :=
  <["rejectedAt" := JStr (toISOString now)]> (<["status" := JStr "rejected"]> approval).

(** The candidate [addPendingApproval] stores for [feedback] at time [now]. *)
Definition pending_at `{Runtime} (now : Z) (feedback : obj) : obj :=
  <["status" := JStr "pending"]> (<["createdAt" := JStr (toISOString now)]> feedback).

(** The data file holds the memory of [w] as some [saveData] wrote it. *)
Definition persisted `{Runtime} (w : world) : Prop :=
  exists now, dataFile w = Some (Stored (snapshot_of w now)).

(** The text of the first block of a reply of the model. *)
Definition responseText_of (first : content_block) : string :=
  if String.eqb (cb_type first) "text" then cb_text first else "".

(** The condition [feedback.isFeedback && feedback.confidence >= 60]. *)
Definition accepted `{Runtime} (feedback : obj) : bool :=
  truthy (feedback !! "isFeedback") && ge_60 (feedback !! "confidence").

(** What [analyzeFeedback] makes of an answer of the model API. *)
Definition judgment_of `{Runtime} (answer : completion (list content_block))
    (sourceName : string) : option obj :=
  match answer with
  | Normal (first :: _) =>
      match JSON_parse (extract_json (responseText_of first)) with
      | Some (JObj feedback) =>
          if accepted feedback then Some (<["sourceName" := JStr sourceName]> feedback)
          else None
      | _ => None
      end
  | _ => None
  end.

(** The item [analyzeBatch] pushes for a judgment of message [msg]. *)
Definition item_of (msg : message) (result : obj) : obj :=
  <["messageSnippet" := JStr (messageSnippet (msg_text msg))]>
    (<["originalMessage" := JObj (message_obj msg)]> result).

(** The message [processFeedbackMessage] builds from an event. *)
Definition message_of (ev : event) : message :=
  {| msg_text := trim (messageText_of ev);
     msg_userId := ev_user ev;
     msg_channelId := ev_channel ev;
     msg_channelName := "feedback";
     msg_ts := ev_ts ev |}.

(** The item with the reporter prepended to its description. *)
Definition described `{Runtime} (reporterName : string) (item : obj) : obj :=
  <["description" :=
      JStr ("Task requested by " +:+ reporterName +:+ nl +:+ nl
            +:+ template (item !! "description"))]> item.

(** The item handed to [sendApprovalMessage]: its link is set when
    [getMessagePermalink] answered with a truthy permalink. *)
Definition linked (permalink : completion (option string)) (item : obj) : obj :=
  match permalink with
  | Normal (Some p) => if str_truthy p then <["messageLink" := JStr p]> item else item
  | _ => item
  end.

(** The prompt [sendApprovalMessage] posts to [channel] for an item. *)
Definition prompt_for `{Runtime} (channel : string) (item : obj) (messageId : string)
    : approval_message :=
  {| am_channel := channel; am_blocks := approval_blocks item messageId |}.

(** The prompts one call of [sendApprovalMessage] posts: one when the approval
    channel is set, none otherwise. *)
Definition prompt_posts `{Runtime} (E : env) (item : obj) (messageId : string)
    : list approval_message :=
  match approvalChannelId E with
  | Some channel => if str_truthy channel then [prompt_for channel item messageId] else []
  | None => []
  end.

(** A response URL was supplied, and [body] was posted to it. *)
Definition notified (responseUrl : option string) (body : slack_update) (w : world) : Prop :=
  forall url, responseUrl = Some url -> url <> "" -> EFetch url body ∈ trace w.

(** Whether [needle] occurs in [s]. *)
Definition occurs_in (needle s : string) : bool :=
  match indexOf needle s with
  | Some _ => true
  | None => false
  end.

Definition element_texts (e : element) : list string :=
  match e with
  | Button text value action_id style url =>
      text :: default "" value :: default "" action_id :: default "" style
        :: default "" url :: []
  end.

(** Every string a block carries. *)
Definition block_texts (b : block) : list string :=
  match b with
  | Header text => [text]
  | Divider => []
  | Section text => [text]
  | SectionFields fields => fields
  | Actions elements => concat (element_texts <$> elements)
  end.

(** Whether a prompt shows [needle] anywhere. *)
Definition shows (needle : string) (m : approval_message) : bool :=
  existsb (occurs_in needle) (concat (block_texts <$> am_blocks m)).

(** ** Sample data

    The scenario of the specification: the message [111.222], ``the search
    feature is broken on mobile'', judged a bug with confidence 85. *)
Module Sample.

Definition dq : string := String "034"%char "".

Definition quoted (s : string) : string := dq +:+ s +:+ dq.

Definition field (name value : string) : string := quoted name +:+ ": " +:+ value.

(** The JSON text of the judgment. *)
Definition judgment_text : string :=
  "{" +:+ field "isFeedback" "true" +:+ ", "
      +:+ field "type" (quoted "bug") +:+ ", "
      +:+ field "title" (quoted "Mobile search broken") +:+ ", "
      +:+ field "description" (quoted "Search returns nothing on mobile.") +:+ ", "
      +:+ field "priority" (quoted "High Priority") +:+ ", "
      +:+ field "confidence" "85" +:+ "}".

(** The object that text denotes. *)
Definition judgment : obj :=
  <["isFeedback" := JBool true]>
    (<["type" := JStr "bug"]>
       (<["title" := JStr "Mobile search broken"]>
          (<["description" := JStr "Search returns nothing on mobile."]>
             (<["priority" := JStr "High Priority"]>
                (<["confidence" := JNum 85]> ∅))))).

(** The reply of the model: the judgment in a fenced block. *)
Definition reply : string := "```json" +:+ nl +:+ judgment_text +:+ nl +:+ "```".

Definition day : Z := 24 * 60 * 60 * 1000.

(** A runtime that answers as the JavaScript one on the values met below:
    it parses [judgment_text], and knows two dates. *)
Definition runtime : Runtime :=
  {| JSON_parse := fun text =>
       if String.eqb text judgment_text then Some (JObj judgment) else None;
     ToString := fun v =>
       match v with
       | None => "undefined"
       | Some JNull => "null"
       | Some (JBool true) => "true"
       | Some (JBool false) => "false"
       | Some (JStr s) => s
       | Some _ => "[object Object]"
       end;
     ToNumber_ge := fun _ _ => false;
     toISOString := fun ms =>
       if ms =? 0 then "1970-01-01T00:00:00.000Z"
       else if ms =? 8 * day then "1970-01-09T00:00:00.000Z"
       else "";
     Date_getTime := fun v =>
       match v with
       | Some (JStr s) =>
           if String.eqb s "1970-01-01T00:00:00.000Z" then Some 0
           else if String.eqb s "1970-01-09T00:00:00.000Z" then Some (8 * day)
           else None
       | _ => None
       end;
     match_from_url := fun _ => None |}.

Definition permalink : string := "https://example.slack.com/archives/C0FEEDBACK/p111222".

(** Services whose clock stands at [now], and that all answer, except that
    the model and the backlog store answer as given. *)
Definition services (now : Z) (model : completion (list content_block))
    (notion : completion (option page)) : env :=
  {| clock := fun _ => now;
     fs_writable := true;
     approvalChannelId := Some "C0APPROVAL";
     messages_create := fun _ _ => model;
     users_info := fun _ =>
       Normal (Some {| ui_real_name := Some "Ada Lovelace";
                       ui_profile_real_name := None;
                       ui_profile_display_name := None;
                       ui_name := Some "ada" |});
     chat_getPermalink := fun _ _ => Normal (Some permalink);
     chat_postMessage := fun _ => Normal tt;
     views_open := fun _ _ => Normal tt;
     notion_createTask := fun _ => notion;
     notion_assignTaskToPerson := fun _ _ => Normal tt;
     fetch := fun _ _ => Normal true |}.

Definition model_answers : completion (list content_block) :=
  Normal [ {| cb_type := "text"; cb_text := reply |} ].

Definition notion_answers : completion (option page) :=
  Normal (Some {| page_id := "59833787-2cf9-4fdf-8782-e53db20768a5" |}).

(** Every service answers, on the first of January 1970. *)
Definition healthy : env := services 0 model_answers notion_answers.

(** The same, eight days later. *)
Definition later : env := services (8 * day) model_answers notion_answers.

(** The model API is unreachable. *)
Definition model_down : env := services 0 (Throw "APIConnectionError") notion_answers.

(** The backlog store is unreachable. *)
Definition notion_down : env := services 0 model_answers (Throw "APIResponseError").

Definition ev : event :=
  {| ev_ts := "111.222";
     ev_text := Some "the search feature is broken on mobile";
     ev_user := Some "U123";
     ev_channel := Some "C0FEEDBACK";
     ev_attachments := None |}.

(** A message of white space, with an attachment that carries no text. *)
Definition blank_ev : event :=
  {| ev_ts := "111.333";
     ev_text := Some "   ";
     ev_user := Some "U123";
     ev_channel := Some "C0FEEDBACK";
     ev_attachments :=
       Some [ {| att_text := None; att_title := None; att_fallback := None;
                 att_author_name := Some "Grace"; att_from_url := None |} ] |}.

(** A process that has just started, with no data file. *)
Definition fresh : world :=
  {| pendingApprovals := ∅; processedMessages := ∅; dataFile := None;
     tick := 0; trace := []; console := [] |}.

Definition key : string := "msg_111_222".

Definition url : string := "https://hooks.slack.com/actions/T0/1/abc".

(** The clicks on the buttons of the prompt. *)
Definition click_approve : list action := [ {| action_id := "approve_" +:+ key; value := key |} ].

Definition click_reject : list action := [ {| action_id := "reject_" +:+ key; value := key |} ].

(** The world after the message was ingested: its candidate is pending. *)
Definition ingested : world :=
  (@processFeedbackMessage runtime healthy ev fresh).2.

(** The candidate that ingestion registered. *)
Definition registered : obj :=
  @pending_at runtime 0
    (@described runtime "Ada Lovelace"
       (item_of (message_of ev) (<["sourceName" := JStr "#feedback"]> judgment))).

(** The world after a click on ``Reject''. *)
Definition rejected : world :=
  (@handleBlockActions runtime healthy click_reject None (Some url) ingested).2.

(** The world after a click on ``Approve as-is'' while the backlog store was
    unreachable: the candidate is approved, and no task exists. *)
Definition approved : world :=
  (@handleBlockActions runtime notion_down click_approve None (Some url) ingested).2.

End Sample.

(** * The rest of the code

    The functions the properties above did not need: the rest of the Slack
    client, the Notion client, and the two routes of the server that receive
    what Slack sends. Their calls are recorded in lists of their own. *)

(** ** The configuration

    [config.js] is not among the sources at hand: the values the code reads
    from it are the fields of a record. *)
Record config : Type := {
  (** [config.slack_approval.channelId] *)
  slack_approval_channelId : option string;
  (** [config.slack_approval.channelName] *)
  slack_approval_channelName : string;
  (** [config.slack_feedback.channelName] *)
  slack_feedback_channelName : string;
  (** [config.scheduler.maxMessagesPerRun] *)
  scheduler_maxMessagesPerRun : nat;
  (** [config.scheduler.minMessageLength] *)
  scheduler_minMessageLength : nat;
}.

(** ** SlackClient: channels and history *)

(** A channel of [conversations.list]. *)
Record channel : Type := {
  ch_id : string;
  ch_name : string;
}.

(** A message of [conversations.history], with the fields the client reads. *)
Record history_message : Type := {
  hm_bot_id : option string;
  hm_thread_ts : option string;
  hm_text : option string;
  hm_user : option string;
  hm_ts : string;
}.

(** The calls of the Slack API the functions below make. *)
Inductive slack_call : Type :=
  | ConversationsList
  | ConversationsHistory (channel : string) (oldest : Z) (limit : nat).

(** What Slack answers to them. *)
Record slack_api : Type := {
  conversations_list : completion (list channel);
  conversations_history : string -> Z -> nat -> completion (list history_message);
}.

(** [channels.find(ch => ch.name === name)] *)
Definition find_channel (name : string) (channels : list channel) : option channel :=
  List.find (fun ch => String.eqb (ch_name ch) name) channels.

(** [initialize()]: the value of [this.approvalChannelId] afterwards, which
    starts as [null], and the calls made. *)
Definition initialize (cfg : config) (api : slack_api) : option string * list slack_call :=
  if opt_truthy (slack_approval_channelId cfg)
  then (slack_approval_channelId cfg, [])
  else
    match conversations_list api with
    | Normal channels =>
        match find_channel (slack_approval_channelName cfg) channels with
        | Some channel => (Some (ch_id channel), [ConversationsList])
        | None => (None, [ConversationsList])
        end
    | Throw _ => (None, [ConversationsList])
    end.

(** The test and the [push] of the loop over the history. *)
Definition recent_message (cfg : config) (channel : channel) (msg : history_message)
    : option message :=
  if negb (opt_truthy (hm_bot_id msg)) && negb (opt_truthy (hm_thread_ts msg))
     && opt_truthy (hm_text msg)
     && (scheduler_minMessageLength cfg <=? String.length (default "" (hm_text msg)))%nat
  then Some {| msg_text := default "" (hm_text msg);
               msg_userId := hm_user msg;
               msg_channelId := Some (ch_id channel);
               msg_channelName := ch_name channel;
               msg_ts := hm_ts msg |}
  else None.

(** [getRecentMessages(lookbackDays)] when [Date.now()] is [now]. *)
Definition getRecentMessages (cfg : config) (api : slack_api) (now lookbackDays : Z)
    : list message * list slack_call :=
  let lookbackTime := now / 1000 - lookbackDays * 24 * 60 * 60 in
  match conversations_list api with
  | Normal channels =>
      match find_channel (slack_feedback_channelName cfg) channels with
      | None => ([], [ConversationsList])
      | Some feedbackChannel =>
          let limit := scheduler_maxMessagesPerRun cfg in
          let calls :=
            [ConversationsList; ConversationsHistory (ch_id feedbackChannel) lookbackTime limit] in
          match conversations_history api (ch_id feedbackChannel) lookbackTime limit with
          | Normal history => (omap (recent_message cfg feedbackChannel) history, calls)
          | Throw _ => ([], calls)
          end
      end
  | Throw _ => ([], [ConversationsList])
  end.

(** ** NotionClient *)

(** [toUpperCase] and [toLowerCase] of the runtime. *)
Class Casing : Type := {
  toUpperCase : string -> string;
  toLowerCase : string -> string;
}.

(** The values of the properties of a page the client writes. *)
Inductive property : Type :=
  | Title (content : jsval)
  | RichText (content : jsval)
  | Select (name : jsval)
  | DateStart (start : json)
  | Url (url : json)
  | MultiSelect (names : list string)
  | People (ids : list string).

(** A user of [users.list]. *)
Record notion_user : Type := {
  nu_id : string;
  nu_name : option string;
}.

(** The calls of the Notion API the client makes. *)
Inductive notion_call : Type :=
  | PagesCreate (properties : gmap string property)
  | PagesUpdate (pageId : string) (properties : gmap string property)
  | UsersList.

(** What Notion answers to them. *)
Record notion_api : Type := {
  pages_create : gmap string property -> completion page;
  pages_update : string -> gmap string property -> completion page;
  users_list : completion (list notion_user);
}.

(** [capitalizeFirst(str)]: a falsy value is returned as it is, and a truthy
    value that is not a string has no [charAt]. *)
Definition capitalizeFirst `{Casing} (str : jsval) : completion jsval :=
  if negb (truthy str) then Normal str
  else
    match str with
    | Some (JStr (String c rest)) =>
        Normal (Some (JStr (toUpperCase (String c "") +:+ toLowerCase rest)))
    | _ => Throw "TypeError"
    end.

(** [createTask(feedback)]: how it completes, and the calls made. The
    [catch] logs the error and throws it again. *)
Definition createTask `{Casing} (api : notion_api) (feedback : taskData)
    : completion page * list notion_call :=
  let properties : gmap string property := {["Name" := Title (td_title feedback)]} in
  let properties :=
    if truthy (td_description feedback)
    then <["Description" := RichText (td_description feedback)]> properties
    else properties in
  let properties :=
    if truthy (td_priority feedback)
    then <["Priority" := Select (td_priority feedback)]> properties
    else properties in
  match (if truthy (td_type feedback) then capitalizeFirst (td_type feedback)
         else Normal None) with
  | Throw error => (Throw error, [])
  | Normal area =>
      let properties :=
        if truthy (td_type feedback) then <["Area" := Select area]> properties
        else properties in
      let properties :=
        if truthy (Some (td_dueDate feedback))
        then <["Due Date" := DateStart (td_dueDate feedback)]> properties
        else properties in
      let properties :=
        if truthy (Some (td_messageLink feedback))
        then <["Slack Message Link" := Url (td_messageLink feedback)]> properties
        else properties in
      let properties := <["Multi-select" := MultiSelect ["To-do"]]> properties in
      (pages_create api properties, [PagesCreate properties])
  end.

(** [(u.name || '').toLowerCase().includes(personName.toLowerCase())] *)
Definition name_matches `{Casing} (personName : string) (u : notion_user) : bool :=
  let name := if opt_truthy (nu_name u) then default "" (nu_name u) else "" in
  match indexOf (toLowerCase personName) (toLowerCase name) with
  | Some _ => true
  | None => false
  end.

(** [assignTaskToPerson(pageId, personName)] *)
Definition assignTaskToPerson `{Casing} (api : notion_api)
    (pageId personName : string) : completion page * list notion_call :=
  match users_list api with
  | Throw error => (Throw error, [UsersList])
  | Normal results =>
      match List.find (name_matches personName) results with
      | None =>
          (Throw ("User " +:+ String "034"%char "" +:+ personName +:+ String "034"%char ""
                  +:+ " not found"), [UsersList])
      | Some user =>
          let properties : gmap string property := {["Person" := People [nu_id user]]} in
          (pages_update api pageId properties, [UsersList; PagesUpdate pageId properties])
      end
  end.

(** ** InteractiveServer: the routes

    A route answers the request, then lets the handler run without waiting
    for it; here the handler has run when the route returns, which is the
    course of a request that no other request overlaps. Deliveries that
    overlap are the subject of the section after this one. The lines the
    routes print are not recorded. *)

(** The server besides its approval handler. *)
Record server : Type := {
  (** the approval handler, and the calls made through it *)
  handler : world;
  (** [this.feedbackChannelId], [null] at first *)
  feedbackChannelId : option string;
  (** the calls of [conversations.list] made so far *)
  lookups : nat;
}.

(** The event of an [event_callback], with the fields the route reads besides
    those [processFeedbackMessage] reads. *)
Record slack_event : Type := {
  se_type : string;
  se_bot_id : option string;
  se_thread_ts : option string;
  se_event : event;
}.

(** The body of a request to [/slack/events]: a URL verification, an event
    callback, or a body of another type. *)
Inductive events_body : Type :=
  | UrlVerification (challenge : jsval)
  | EventCallback (event : slack_event)
  | OtherEvents.

(** The payload of an interaction. *)
Record interaction : Type := {
  ia_type : option string;
  ia_actions : option (list action);
  ia_trigger_id : option string;
  ia_response_url : option string;
}.

(** The body of a request to [/slack/interactions]: a [payload] field that
    [JSON.parse] rejects with an error, or a payload. *)
Inductive interactions_body : Type :=
  | BadPayload (error : string)
  | Payload (payload : interaction).

(** What [res.status(..).json(..)] sends. *)
Inductive response : Type :=
  | Challenge (status : nat) (challenge : jsval)
  | Empty (status : nat)
  | Failure (status : nat) (error : string).

(** A promise left to settle: a rejection is only printed. *)
Definition settle (m : M unit) (s : server) : server :=
  {| handler := (m (handler s)).2;
     feedbackChannelId := feedbackChannelId s;
     lookups := lookups s |}.

(** [getFeedbackChannelId()], where the [n]-th call of [conversations.list]
    of the server is answered by [directory n]. *)
Definition getFeedbackChannelId (directory : nat -> completion (list channel)) (s : server)
    : option string * server :=
  if opt_truthy (feedbackChannelId s) then (feedbackChannelId s, s)
  else
    let asked (id : option string) :=
      {| handler := handler s; feedbackChannelId := id; lookups := S (lookups s) |} in
    match directory (lookups s) with
    | Normal channels =>
        match find_channel "feedback" channels with
        | Some feedbackChannel =>
            (Some (ch_id feedbackChannel), asked (Some (ch_id feedbackChannel)))
        | None => (None, asked (feedbackChannelId s))
        end
    | Throw _ => (None, asked (feedbackChannelId s))
    end.

(** [event.text || (event.attachments && event.attachments.length > 0)] *)
Definition has_content (ev : event) : bool :=
  opt_truthy (ev_text ev)
  || match ev_attachments ev with
     | Some attachments => (0 <? length attachments)%nat
     | None => false
     end.

(** [event.channel === feedbackChannelId && !event.bot_id && !event.thread_ts] *)
Definition from_feedback_channel (e : slack_event) (feedbackChannelId : option string) : bool :=
  match ev_channel (se_event e), feedbackChannelId with
  | Some c, Some id => String.eqb c id
  | _, _ => false
  end
  && negb (opt_truthy (se_bot_id e)) && negb (opt_truthy (se_thread_ts e)).

(** The handler of [POST /slack/events]. *)
Definition slack_events `{Runtime} (E : env) (directory : nat -> completion (list channel))
    (body : events_body) (s : server) : response * server :=
  match body with
  | UrlVerification challenge => (Challenge 200 challenge, s)
  | EventCallback e =>
      (Empty 200,
       if String.eqb (se_type e) "message" && has_content (se_event e)
       then
         let (id, s) := getFeedbackChannelId directory s in
         if from_feedback_channel e id
         then settle (processFeedbackMessage E (se_event e)) s
         else s
       else s)
  | OtherEvents => (Empty 200, s)
  end.

(** The handler of [POST /slack/interactions]. *)
Definition slack_interactions `{Runtime} (E : env) (body : interactions_body) (s : server)
    : response * server :=
  match body with
  | BadPayload error => (Failure 500 error, s)
  | Payload payload =>
      (Empty 200,
       match ia_type payload with
       | Some type =>
           if String.eqb type "block_actions"
           then
             match ia_actions payload with
             | Some actions =>
                 settle (handleBlockActions E actions (ia_trigger_id payload)
                           (ia_response_url payload)) s
             | None => s
             end
           else s
       | None => s
       end)
  end.

(** A request to one of the two routes. *)
Inductive request : Type :=
  | Events (body : events_body)
  | Interactions (body : interactions_body).

(** The requests of a list, served one after the other. *)
Fixpoint serve `{Runtime} (E : env) (directory : nat -> completion (list channel))
    (requests : list request) (s : server) : list response * server :=
  match requests with
  | r :: rest =>
      let (answer, s) :=
        match r with
        | Events body => slack_events E directory body s
        | Interactions body => slack_interactions E body s
        end in
      let (answers, s) := serve E directory rest s in
      (answer :: answers, s)
  | [] => ([], s)
  end.

(** ** InteractiveServer: deliveries that overlap

    The route starts [processFeedbackMessage] and does not await it. The
    function runs at once up to its first [await], the call of the
    analyzer, and the route returns; the rest runs when the analyzer has
    answered, and other deliveries may have been started by then. Here the
    rest of a handler, once it resumes, runs to its end. *)

(** [processFeedbackMessage] up to the call of the analyzer: the message it
    goes on with, when it does not return before. *)
Definition processFeedbackMessage_start (ev : event) : M (option message) :=
  let messageTs := ev_ts ev in
  processed <- isProcessed messageTs ;;
  if processed then log LogAlreadyProcessed ;; ret None
  else
    let messageText := messageText_of ev in
    if negb (str_truthy messageText) || (String.length (trim messageText) =? 0)%nat
    then log LogNoText ;; ret None
    else
      ret (Some {| msg_text := trim messageText;
                   msg_userId := ev_user ev;
                   msg_channelId := ev_channel ev;
                   msg_channelName := "feedback";
                   msg_ts := messageTs |}).

(** [processFeedbackMessage] from the call of the analyzer on, in its
    [try] block. *)
Definition processFeedbackMessage_rest `{Runtime} (E : env) (ev : event) (message : message)
    : M unit :=
  try_catch
    (feedbackArray <- analyzeBatch E [message] ;;
     (if (0 <? length feedbackArray)%nat
      then
        reporterName <- reporterName_of E ev ;;
        for_each feedbackArray (request_approval E message reporterName)
      else log LogNoFeedback) ;;
     markAsProcessed E (ev_ts ev))
    (fun error =>
       log (LogError "Error processing feedback message:") ;;
       throw error).

(** A handler that was started and waits for the analyzer. *)
Record job : Type := {
  job_event : event;
  job_message : message;
}.

(** The server and the handlers in flight, the oldest first. *)
Record busy : Type := {
  srv : server;
  in_flight : list job;
}.

(** The server with another state of its approval handler. *)
Definition with_handler (w : world) (s : server) : server :=
  {| handler := w; feedbackChannelId := feedbackChannelId s; lookups := lookups s |}.

(** An event callback arrives at [POST /slack/events]: the route answers,
    and for a message that passes its tests [processFeedbackMessage] is
    started. When the identifier of the feedback channel is not known yet,
    the route awaits the list of channels first; that wait is not split
    here. *)
Definition arrives (directory : nat -> completion (list channel)) (e : slack_event)
    (b : busy) : response * busy :=
  (Empty 200,
   if String.eqb (se_type e) "message" && has_content (se_event e)
   then
     let (id, s) := getFeedbackChannelId directory (srv b) in
     if from_feedback_channel e id
     then
       match processFeedbackMessage_start (se_event e) (handler s) with
       | (Normal (Some message), w) =>
           {| srv := with_handler w s;
              in_flight :=
                in_flight b ++ [ {| job_event := se_event e; job_message := message |} ] |}
       | (_, w) => {| srv := with_handler w s; in_flight := in_flight b |}
       end
     else {| srv := s; in_flight := in_flight b |}
   else b).

(** The analyzer answers the handler at place [i] of those in flight: the
    handler runs on; when it rejects, that is only printed. *)
Definition resumes `{Runtime} (E : env) (i : nat) (b : busy) : busy :=
  match in_flight b !! i with
  | Some j =>
      {| srv := settle (processFeedbackMessage_rest E (job_event j) (job_message j)) (srv b);
         in_flight := delete i (in_flight b) |}
  | None => b
  end.

(** What happens at the server, in turn. *)
Inductive turn : Type :=
  | Arrives (e : slack_event)
  | Resumes (i : nat).

Fixpoint run `{Runtime} (E : env) (directory : nat -> completion (list channel))
    (turns : list turn) (b : busy) : busy :=
  match turns with
  | Arrives e :: rest => run E directory rest (arrives directory e b).2
  | Resumes i :: rest => run E directory rest (resumes E i b)
  | [] => b
  end.

(** * More to read in a run *)

(** ** In a store *)

(** The three states a candidate goes through. *)
Definition known_status (c : obj) : bool :=
  has_status "pending" c || has_status "approved" c || has_status "rejected" c.

(** Every stored candidate is pending, approved or rejected. *)
Definition statuses_known (w : world) : Prop :=
  map_Forall (fun _ c => known_status c = true) (pendingApprovals w).

(** The candidate [approveFeedback] stores at time [now], with its updates. *)
Definition approved_with `{Runtime} (now : Z) (approval : obj) (updates : option obj) : obj :=
  <["approvedAt" := JStr (toISOString now)]>
    (<["status" := JStr "approved"]> (spread approval updates)).

(** The writes to the data file in a trace. *)
Definition written (tr : list effect) : list snapshot :=
  omap (fun e => match e with EWriteFile data => Some data | _ => None end) tr.

(** The run [r] that started in [w] returned, could not write the data file
    and said so on the console; a process that starts after it finds the
    memory of [w]. *)
Definition unsaved `{Runtime} {A} (w : world) (r : completion A * world) : Prop :=
  (exists a, r.1 = Normal a) /\
  dataFile r.2 = dataFile w /\
  written (trace r.2) = written (trace w) /\
  LogError "Error saving approval data:" ∈ console r.2 /\
  same_memory w (constructor r.2).2.

(** ** In a batch *)

(** The source name [analyzeBatch] gives for a message. *)
Definition sourceName_of (msg : message) : string := "#" +:+ msg_channelName msg.

(** The items [analyzeBatch] returns: one for each message the model judges
    to be feedback, in the order of the messages. *)
Definition batch_items `{Runtime} (E : env) (messages : list message) : list obj :=
  omap (fun msg =>
          item_of msg <$>
            judgment_of (messages_create E (sourceName_of msg) (msg_text msg))
              (sourceName_of msg))
    messages.

(** The calls of the model [analyzeBatch] makes. *)
Definition batch_calls (messages : list message) : list effect :=
  (fun msg => EModelCall (sourceName_of msg) (msg_text msg)) <$> messages.

(** ** In a string *)

(** The string holds white space only, or nothing. *)
Fixpoint blank (s : string) : bool :=
  match s with
  | String c t => is_space c && blank t
  | EmptyString => true
  end.

(** The text and the attachment texts [messageText_of] puts together. *)
Definition text_parts (ev : event) : list string :=
  default "" (ev_text ev) :: (attachment_text <$> default [] (ev_attachments ev)).

(** ** In a prompt *)

(** The buttons of a list of blocks. *)
Definition buttons (blocks : list block) : list element :=
  concat ((fun b => match b with Actions elements => elements | _ => [] end) <$> blocks).

(** The action Slack reports for a click on a button that has an action
    identifier and a value. *)
Definition click (e : element) : option action :=
  match e with
  | Button _ (Some value) (Some action_id) _ _ =>
      Some {| action_id := action_id; value := value |}
  | _ => None
  end.

(** The pages the buttons of a list of blocks link to. *)
Definition links (blocks : list block) : list string :=
  omap (fun e => match e with Button _ _ _ _ url => url end) (buttons blocks).

(** ** In a click *)

(** The action is a click on ``Approve as-is''. *)
Definition approves (a : action) : Prop := String.prefix "approve_" (action_id a) = true.

(** The action identifier starts with none of the four prefixes
    [handleBlockActions] knows. *)
Definition unknown (a : action) : Prop :=
  String.prefix "approve_" (action_id a) = false /\
  String.prefix "reject_" (action_id a) = false /\
  String.prefix "review_" (action_id a) = false /\
  String.prefix "assign_john_" (action_id a) = false.

(** The modal [handleReview] opens for a candidate. *)
Definition review_modal_of (messageId : string) (approval : obj) : review_modal :=
  {| rm_callback_id := "review_modal_" +:+ messageId;
     rm_title := approval !! "title";
     rm_description := approval !! "description" |}.

(** The calls [notify] makes: one post to the response URL, when there is
    one. *)
Definition update_posts (responseUrl : option string) (body : slack_update) : list effect :=
  match responseUrl with
  | Some url => if str_truthy url then [EFetch url body] else []
  | None => []
  end.

(** What ``Assign to John'' tells the user, by the answer of the backlog
    store. *)
Definition assign_outcome (answer : completion unit) : slack_update :=
  match answer with
  | Normal _ => assigned_update
  | Throw _ => assign_failed_update
  end.

(** ** In a reporter *)

(** The name [reporterName_of] finds for an event: the name of its user by
    what [users.info] answers, and when that leaves [Unknown], the author of
    a forwarded message. *)
Definition reporter_of `{Runtime} (E : env) (ev : event) : string :=
  let reporterName :=
    match ev_user ev with
    | Some user =>
        if str_truthy user
        then match users_info E user with
             | Normal (Some u) => name_of_userInfo u "Unknown"
             | _ => "Unknown"
             end
        else "Unknown"
    | None => "Unknown"
    end in
  if String.eqb reporterName "Unknown"
  then forwarded_name (default [] (ev_attachments ev)) reporterName
  else reporterName.

(** ** In a request *)

(** What a route answers to a request. *)
Definition reply_to (r : request) : response :=
  match r with
  | Events (UrlVerification challenge) => Challenge 200 challenge
  | Interactions (BadPayload error) => Failure 500 error
  | _ => Empty 200
  end.

(** The request reaches neither [processFeedbackMessage] nor
    [handleBlockActions] when the feedback channel is known as [id]. *)
Definition passed_over (id : option string) (r : request) : Prop :=
  match r with
  | Events (EventCallback e) =>
      se_type e <> "message" \/ has_content (se_event e) = false \/
      from_feedback_channel e id = false
  | Interactions (Payload payload) =>
      ia_type payload <> Some "block_actions" \/ ia_actions payload = None
  | _ => True
  end.

(** A message event with text or attachments. *)
Definition message_event (e : slack_event) : Prop :=
  se_type e = "message" /\ has_content (se_event e) = true.

(** ** In a page *)

(** The names of the properties [createTask] can set. *)
Definition task_properties : gset string :=
  {[ "Name"; "Description"; "Priority"; "Area"; "Due Date"; "Slack Message Link";
     "Multi-select" ]}.

(** [createTask] of the client, as the server calls it: a page is truthy. *)
Definition createTask_answer `{Casing} (api : notion_api) (feedback : taskData)
    : completion (option page) :=
  match (createTask api feedback).1 with
  | Normal page => Normal (Some page)
  | Throw error => Throw error
  end.

(** ** More sample data *)
Module Outage.

(** The services of the scenario on a disk that cannot be written. *)
Definition read_only : env :=
  {| clock := clock Sample.healthy;
     fs_writable := false;
     approvalChannelId := approvalChannelId Sample.healthy;
     messages_create := messages_create Sample.healthy;
     users_info := users_info Sample.healthy;
     chat_getPermalink := chat_getPermalink Sample.healthy;
     chat_postMessage := chat_postMessage Sample.healthy;
     views_open := views_open Sample.healthy;
     notion_createTask := notion_createTask Sample.healthy;
     notion_assignTaskToPerson := notion_assignTaskToPerson Sample.healthy;
     fetch := fetch Sample.healthy |}.

(** The page the backlog store answers with in the scenario. *)
Definition task_page : page := {| page_id := "59833787-2cf9-4fdf-8782-e53db20768a5" |}.

End Outage.

(** A workspace: its configuration, its channels and its users. *)
Module Workspace.

Definition settings : config :=
  {| slack_approval_channelId := None;
     slack_approval_channelName := "bot-feedback";
     slack_feedback_channelName := "feedback";
     scheduler_maxMessagesPerRun := 50;
     scheduler_minMessageLength := 10 |}.

Definition channels : list channel :=
  [ {| ch_id := "C0GENERAL"; ch_name := "general" |};
    {| ch_id := "C0FEEDBACK"; ch_name := "feedback" |} ].

(** The history of the feedback channel: the message of the scenario, a
    short one, and one a bot wrote. *)
Definition history : list history_message :=
  [ {| hm_bot_id := None; hm_thread_ts := None;
       hm_text := Some "the search feature is broken on mobile";
       hm_user := Some "U123"; hm_ts := "111.222" |};
    {| hm_bot_id := None; hm_thread_ts := None; hm_text := Some "ok";
       hm_user := Some "U123"; hm_ts := "111.444" |};
    {| hm_bot_id := Some "B1"; hm_thread_ts := None;
       hm_text := Some "New Customer Feedback Detected";
       hm_user := None; hm_ts := "111.555" |} ].

(** Slack lists the channels, none of them the approval channel. *)
Definition slack : slack_api :=
  {| conversations_list := Normal channels;
     conversations_history := fun _ _ _ => Normal history |}.

(** The services of the scenario when the approval channel was not found. *)
Definition no_channel : env :=
  {| clock := clock Sample.healthy;
     fs_writable := true;
     approvalChannelId := (initialize settings slack).1;
     messages_create := messages_create Sample.healthy;
     users_info := users_info Sample.healthy;
     chat_getPermalink := chat_getPermalink Sample.healthy;
     chat_postMessage := chat_postMessage Sample.healthy;
     views_open := views_open Sample.healthy;
     notion_createTask := notion_createTask Sample.healthy;
     notion_assignTaskToPerson := notion_assignTaskToPerson Sample.healthy;
     fetch := fetch Sample.healthy |}.

(** Letters of the basic Latin alphabet change case; the values met below
    hold no other letters. *)
Definition upper (c : ascii) : ascii :=
  let n := nat_of_ascii c in
  if ((97 <=? n) && (n <=? 122))%nat then ascii_of_nat (n - 32) else c.

Definition lower (c : ascii) : ascii :=
  let n := nat_of_ascii c in
  if ((65 <=? n) && (n <=? 90))%nat then ascii_of_nat (n + 32) else c.

Fixpoint map_string (f : ascii -> ascii) (s : string) : string :=
  match s with
  | String c t => String (f c) (map_string f t)
  | EmptyString => EmptyString
  end.

Definition casing : Casing :=
  {| toUpperCase := map_string upper; toLowerCase := map_string lower |}.

Definition users : list notion_user :=
  [ {| nu_id := "u-1"; nu_name := Some "Ada Lovelace" |};
    {| nu_id := "u-2"; nu_name := None |};
    {| nu_id := "u-3"; nu_name := Some "John Rice" |};
    {| nu_id := "u-4"; nu_name := Some "john rice (contractor)" |} ].

(** Notion creates the page of the scenario, and knows the users. *)
Definition notion : notion_api :=
  {| pages_create := fun _ => Normal Outage.task_page;
     pages_update := fun pageId _ => Normal {| page_id := pageId |};
     users_list := Normal users |}.

(** The services of the scenario, with this Notion behind [createTask]. *)
Definition office : env :=
  {| clock := clock Sample.healthy;
     fs_writable := true;
     approvalChannelId := approvalChannelId Sample.healthy;
     messages_create := messages_create Sample.healthy;
     users_info := users_info Sample.healthy;
     chat_getPermalink := chat_getPermalink Sample.healthy;
     chat_postMessage := chat_postMessage Sample.healthy;
     views_open := views_open Sample.healthy;
     notion_createTask := @createTask_answer casing notion;
     notion_assignTaskToPerson := notion_assignTaskToPerson Sample.healthy;
     fetch := fetch Sample.healthy |}.

(** The server of the scenario once the message was ingested and the
    feedback channel is known. *)
Definition running : server :=
  {| handler := Sample.ingested; feedbackChannelId := Some "C0FEEDBACK"; lookups := 1 |}.

(** The server once the feedback channel is known, before any message. *)
Definition listening : server :=
  {| handler := Sample.fresh; feedbackChannelId := Some "C0FEEDBACK"; lookups := 1 |}.

(** The server when it starts. *)
Definition started : server :=
  {| handler := Sample.fresh; feedbackChannelId := None; lookups := 0 |}.

(** The event of the scenario as Slack delivers it. *)
Definition delivery : slack_event :=
  {| se_type := "message"; se_bot_id := None; se_thread_ts := None; se_event := Sample.ev |}.

(** The prompt of the bot, as an event of the approval channel. *)
Definition own_prompt : slack_event :=
  {| se_type := "message"; se_bot_id := Some "B1"; se_thread_ts := None;
     se_event := {| ev_ts := "111.555"; ev_text := Some "New Customer Feedback Detected";
                    ev_user := None; ev_channel := Some "C0APPROVAL";
                    ev_attachments := None |} |}.

(** The submission of the review modal. *)
Definition submission : interaction :=
  {| ia_type := Some "view_submission"; ia_actions := None;
     ia_trigger_id := Some "T1"; ia_response_url := None |}.

End Workspace.

(** A reply of the model whose [isFeedback] is a string. *)
Module Coerced.

Definition reply : string :=
  "{" +:+ Sample.field "isFeedback" (Sample.quoted "false") +:+ ", "
      +:+ Sample.field "confidence" "85" +:+ "}".

(** The object that text denotes. *)
Definition judgment : obj :=
  <["isFeedback" := JStr "false"]> (<["confidence" := JNum 85]> ∅).

(** The runtime of the scenario, which parses this reply. *)
Definition runtime : Runtime :=
  {| JSON_parse := fun text =>
       if String.eqb text reply then Some (JObj judgment) else None;
     ToString := @ToString Sample.runtime;
     ToNumber_ge := @ToNumber_ge Sample.runtime;
     toISOString := @toISOString Sample.runtime;
     Date_getTime := @Date_getTime Sample.runtime;
     match_from_url := @match_from_url Sample.runtime |}.

(** The services of the scenario, with a model that gives this reply. *)
Definition services : env :=
  Sample.services 0 (Normal [ {| cb_type := "text"; cb_text := reply |} ]) Sample.notion_answers.

End Coerced.

(** * Properties *)

Section Properties.
Context `{R : Runtime}.

(** Runs the operation the goal has reached by a lemma of the form
    [exists w', op w = (Normal a, w') /\ ...]. *)
Ltac run_by lem :=
  let w1 := fresh "w" in
  let Hrun := fresh "Hrun" in
  edestruct lem as (w1 & Hrun & ?); rewrite Hrun; clear Hrun; simpl.

(** ** Traces *)

Lemma posted_app (t1 t2 : list effect) : posted (t1 ++ t2) = posted t1 ++ posted t2.
Proof. unfold posted. apply omap_app. Qed.

Lemma created_app (t1 t2 : list effect) : created (t1 ++ t2) = created t1 ++ created t2.
Proof. unfold created. apply omap_app. Qed.

Lemma quiet_refl (w : world) : quiet w w.
Proof. exists []. by rewrite app_nil_r. Qed.

Lemma quiet_trans (w1 w2 w3 : world) : quiet w1 w2 -> quiet w2 w3 -> quiet w1 w3.
Proof.
  intros (t1 & H1 & P1 & C1) (t2 & H2 & P2 & C2).
  exists (t1 ++ t2). rewrite H2, H1, posted_app, created_app, P1, P2, C1, C2.
  by rewrite app_assoc.
Qed.

Lemma quiet_posted (w w' : world) : quiet w w' -> posted (trace w') = posted (trace w).
Proof. intros (t & -> & P & _). by rewrite posted_app, P, app_nil_r. Qed.

Lemma quiet_created (w w' : world) : quiet w w' -> created (trace w') = created (trace w).
Proof. intros (t & -> & _ & C). by rewrite created_app, C, app_nil_r. Qed.

(** ** The approval store *)

Lemma saveData_spec (E : env) (w : world) :
  exists w', saveData E w = (Normal tt, w') /\
    same_memory w w' /\ quiet w w' /\
    (fs_writable E = true ->
       dataFile w' = Some (Stored (snapshot_of w (clock E (tick w)))) /\
       trace w' = trace w ++ [EWriteFile (snapshot_of w (clock E (tick w)))]) /\
    (fs_writable E = false -> dataFile w' = dataFile w /\ trace w' = trace w).
Proof.
  unfold saveData, try_catch, bind, Date_now, gets, modify, throw, log. simpl.
  destruct (fs_writable E); simpl; eexists; (split; [reflexivity|]).
  - repeat split; try done. by eexists [_].
  - repeat split; try done. exists []. by rewrite app_nil_r.
Qed.

Lemma addPendingApproval_spec (E : env) (messageId : string) (feedback : obj) (w : world) :
  exists w', addPendingApproval E messageId feedback w = (Normal tt, w') /\
    pendingApprovals w' =
      <[messageId := pending_at (clock E (tick w)) feedback]> (pendingApprovals w) /\
    processedMessages w' = processedMessages w /\
    quiet w w'.
Proof.
  unfold addPendingApproval, bind, Date_now, modify. simpl.
  run_by (saveData_spec E). unfold same_memory in *. destruct_and!. eexists; split; [reflexivity|].
  repeat split; try done; congruence.
Qed.

Lemma markAsProcessed_spec (E : env) (messageTs : string) (w : world) :
  exists w', markAsProcessed E messageTs w = (Normal tt, w') /\
    pendingApprovals w' = pendingApprovals w /\
    processedMessages w' = {[messageTs]} ∪ processedMessages w /\
    quiet w w'.
Proof.
  unfold markAsProcessed, bind, modify. simpl.
  run_by (saveData_spec E). unfold same_memory in *. destruct_and!. eexists; split; [reflexivity|].
  repeat split; try done; congruence.
Qed.

Lemma saveData_persists (E : env) (w : world) :
  fs_writable E = true ->
  let w' := (saveData E w).2 in
  dataFile w' = Some (Stored (snapshot_of w' (clock E (tick w)))).
Proof.
  intros Hfs. destruct (saveData_spec E w) as (w1 & Hrun & [Hp Hs] & _ & Hw & _).
  rewrite Hrun. simpl. destruct (Hw Hfs) as [-> _].
  unfold snapshot_of. by rewrite Hp, Hs.
Qed.

Lemma removePendingApproval_spec (E : env) (messageId : string) (w : world) :
  exists w', removePendingApproval E messageId w = (Normal tt, w') /\
    pendingApprovals w' = delete messageId (pendingApprovals w) /\
    processedMessages w' = processedMessages w /\
    quiet w w'.
Proof.
  unfold removePendingApproval, bind, modify. simpl.
  run_by (saveData_spec E). unfold same_memory in *. destruct_and!. eexists; split; [reflexivity|].
  repeat split; try done; congruence.
Qed.

Lemma approveFeedback_absent (E : env) (messageId : string) (updates : option obj) (w : world) :
  pendingApprovals w !! messageId = None ->
  approveFeedback E messageId updates w = (Normal None, w).
Proof. intros H. unfold approveFeedback, bind, gets. by rewrite H. Qed.

Lemma rejectFeedback_absent (E : env) (messageId : string) (w : world) :
  pendingApprovals w !! messageId = None ->
  rejectFeedback E messageId w = (Normal None, w).
Proof. intros H. unfold rejectFeedback, bind, gets. by rewrite H. Qed.

Lemma approveFeedback_present (E : env) (messageId : string) (approval : obj) (w : world) :
  pendingApprovals w !! messageId = Some approval ->
  let approved := approved_at (clock E (tick w)) approval in
  exists w', approveFeedback E messageId None w = (Normal (Some approved), w') /\
    pendingApprovals w' = <[messageId := approved]> (pendingApprovals w) /\
    processedMessages w' = processedMessages w /\
    quiet w w'.
Proof.
  intros H. unfold approveFeedback, bind, gets, Date_now, modify. rewrite H. simpl.
  run_by (saveData_spec E). unfold same_memory in *. destruct_and!. eexists; split; [reflexivity|].
  repeat split; try done; congruence.
Qed.

Lemma rejectFeedback_present (E : env) (messageId : string) (approval : obj) (w : world) :
  pendingApprovals w !! messageId = Some approval ->
  let rejected := rejected_at (clock E (tick w)) approval in
  exists w', rejectFeedback E messageId w = (Normal (Some rejected), w') /\
    pendingApprovals w' = <[messageId := rejected]> (pendingApprovals w) /\
    processedMessages w' = processedMessages w /\
    quiet w w'.
Proof.
  intros H. unfold rejectFeedback, bind, gets, Date_now, modify. rewrite H. simpl.
  run_by (saveData_spec E). unfold same_memory in *. destruct_and!. eexists; split; [reflexivity|].
  repeat split; try done; congruence.
Qed.

(** ** The analyzer and the Slack client *)

Lemma analyzeFeedback_spec (E : env) (text sourceName : string) (w : world) :
  exists w',
    analyzeFeedback E text sourceName w
      = (Normal (judgment_of (messages_create E sourceName text) sourceName), w') /\
    same_store w w' /\ tick w' = tick w /\
    trace w' = trace w ++ [EModelCall sourceName text].
Proof.
  unfold analyzeFeedback, analyzeFeedback_try, try_catch, bind, call, judgment_of,
    responseText_of, accepted.
  destruct (messages_create E sourceName text) as [[|first rest]|e]; simpl;
    [by eexists| |by eexists].
  destruct (JSON_parse _) as [[| | | | |feedback]|]; simpl; try by eexists.
  destruct (truthy _ && ge_60 _); simpl; by eexists.
Qed.

Lemma analyzeBatch_one (E : env) (msg : message) (w : world) :
  let sourceName := "#" +:+ msg_channelName msg in
  exists w',
    analyzeBatch E [msg] w
      = (Normal (match judgment_of (messages_create E sourceName (msg_text msg)) sourceName with
                 | Some result => [item_of msg result]
                 | None => []
                 end), w') /\
    same_store w w' /\ tick w' = tick w /\
    trace w' = trace w ++ [EModelCall sourceName (msg_text msg)].
Proof.
  simpl. unfold bind at 1.
  run_by (analyzeFeedback_spec E). unfold ret, item_of.
  eexists; split; [|done]. by destruct (judgment_of _ _).
Qed.

Lemma getUserInfo_spec (E : env) (userId : string) (w : world) :
  exists u w', getUserInfo E userId w = (Normal u, w') /\
    same_store w w' /\ quiet w w' /\ tick w' = tick w.
Proof.
  unfold getUserInfo, try_catch, call, bind, log, modify, ret.
  destruct (users_info E userId) as [u|e]; simpl; eexists _, _; (split; [reflexivity|]);
    repeat split; by eexists [_].
Qed.

Lemma getMessagePermalink_spec (E : env) (channel : option string) (ts : string) (w : world) :
  exists w',
    getMessagePermalink E channel ts w
      = (Normal (match chat_getPermalink E channel ts with
                 | Normal p => p
                 | Throw _ => None
                 end), w') /\
    same_store w w' /\ quiet w w' /\ tick w' = tick w.
Proof.
  unfold getMessagePermalink, try_catch, call, bind, log, modify, ret.
  destruct (chat_getPermalink E channel ts) as [p|e]; simpl; eexists; (split; [reflexivity|]);
    repeat split; by eexists [_].
Qed.

Lemma sendApprovalMessage_spec (E : env) (feedback : obj) (messageId : string) (w : world) :
  exists sent w',
    sendApprovalMessage E feedback messageId w = (Normal sent, w') /\
    same_store w w' /\ tick w' = tick w /\
    trace w' = trace w ++ (EPostMessage <$> prompt_posts E feedback messageId).
Proof.
  unfold sendApprovalMessage, prompt_posts, prompt_for, try_catch, call, bind, log, modify, ret.
  destruct (approvalChannelId E) as [channel|]; simpl.
  - destruct (str_truthy channel); simpl.
    + destruct (chat_postMessage E _) as [[]|e]; simpl; by eexists _, _.
    + eexists _, _; split; [reflexivity|]. by rewrite app_nil_r.
  - eexists _, _; split; [reflexivity|]. by rewrite app_nil_r.
Qed.

Lemma posted_prompts (ms : list approval_message) : posted (EPostMessage <$> ms) = ms.
Proof.
  induction ms as [|m ms IH]; [done|].
  change (posted (EPostMessage <$> m :: ms)) with (m :: posted (EPostMessage <$> ms)).
  by rewrite IH.
Qed.

Lemma created_prompts (ms : list approval_message) : created (EPostMessage <$> ms) = [].
Proof.
  induction ms as [|m ms IH]; [done|].
  by change (created (EPostMessage <$> m :: ms)) with (created (EPostMessage <$> ms)).
Qed.

Lemma prompt_posts_length (E : env) (item : obj) (messageId : string) :
  (length (prompt_posts E item messageId) <= 1)%nat.
Proof.
  unfold prompt_posts. destruct (approvalChannelId E) as [channel|]; simpl; [|lia].
  destruct (str_truthy channel); simpl; lia.
Qed.

Lemma sendSlackUpdate_spec (E : env) (url : string) (body : slack_update) (w : world) :
  exists ok w', sendSlackUpdate E url body w = (Normal ok, w') /\
    same_store w w' /\ tick w' = tick w /\ trace w' = trace w ++ [EFetch url body].
Proof.
  unfold sendSlackUpdate, try_catch, call, bind, log, modify, ret.
  destruct (fetch E url body) as [ok|e]; simpl; by eexists _, _.
Qed.

Lemma notify_spec (E : env) (responseUrl : option string) (body : slack_update) (w : world) :
  exists w', notify E responseUrl body w = (Normal tt, w') /\
    same_store w w' /\ quiet w w' /\ tick w' = tick w /\
    (forall url, responseUrl = Some url -> url <> "" -> EFetch url body ∈ trace w').
Proof.
  unfold notify. destruct responseUrl as [url|]; simpl.
  - destruct (str_truthy url) eqn:Hurl.
    + unfold bind. destruct (sendSlackUpdate_spec E url body w) as (ok & w' & Hrun & Hs & Ht & Htr).
      rewrite Hrun. eexists; split; [reflexivity|]. repeat split; try apply Hs; try done.
      * by exists [EFetch url body].
      * intros ? [= <-] _. rewrite Htr. apply elem_of_app. right. by apply list_elem_of_singleton.
    + eexists; split; [reflexivity|]. repeat split; try apply quiet_refl.
      intros ? [= <-] Hne. unfold str_truthy in Hurl.
      apply negb_false_iff, String.eqb_eq in Hurl. done.
  - eexists; split; [reflexivity|]. repeat split; try apply quiet_refl. done.
Qed.

(** ** The ingestion path *)

Lemma reporterName_of_spec (E : env) (ev : event) (w : world) :
  exists name w', reporterName_of E ev w = (Normal name, w') /\
    same_store w w' /\ quiet w w' /\ tick w' = tick w.
Proof.
  unfold reporterName_of, bind at 1.
  assert (Hnone : exists name w', ret (A := string) "Unknown" w = (Normal name, w') /\
            same_store w w' /\ quiet w w' /\ tick w' = tick w).
  { eexists _, _; split; [reflexivity|]. repeat split. apply quiet_refl. }
  assert (Hfirst : exists name w',
            match ev_user ev with
            | Some user =>
                if str_truthy user
                then try_catch
                       (userInfo <- getUserInfo E user ;;
                        ret (match userInfo with
                             | Some u => name_of_userInfo u "Unknown"
                             | None => "Unknown"
                             end))
                       (fun _ => ret "Unknown")
                else ret "Unknown"
            | None => ret "Unknown"
            end w = (Normal name, w') /\
            same_store w w' /\ quiet w w' /\ tick w' = tick w).
  { destruct (ev_user ev) as [user|]; [|done].
    destruct (str_truthy user); [|done].
    unfold try_catch, bind.
    destruct (getUserInfo_spec E user w) as (u & w' & Hrun & Hrest).
    rewrite Hrun. simpl. by eexists _, _. }
  destruct Hfirst as (name & w' & Hrun & Hrest). rewrite Hrun.
  eexists _, _; split; [reflexivity|]. done.
Qed.

Lemma request_approval_spec (E : env) (msg : message) (reporterName : string) (item : obj)
    (w : world) :
  let messageId := messageId_of (msg_ts msg) in
  let shown := linked (chat_getPermalink E (msg_channelId msg) (msg_ts msg))
                 (described reporterName item) in
  exists w' t,
    request_approval E msg reporterName item w = (Normal tt, w') /\
    pendingApprovals w' =
      <[messageId := pending_at (clock E (tick w)) (described reporterName item)]>
        (pendingApprovals w) /\
    processedMessages w' = processedMessages w /\
    trace w' = trace w ++ t /\
    created t = [] /\
    posted t = prompt_posts E shown messageId.
Proof.
  intros messageId shown. unfold request_approval, bind at 1.
  destruct (addPendingApproval_spec E messageId (described reporterName item) w)
    as (w1 & Hrun1 & Hp1 & Hs1 & (t1 & Ht1 & Hpo1 & Hcr1)).
  fold messageId. unfold described in Hrun1. rewrite Hrun1. unfold bind at 1.
  destruct (getMessagePermalink_spec E (msg_channelId msg) (msg_ts msg) w1)
    as (w2 & Hrun2 & [[Hp2 Hs2] _] & (t2 & Ht2 & Hpo2 & Hcr2) & _).
  rewrite Hrun2. unfold bind.
  match goal with
  | |- context [sendApprovalMessage E ?it messageId w2] =>
      destruct (sendApprovalMessage_spec E it messageId w2)
        as (sent & w3 & Hrun3 & [[Hp3 Hs3] _] & _ & Ht3);
      assert (Hshown : it = shown)
  end.
  { unfold shown, linked, described.
    destruct (chat_getPermalink E _ _) as [[p|]|e]; simpl; try done;
      by destruct (str_truthy p). }
  rewrite Hrun3. unfold ret. rewrite Hshown in Ht3.
  eexists w3, (t1 ++ t2 ++ _). split; [reflexivity|].
  split; [congruence|]. split; [congruence|].
  split; [rewrite Ht3, Ht2, Ht1; by rewrite <- !app_assoc|].
  rewrite !created_app, !posted_app, Hpo1, Hpo2, Hcr1, Hcr2. simpl.
  by rewrite created_prompts, posted_prompts.
Qed.

Lemma blank_test (s : string) :
  negb (str_truthy s) || (String.length (trim s) =? 0)%nat = true <-> trim s = "".
Proof.
  split.
  - intros [H|H]%orb_true_iff.
    + unfold str_truthy in H. apply negb_true_iff, negb_false_iff, String.eqb_eq in H.
      by rewrite H.
    + apply Nat.eqb_eq in H. by destruct (trim s).
  - intros H. apply orb_true_iff. right. by rewrite H.
Qed.

Lemma ingestion_skips_processed (E : env) (ev : event) (w : world) :
  ev_ts ev ∈ processedMessages w ->
  processFeedbackMessage E ev w = (Normal tt, print LogAlreadyProcessed w).
Proof.
  intros H. unfold processFeedbackMessage, try_catch, bind, isProcessed, gets.
  by rewrite bool_decide_eq_true_2.
Qed.

Lemma ingestion_skips_blank (E : env) (ev : event) (w : world) :
  ev_ts ev ∉ processedMessages w ->
  trim (messageText_of ev) = "" ->
  processFeedbackMessage E ev w = (Normal tt, print LogNoText w).
Proof.
  intros H Hblank. unfold processFeedbackMessage, try_catch, bind, isProcessed, gets.
  rewrite bool_decide_eq_false_2 by done.
  apply blank_test in Hblank. by rewrite Hblank.
Qed.

Lemma ingestion_pipeline (E : env) (ev : event) (w : world) :
  ev_ts ev ∉ processedMessages w ->
  has_text ev ->
  let msg := message_of ev in
  let messageId := messageId_of (ev_ts ev) in
  exists w_mid w' t,
    processFeedbackMessage E ev w = (Normal tt, w') /\
    markAsProcessed E (ev_ts ev) w_mid = (Normal tt, w') /\
    processedMessages w_mid = processedMessages w /\
    trace w_mid = trace w ++ EModelCall "#feedback" (msg_text msg) :: t /\
    created t = [] /\
    match judgment_of (messages_create E "#feedback" (msg_text msg)) "#feedback" with
    | None => pendingApprovals w_mid = pendingApprovals w /\ posted t = []
    | Some result =>
        exists reporterName,
          let candidate := described reporterName (item_of msg result) in
          pendingApprovals w_mid =
            <[messageId := pending_at (clock E (tick w)) candidate]> (pendingApprovals w) /\
          posted t =
            prompt_posts E (linked (chat_getPermalink E (ev_channel ev) (ev_ts ev)) candidate)
              messageId
    end.
Proof.
  intros Hnew Htext msg messageId.
  unfold processFeedbackMessage, try_catch, bind at 1, isProcessed, gets.
  rewrite bool_decide_eq_false_2 by done.
  destruct (negb _ || _) eqn:Hblank; [by apply blank_test in Hblank|].
  fold (message_of ev). fold msg. unfold bind at 1.
  destruct (analyzeBatch_one E msg w) as (w1 & Hrun1 & [[Hp1 Hs1] _] & Htick1 & Ht1).
  change ("#" +:+ msg_channelName msg) with "#feedback" in *.
  rewrite Hrun1. clear Hrun1.
  destruct (judgment_of _ _) as [result|]; simpl.
  - unfold bind at 1. unfold bind at 1.
    destruct (reporterName_of_spec E ev w1)
      as (name & w2 & Hrun2 & [[Hp2 Hs2] _] & (t2 & Ht2 & Hpo2 & Hcr2) & Htick2).
    rewrite Hrun2. clear Hrun2. unfold bind at 1.
    destruct (request_approval_spec E msg name (item_of msg result) w2)
      as (w3 & t3 & Hrun3 & Hp3 & Hs3 & Ht3 & Hcr3 & Hpo3).
    simpl in Hpo3. rewrite Hrun3. clear Hrun3. unfold ret.
    destruct (markAsProcessed_spec E (ev_ts ev) w3) as (w4 & Hrun4 & _).
    rewrite Hrun4. exists w3, w4, (t2 ++ t3). split; [done|]. split; [done|].
    split; [congruence|].
    split; [rewrite Ht3, Ht2, Ht1; by rewrite <- !app_assoc|].
    split; [by rewrite created_app, Hcr2, Hcr3|].
    exists name. simpl. rewrite posted_app, Hpo2, Hpo3. simpl.
    rewrite Hp3, Hp2, Hp1, Htick2, Htick1. done.
  - unfold bind at 1, log, modify.
    destruct (markAsProcessed_spec E (ev_ts ev) (print LogNoFeedback w1)) as (w4 & Hrun4 & _).
    rewrite Hrun4. exists (print LogNoFeedback w1), w4, []. simpl.
    rewrite Ht1. by repeat split.
Qed.

(** ** The resolution path *)

Lemma handleApproval_absent (E : env) (messageId : string) (triggerId responseUrl : option string)
    (w : world) :
  pendingApprovals w !! messageId = None ->
  handleApproval E messageId triggerId responseUrl w
  = (Normal tt, print (LogNoPending messageId) w).
Proof. intros H. unfold handleApproval, bind, getPendingApproval, gets. by rewrite H. Qed.

Lemma handleRejection_absent (E : env) (messageId : string) (triggerId responseUrl : option string)
    (w : world) :
  pendingApprovals w !! messageId = None ->
  handleRejection E messageId triggerId responseUrl w
  = (Normal tt, print (LogNoPending messageId) w).
Proof. intros H. unfold handleRejection, bind, getPendingApproval, gets. by rewrite H. Qed.

Lemma handleApproval_present (E : env) (messageId : string) (approval : obj)
    (triggerId responseUrl : option string) (w : world) :
  pendingApprovals w !! messageId = Some approval ->
  let approved := approved_at (clock E (tick w)) approval in
  let taskData := taskData_of approved in
  exists w',
    handleApproval E messageId triggerId responseUrl w = (Normal tt, w') /\
    processedMessages w' = processedMessages w /\
    posted (trace w') = posted (trace w) /\
    created (trace w') = created (trace w) ++ [taskData] /\
    match notion_createTask E taskData with
    | Normal (Some notionTask) =>
        pendingApprovals w' = delete messageId (pendingApprovals w) /\
        notified responseUrl (task_created_update taskData notionTask) w'
    | Normal None =>
        pendingApprovals w' = <[messageId := approved]> (pendingApprovals w)
    | Throw _ =>
        pendingApprovals w' = <[messageId := approved]> (pendingApprovals w) /\
        notified responseUrl task_failed_update w'
    end.
Proof.
  intros Hk approved taskData.
  unfold handleApproval, bind at 1, getPendingApproval, gets. rewrite Hk. unfold bind at 1.
  destruct (approveFeedback_present E messageId approval w Hk)
    as (w1 & Hrun1 & Hp1 & Hs1 & (t1 & Ht1 & Hpo1 & Hcr1)).
  rewrite Hrun1. clear Hrun1. fold approved. fold taskData.
  unfold try_catch, bind at 1, call.
  destruct (notion_createTask E taskData) as [[notionTask|]|e].
  - unfold bind at 1.
    destruct (removePendingApproval_spec E messageId (emit (ECreateTask taskData) w1))
      as (w2 & Hrun2 & Hp2 & Hs2 & (t2 & Ht2 & Hpo2 & Hcr2)).
    rewrite Hrun2. clear Hrun2.
    destruct (notify_spec E responseUrl (task_created_update taskData notionTask) w2)
      as (w3 & Hrun3 & [[Hp3 Hs3] _] & (t3 & Ht3 & Hpo3 & Hcr3) & _ & Hn).
    rewrite Hrun3. clear Hrun3. exists w3. split; [done|].
    split; [by rewrite Hs3, Hs2|].
    rewrite Ht3, Ht2. simpl. rewrite Ht1.
    rewrite !posted_app, !created_app, Hpo1, Hpo2, Hpo3, Hcr1, Hcr2, Hcr3. simpl.
    rewrite !app_nil_r. split; [done|]. split; [done|]. split; [|done].
    rewrite Hp3, Hp2. simpl. rewrite Hp1. apply delete_insert_eq.
  - simpl. exists (emit (ECreateTask taskData) w1). split; [done|]. split; [done|].
    simpl. rewrite Ht1, !posted_app, !created_app, Hpo1, Hcr1. simpl.
    by rewrite !app_nil_r.
  - unfold bind at 1, log, modify.
    destruct (notify_spec E responseUrl task_failed_update
                (print (LogError "Error creating Notion task:") (emit (ECreateTask taskData) w1)))
      as (w3 & Hrun3 & [[Hp3 Hs3] _] & (t3 & Ht3 & Hpo3 & Hcr3) & _ & Hn).
    rewrite Hrun3. clear Hrun3. exists w3. split; [done|]. split; [by rewrite Hs3|].
    rewrite Ht3. simpl. rewrite Ht1.
    rewrite !posted_app, !created_app, Hpo1, Hpo3, Hcr1, Hcr3. simpl.
    rewrite !app_nil_r. split; [done|]. split; [done|]. split; [|done].
    by rewrite Hp3.
Qed.

Lemma handleRejection_present (E : env) (messageId : string) (approval : obj)
    (triggerId responseUrl : option string) (w : world) :
  pendingApprovals w !! messageId = Some approval ->
  let rejected := rejected_at (clock E (tick w)) approval in
  exists w',
    handleRejection E messageId triggerId responseUrl w = (Normal tt, w') /\
    pendingApprovals w' = <[messageId := rejected]> (pendingApprovals w) /\
    processedMessages w' = processedMessages w /\
    posted (trace w') = posted (trace w) /\
    created (trace w') = created (trace w) /\
    notified responseUrl rejected_update w'.
Proof.
  intros Hk rejected.
  unfold handleRejection, bind at 1, getPendingApproval, gets. rewrite Hk. unfold bind at 1.
  destruct (rejectFeedback_present E messageId approval w Hk)
    as (w1 & Hrun1 & Hp1 & Hs1 & Hq1).
  rewrite Hrun1. clear Hrun1.
  destruct (notify_spec E responseUrl rejected_update w1)
    as (w3 & Hrun3 & [[Hp3 Hs3] _] & Hq3 & _ & Hn).
  rewrite Hrun3. exists w3. split; [done|].
  pose proof (quiet_trans _ _ _ Hq1 Hq3) as Hq.
  split; [by rewrite Hp3, Hp1|]. split; [by rewrite Hs3, Hs1|].
  split; [by apply quiet_posted|]. split; [by apply quiet_created|]. done.
Qed.

Lemma handleApproval_returns (E : env) (messageId : string)
    (triggerId responseUrl : option string) (w : world) :
  handleApproval E messageId triggerId responseUrl w
  = (Normal tt, (handleApproval E messageId triggerId responseUrl w).2).
Proof.
  destruct (pendingApprovals w !! messageId) as [approval|] eqn:Hk.
  - destruct (handleApproval_present E messageId approval triggerId responseUrl w Hk)
      as (w' & Hrun & _). by rewrite Hrun.
  - by rewrite handleApproval_absent.
Qed.

Lemma handleRejection_returns (E : env) (messageId : string)
    (triggerId responseUrl : option string) (w : world) :
  handleRejection E messageId triggerId responseUrl w
  = (Normal tt, (handleRejection E messageId triggerId responseUrl w).2).
Proof.
  destruct (pendingApprovals w !! messageId) as [approval|] eqn:Hk.
  - destruct (handleRejection_present E messageId approval triggerId responseUrl w Hk)
      as (w' & Hrun & _). by rewrite Hrun.
  - by rewrite handleRejection_absent.
Qed.

Lemma prefix_append (p s : string) : String.prefix p (p +:+ s) = true.
Proof.
  induction p as [|c p IH]; simpl; [by destruct s|].
  destruct (ascii_dec c c); [done|congruence].
Qed.

(** The buttons of a prompt: a click on ``Approve as-is'' runs
    [handleApproval] on the key of the prompt, a click on ``Reject'' runs
    [handleRejection]. *)
Lemma approve_click (E : env) (messageId : string) (triggerId responseUrl : option string)
    (w : world) :
  handleBlockActions E [ {| action_id := "approve_" +:+ messageId; value := messageId |} ]
    triggerId responseUrl w
  = handleApproval E messageId triggerId responseUrl w.
Proof.
  unfold handleBlockActions, for_each, bind at 1, try_catch, action_id, value.
  rewrite prefix_append, handleApproval_returns. done.
Qed.

Lemma reject_click (E : env) (messageId : string) (triggerId responseUrl : option string)
    (w : world) :
  handleBlockActions E [ {| action_id := "reject_" +:+ messageId; value := messageId |} ]
    triggerId responseUrl w
  = handleRejection E messageId triggerId responseUrl w.
Proof.
  unfold handleBlockActions, for_each, bind at 1, try_catch, action_id, value.
  replace (String.prefix "approve_" ("reject_" +:+ messageId)) with false by reflexivity.
  rewrite prefix_append, handleRejection_returns. done.
Qed.

(** ** Retention sweep *)

Lemma clear_loop_absent (cutoffTime : Z) (entries : list (string * obj))
    (pending : gmap string obj) (k : string) :
  pending !! k = None -> clear_loop cutoffTime entries pending !! k = None.
Proof.
  revert pending. induction entries as [|[k0 v0] entries IH]; intros pending Hk; [done|].
  simpl. apply IH. destruct (created_before cutoffTime v0); [|done].
  simpl. destruct (decide (k0 = k)) as [->|Hne].
  - apply lookup_delete_eq.
  - by rewrite lookup_delete_ne.
Qed.

Lemma clear_loop_old (cutoffTime : Z) (entries : list (string * obj))
    (pending : gmap string obj) (k : string) (v : obj) :
  (k, v) ∈ entries -> created_before cutoffTime v = true ->
  clear_loop cutoffTime entries pending !! k = None.
Proof.
  revert pending. induction entries as [|[k0 v0] entries IH]; intros pending Hin Hold.
  - by apply elem_of_nil in Hin.
  - apply elem_of_cons in Hin as [[= <- <-]|Hin].
    + simpl. rewrite Hold. simpl. by apply clear_loop_absent, lookup_delete_eq.
    + simpl. by apply IH.
Qed.

Lemma clear_loop_recent (cutoffTime : Z) (entries : list (string * obj))
    (pending : gmap string obj) (k : string) :
  (forall v, (k, v) ∈ entries -> created_before cutoffTime v = false) ->
  clear_loop cutoffTime entries pending !! k = pending !! k.
Proof.
  revert pending. induction entries as [|[k0 v0] entries IH]; intros pending Hall; [done|].
  simpl. rewrite IH.
  - destruct (created_before cutoffTime v0) eqn:Hold; [|done].
    simpl. apply lookup_delete_ne. intros ->.
    rewrite (Hall v0) in Hold; [done|]. apply elem_of_cons. by left.
  - intros v Hin. apply Hall, elem_of_cons. by right.
Qed.

Lemma clear_loop_filter (cutoffTime : Z) (pending : gmap string obj) :
  clear_loop cutoffTime (map_to_list pending) pending
  = filter (fun e => created_before cutoffTime e.2 = false) pending.
Proof.
  apply map_eq. intros k. destruct (pending !! k) as [c|] eqn:Hk.
  - destruct (created_before cutoffTime c) eqn:Hold.
    + rewrite (clear_loop_old cutoffTime _ _ k c); [|by apply elem_of_map_to_list|done].
      symmetry. apply map_lookup_filter_None_2. right. intros x Hx. simpl. congruence.
    + rewrite clear_loop_recent.
      * rewrite Hk. symmetry. by apply map_lookup_filter_Some_2.
      * intros v Hv%elem_of_map_to_list. congruence.
  - rewrite clear_loop_absent by done.
    symmetry. apply map_lookup_filter_None_2. by left.
Qed.

(** ** Persistence *)

Lemma Map_of_lookup (entries : list (string * obj)) (acc : gmap string obj) (k : string) :
  NoDup entries.*1 ->
  foldl (fun m e => <[e.1 := e.2]> m) acc entries !! k
  = match (list_to_map entries : gmap string obj) !! k with
    | Some v => Some v
    | None => acc !! k
    end.
Proof.
  revert acc. induction entries as [|[k0 v0] entries IH]; intros acc Hnd; [done|].
  apply list.NoDup_cons in Hnd as [Hk0 Hnd]. simpl. rewrite IH by done.
  destruct (decide (k0 = k)) as [->|Hne].
  - rewrite lookup_insert_eq, (not_elem_of_list_to_map_1 entries k Hk0).
    by rewrite lookup_insert_eq.
  - rewrite !lookup_insert_ne by done. done.
Qed.

Lemma Map_of_map_to_list (pending : gmap string obj) : Map_of (map_to_list pending) = pending.
Proof.
  apply map_eq. intros k. unfold Map_of.
  rewrite Map_of_lookup by apply NoDup_fst_map_to_list.
  rewrite list_to_map_to_list, lookup_empty. by destruct (pending !! k).
Qed.

Lemma Set_of_elements (processed : gset string) : Set_of (elements processed) = processed.
Proof. apply list_to_set_elements_L. Qed.

Lemma saveData_persisted (E : env) (w : world) :
  fs_writable E = true -> persisted (saveData E w).2.
Proof. intros Hfs. eexists. by apply saveData_persists. Qed.

(** Runs the [saveData] the goal ends with, keeping that its file is written. *)
Ltac ends_with_saveData E Hfs :=
  simpl;
  match goal with
  | |- context [saveData E ?w0] =>
      let Hsaved := fresh "Hsaved" in
      let Hrun := fresh "Hrun" in
      pose proof (saveData_persisted E w0 Hfs) as Hsaved;
      destruct (saveData_spec E w0) as (? & Hrun & _);
      by rewrite Hrun in *
  end.

(** Every operation that changes the memory ends with [saveData]: on a file
    system that can be written, the data file then holds the new memory. *)
Lemma mutations_are_persisted (E : env) (w : world) :
  fs_writable E = true ->
  (forall messageId feedback, persisted (addPendingApproval E messageId feedback w).2) /\
  (forall messageTs, persisted (markAsProcessed E messageTs w).2) /\
  (forall messageId, persisted (removePendingApproval E messageId w).2) /\
  (forall messageId updates,
     is_Some (pendingApprovals w !! messageId) ->
     persisted (approveFeedback E messageId updates w).2) /\
  (forall messageId,
     is_Some (pendingApprovals w !! messageId) ->
     persisted (rejectFeedback E messageId w).2).
Proof.
  intros Hfs. repeat split.
  - intros. unfold addPendingApproval, bind, Date_now, modify. ends_with_saveData E Hfs.
  - intros. unfold markAsProcessed, bind, modify. ends_with_saveData E Hfs.
  - intros. unfold removePendingApproval, bind, modify. ends_with_saveData E Hfs.
  - intros messageId updates [approval Hk].
    unfold approveFeedback, bind, gets, Date_now, modify. rewrite Hk.
    ends_with_saveData E Hfs.
  - intros messageId [approval Hk].
    unfold rejectFeedback, bind, gets, Date_now, modify. rewrite Hk.
    ends_with_saveData E Hfs.
Qed.

Lemma loadData_stored (data : snapshot) (w : world) :
  dataFile w = Some (Stored data) ->
  exists w', loadData w = (Normal tt, w') /\
    pendingApprovals w' = Map_of (default [] (snap_pendingApprovals data)) /\
    processedMessages w' = Set_of (default [] (snap_processedMessages data)) /\
    dataFile w' = dataFile w /\ trace w' = trace w.
Proof.
  intros H. unfold loadData, try_catch, bind, gets, modify. rewrite H. simpl.
  eexists; split; [reflexivity|]. done.
Qed.

(** A restart on a data file that holds the memory brings the memory back. *)
Lemma persisted_restart (w : world) :
  persisted w ->
  pendingApprovals (constructor w).2 = pendingApprovals w /\
  processedMessages (constructor w).2 = processedMessages w.
Proof.
  intros [now Hfile]. unfold constructor, bind, modify. simpl.
  match goal with
  | |- context [loadData ?w0] =>
      destruct (loadData_stored (snapshot_of w now) w0 Hfile) as (w1 & Hrun & Hp & Hs & _)
  end.
  rewrite Hrun. simpl. rewrite Hp, Hs. simpl.
  by rewrite Map_of_map_to_list, Set_of_elements.
Qed.

Lemma ingestion_marks (E : env) (ev : event) (w : world) :
  ev_ts ev ∉ processedMessages w ->
  has_text ev ->
  exists w' ps,
    processFeedbackMessage E ev w = (Normal tt, w') /\
    processedMessages w' = {[ev_ts ev]} ∪ processedMessages w /\
    posted (trace w') = posted (trace w) ++ ps /\ (length ps <= 1)%nat /\
    created (trace w') = created (trace w) /\
    (judgment_of (messages_create E "#feedback" (trim (messageText_of ev))) "#feedback" = None ->
     pendingApprovals w' = pendingApprovals w /\ ps = []).
Proof.
  intros Hnew Htext.
  destruct (ingestion_pipeline E ev w Hnew Htext)
    as (w_mid & w' & t & Hrun & Hmark & Hs & Ht & Hcr & Hj).
  destruct (markAsProcessed_spec E (ev_ts ev) w_mid) as (w2 & Hrun2 & Hp2 & Hs2 & Hq2).
  rewrite Hmark in Hrun2. injection Hrun2 as <-.
  exists w', (posted t). split; [done|]. split; [by rewrite Hs2, Hs|].
  rewrite (quiet_posted _ _ Hq2), (quiet_created _ _ Hq2), Ht.
  rewrite posted_app, created_app. simpl.
  change (posted (EModelCall "#feedback" (trim (messageText_of ev)) :: t)) with (posted t).
  change (created (EModelCall "#feedback" (trim (messageText_of ev)) :: t)) with (created t).
  rewrite Hcr, app_nil_r. split; [done|].
  simpl in Hj. destruct (judgment_of _ _) as [result|].
  - destruct Hj as (name & Hp & ->). split; [apply prompt_posts_length|]. split; [done|]. done.
  - destruct Hj as [Hp ->]. split; [simpl; lia|]. split; [done|]. intros _. by rewrite Hp2.
Qed.

(** ** The claims *)

(** C1. Running the ingestion path twice in sequence for one message
    identifier posts at most one approval prompt. A first run that finds the
    message new and its text not blank ends with the identifier in the
    processed set; and a run that finds the identifier there returns at once:
    it leaves the store as it is and makes no call, so nothing is analyzed,
    registered or posted. *)
Theorem ingestion_is_idempotent (E1 E2 : env) (ev1 ev2 : event) (w : world) :
  ev_ts ev1 = ev_ts ev2 ->
  let w1 := (processFeedbackMessage E1 ev1 w).2 in
  let w2 := (processFeedbackMessage E2 ev2 w1).2 in
  (length (posted (trace w2)) <= length (posted (trace w)) + 1)%nat /\
  (ev_ts ev1 ∉ processedMessages w -> has_text ev1 ->
   (processFeedbackMessage E1 ev1 w).1 = Normal tt /\ ev_ts ev1 ∈ processedMessages w1) /\
  (ev_ts ev1 ∈ processedMessages w1 ->
   processFeedbackMessage E2 ev2 w1 = (Normal tt, print LogAlreadyProcessed w1)).
Proof.
  intros Hts w1 w2.
  assert (Hsecond : ev_ts ev1 ∈ processedMessages w1 ->
            processFeedbackMessage E2 ev2 w1 = (Normal tt, print LogAlreadyProcessed w1)).
  { intros Hin. apply ingestion_skips_processed. by rewrite <- Hts. }
  assert (Hfirst : ev_ts ev1 ∉ processedMessages w -> has_text ev1 ->
            (processFeedbackMessage E1 ev1 w).1 = Normal tt /\
            ev_ts ev1 ∈ processedMessages w1 /\
            (length (posted (trace w1)) <= length (posted (trace w)) + 1)%nat).
  { intros Hnew Htext.
    destruct (ingestion_marks E1 ev1 w Hnew Htext) as (w' & ps & Hrun & Hs & Hpo & Hlen & _).
    subst w1. rewrite Hrun. simpl. split; [done|]. split.
    - rewrite Hs. apply elem_of_union. left. by apply elem_of_singleton.
    - rewrite Hpo, length_app. lia. }
  split; [|split; [|done]; intros Hn Ht; destruct (Hfirst Hn Ht) as (? & ? & _); by split].
  destruct (decide (ev_ts ev1 ∈ processedMessages w)) as [Hold|Hnew].
  - (* already processed: both runs skip *)
    assert (Hw1 : w1 = print LogAlreadyProcessed w).
    { subst w1. by rewrite ingestion_skips_processed. }
    subst w2. rewrite Hsecond; rewrite Hw1; simpl; [lia|done].
  - destruct (decide (trim (messageText_of ev1) = "")) as [Hblank|Htext].
    + (* the first run finds no text and leaves the message unmarked *)
      assert (Hw1 : w1 = print LogNoText w).
      { subst w1. by rewrite ingestion_skips_blank. }
      assert (Hnew2 : ev_ts ev2 ∉ processedMessages w1) by (rewrite Hw1, <- Hts; done).
      destruct (decide (trim (messageText_of ev2) = "")) as [Hblank2|Htext2].
      * subst w2. rewrite ingestion_skips_blank by done. rewrite Hw1. simpl. lia.
      * destruct (ingestion_marks E2 ev2 w1 Hnew2 Htext2)
          as (w' & ps & Hrun & _ & Hpo & Hlen & _).
        subst w2. rewrite Hrun. simpl. rewrite Hpo, length_app, Hw1. simpl. lia.
    + (* the first run goes through and marks the message *)
      destruct (Hfirst Hnew Htext) as (_ & Hin & Hlen).
      subst w2. rewrite (Hsecond Hin). simpl. lia.
Qed.

(** C5. For a key that is not in the candidate map, [approveFeedback] and
    [rejectFeedback] return null and leave the world as it was: the same
    candidate map, the same processed set, the same data file, and no write
    in the trace. *)
Theorem unknown_key_is_not_found (E : env) (messageId : string) (updates : option obj)
    (w : world) :
  pendingApprovals w !! messageId = None ->
  approveFeedback E messageId updates w = (Normal None, w) /\
  rejectFeedback E messageId w = (Normal None, w).
Proof.
  intros Habsent. split.
  - by apply approveFeedback_absent.
  - by apply rejectFeedback_absent.
Qed.

(** C10. When the flattened text of a new message is empty or white space
    only, the ingestion path returns early: memory, data file and trace stay
    as they were and the message is not marked processed, so a redelivery
    takes the same path again; whereas a message with text that the
    extractor judges not to be feedback ends up in the processed set. *)
Theorem blank_message_is_not_marked (E : env) (ev : event) (w : world) :
  ev_ts ev ∉ processedMessages w ->
  trim (messageText_of ev) = "" ->
  let w' := (processFeedbackMessage E ev w).2 in
  processFeedbackMessage E ev w = (Normal tt, print LogNoText w) /\
  same_store w w' /\ trace w' = trace w /\
  (ev_ts ev ∉ processedMessages w') /\
  (forall E2 : env, processFeedbackMessage E2 ev w' = (Normal tt, print LogNoText w')) /\
  (forall (E2 : env) (ev2 : event) (w2 : world),
     ev_ts ev2 ∉ processedMessages w2 -> has_text ev2 ->
     judgment_of (messages_create E2 "#feedback" (trim (messageText_of ev2))) "#feedback" = None ->
     ev_ts ev2 ∈ processedMessages (processFeedbackMessage E2 ev2 w2).2).
Proof.
  intros Hnew Hblank w'.
  assert (Hrun : processFeedbackMessage E ev w = (Normal tt, print LogNoText w)).
  { by apply ingestion_skips_blank. }
  subst w'. rewrite Hrun. simpl.
  split; [done|]. split; [done|]. split; [done|]. split; [done|]. split.
  - intros E2. by apply ingestion_skips_blank.
  - intros E2 ev2 w2 Hnew2 Htext2 _.
    destruct (ingestion_marks E2 ev2 w2 Hnew2 Htext2) as (w3 & ps & Hrun3 & Hs & _).
    rewrite Hrun3. simpl. rewrite Hs. apply elem_of_union. left. by apply elem_of_singleton.
Qed.

(** C4, amended. When the call to the model API fails, the extractor catches
    the failure and answers ``not feedback'': the run ends normally, registers
    no candidate and posts no prompt, but it does mark the message processed
    and persists the store, so the next delivery is skipped. In every run the
    processed set changes only in the last step, [markAsProcessed], which
    comes after the call to the model and after every prompt of the run. *)
Theorem model_failure_marks_processed (E : env) (ev : event) (w : world) (error : string) :
  ev_ts ev ∉ processedMessages w ->
  has_text ev ->
  messages_create E "#feedback" (trim (messageText_of ev)) = Throw error ->
  let w' := (processFeedbackMessage E ev w).2 in
  (processFeedbackMessage E ev w).1 = Normal tt /\
  pendingApprovals w' = pendingApprovals w /\
  posted (trace w') = posted (trace w) /\
  processedMessages w' = {[ev_ts ev]} ∪ processedMessages w /\
  (fs_writable E = true -> persisted w') /\
  (forall E2 : env, processFeedbackMessage E2 ev w' = (Normal tt, print LogAlreadyProcessed w')) /\
  (forall (E0 : env) (ev0 : event) (w0 : world),
     processedMessages (processFeedbackMessage E0 ev0 w0).2 <> processedMessages w0 ->
     exists w_mid t,
       processFeedbackMessage E0 ev0 w0 = markAsProcessed E0 (ev_ts ev0) w_mid /\
       processedMessages w_mid = processedMessages w0 /\
       trace w_mid = trace w0 ++ EModelCall "#feedback" (trim (messageText_of ev0)) :: t /\
       posted (trace (processFeedbackMessage E0 ev0 w0).2) = posted (trace w_mid)).
Proof.
  intros Hnew Htext Hdown w'.
  destruct (ingestion_marks E ev w Hnew Htext) as (w1 & ps & Hrun & Hs & Hpo & _ & _ & Hnone).
  destruct Hnone as [Hp ->]; [by rewrite Hdown|].
  destruct (ingestion_pipeline E ev w Hnew Htext) as (w_mid & w1' & t & Hrun' & Hmark & _).
  rewrite Hrun in Hrun'. injection Hrun' as <-.
  subst w'. rewrite Hrun. simpl. rewrite app_nil_r in Hpo.
  split; [done|]. split; [done|]. split; [done|]. split; [done|]. split; [|split].
  - intros Hfs. destruct (mutations_are_persisted E w_mid Hfs) as (_ & Hsaved & _).
    specialize (Hsaved (ev_ts ev)). by rewrite Hmark in Hsaved.
  - intros E2. apply ingestion_skips_processed. rewrite Hs.
    apply elem_of_union. left. by apply elem_of_singleton.
  - intros E0 ev0 w0 Hchanged.
    destruct (decide (ev_ts ev0 ∈ processedMessages w0)) as [Hold|Hnew0].
    { by rewrite ingestion_skips_processed in Hchanged. }
    destruct (decide (trim (messageText_of ev0) = "")) as [Hblank|Htext0].
    { by rewrite ingestion_skips_blank in Hchanged. }
    destruct (ingestion_pipeline E0 ev0 w0 Hnew0 Htext0)
      as (w_mid0 & w0' & t0 & Hrun0 & Hmark0 & Hs0 & Ht0 & _).
    exists w_mid0, t0. rewrite Hrun0, Hmark0. simpl. split; [done|]. split; [done|].
    split; [done|].
    destruct (markAsProcessed_spec E0 (ev_ts ev0) w_mid0) as (w2 & Hrun2 & _ & _ & Hq).
    rewrite Hmark0 in Hrun2. injection Hrun2 as <-. by apply quiet_posted.
Qed.

(** C3. When a stored candidate (a pending one in particular) is approved by
    a click and [createTask] then throws, the click still ends normally, the
    candidate stays in the store in state approved, and the failure notice is
    posted to the response URL when one was supplied. *)
Theorem failed_creation_keeps_candidate (E : env) (messageId : string) (approval : obj)
    (triggerId responseUrl : option string) (w : world) (error : string) :
  pendingApprovals w !! messageId = Some approval ->
  let approved := approved_at (clock E (tick w)) approval in
  notion_createTask E (taskData_of approved) = Throw error ->
  let w' := (handleApproval E messageId triggerId responseUrl w).2 in
  (handleApproval E messageId triggerId responseUrl w).1 = Normal tt /\
  pendingApprovals w' !! messageId = Some approved /\
  has_status "approved" approved = true /\
  created (trace w') = created (trace w) ++ [taskData_of approved] /\
  notified responseUrl task_failed_update w'.
Proof.
  intros Hk approved Hthrow w'.
  destruct (handleApproval_present E messageId approval triggerId responseUrl w Hk)
    as (w1 & Hrun & _ & _ & Hcr & Hcase).
  fold approved in Hcr, Hcase. rewrite Hthrow in Hcase. destruct Hcase as [Hp Hn].
  subst w'. rewrite Hrun. simpl.
  split; [done|]. split; [by rewrite Hp, lookup_insert_eq|].
  split; [|done].
  unfold has_status, approved, approved_at.
  rewrite lookup_insert_ne by done. by rewrite lookup_insert_eq.
Qed.

(** C2, amended. A candidate whose approval led to a created task has been
    removed, and a click for a key that is not in the store is a no-op: the
    store stays as it is and no task creation is triggered. A candidate that
    is still stored, in state approved or rejected as in any other, is not
    guarded: an approve click stores it as approved with a new approved-at
    and calls task creation once; a reject click stores it as rejected with a
    new rejected-at and creates no task. *)
Theorem click_on_resolved_candidate (E : env) (messageId : string)
    (triggerId responseUrl : option string) (w : world) :
  let wa := (handleApproval E messageId triggerId responseUrl w).2 in
  let wr := (handleRejection E messageId triggerId responseUrl w).2 in
  (pendingApprovals w !! messageId = None ->
   handleApproval E messageId triggerId responseUrl w
   = (Normal tt, print (LogNoPending messageId) w) /\
   handleRejection E messageId triggerId responseUrl w
   = (Normal tt, print (LogNoPending messageId) w) /\
   same_store w wa /\ trace wa = trace w /\ same_store w wr /\ trace wr = trace w) /\
  (forall approval : obj,
     pendingApprovals w !! messageId = Some approval ->
     let approved := approved_at (clock E (tick w)) approval in
     let rejected := rejected_at (clock E (tick w)) approval in
     created (trace wa) = created (trace w) ++ [taskData_of approved] /\
     (pendingApprovals wa !! messageId = Some approved \/
      pendingApprovals wa !! messageId = None) /\
     (forall notionTask : page,
        notion_createTask E (taskData_of approved) = Normal (Some notionTask) ->
        pendingApprovals wa !! messageId = None) /\
     pendingApprovals wr !! messageId = Some rejected /\
     has_status "rejected" rejected = true /\
     created (trace wr) = created (trace w)).
Proof.
  intros wa wr. split.
  - intros Habsent. subst wa wr.
    by rewrite handleApproval_absent, handleRejection_absent.
  - intros approval Hk approved rejected.
    destruct (handleApproval_present E messageId approval triggerId responseUrl w Hk)
      as (w1 & Hrun1 & _ & _ & Hcr1 & Hcase).
    destruct (handleRejection_present E messageId approval triggerId responseUrl w Hk)
      as (w2 & Hrun2 & Hp2 & _ & _ & Hcr2 & _).
    fold approved in Hcr1, Hcase. fold rejected in Hp2.
    subst wa wr. rewrite Hrun1, Hrun2. simpl.
    split; [done|]. split; [|split; [|split; [|split; [|done]]]].
    + destruct (notion_createTask E _) as [[notionTask|]|e].
      * right. destruct Hcase as [-> _]. apply lookup_delete_eq.
      * left. rewrite Hcase. apply lookup_insert_eq.
      * left. destruct Hcase as [-> _]. apply lookup_insert_eq.
    + intros notionTask Hcreated. rewrite Hcreated in Hcase.
      destruct Hcase as [-> _]. apply lookup_delete_eq.
    + rewrite Hp2. apply lookup_insert_eq.
    + unfold has_status, rejected, rejected_at.
      rewrite lookup_insert_ne by done. by rewrite lookup_insert_eq.
Qed.

(** C6, amended. [clearOldApprovals days] deletes exactly the candidates
    whose created-at is before the cutoff (now minus [days] days), whatever
    their state, and leaves every other candidate and the processed set
    untouched. It returns no value: the number of candidates removed is only
    written to the console, and only when it is not zero; in that case the
    store is persisted, and otherwise nothing but the clock was touched. *)
Theorem sweep_deletes_the_old (E : env) (days : Z) (w : world) :
  let cutoffTime := clock E (tick w) - days * 24 * 60 * 60 * 1000 in
  let w' := (clearOldApprovals E days w).2 in
  let removed := (size (pendingApprovals w) - size (pendingApprovals w'))%nat in
  (clearOldApprovals E days w).1 = Normal Undefined /\
  pendingApprovals w' =
    filter (fun e => created_before cutoffTime e.2 = false) (pendingApprovals w) /\
  (forall (k : string) (c : obj),
     pendingApprovals w !! k = Some c ->
     pendingApprovals w' !! k = if created_before cutoffTime c then None else Some c) /\
  (forall k : string, pendingApprovals w !! k = None -> pendingApprovals w' !! k = None) /\
  processedMessages w' = processedMessages w /\
  (removed = 0%nat -> w' = next_tick w) /\
  (removed <> 0%nat ->
   LogCleared (Z.of_nat removed) ∈ console w' /\
   (fs_writable E = true -> persisted w')).
Proof.
  intros cutoffTime w' removed.
  set (kept := filter (fun e => created_before cutoffTime e.2 = false) (pendingApprovals w)).
  assert (Hle : (size kept <= size (pendingApprovals w))%nat) by apply map_size_filter.
  assert (Hrun : exists w1,
            clearOldApprovals E days w = (Normal Undefined, w1) /\
            pendingApprovals w1 = kept /\ processedMessages w1 = processedMessages w /\
            (size kept = size (pendingApprovals w) -> w1 = next_tick w) /\
            (size kept <> size (pendingApprovals w) ->
             LogCleared (Z.of_nat (size (pendingApprovals w)) - Z.of_nat (size kept))
               ∈ console w1 /\
             (fs_writable E = true -> persisted w1))).
  { unfold clearOldApprovals, bind, Date_now, gets, modify, log, ret. simpl.
    rewrite clear_loop_filter. fold cutoffTime. fold kept.
    destruct (decide (size (pendingApprovals w) = size kept)) as [Heq|Hne].
    - rewrite bool_decide_eq_false_2 by (intros Hn; by apply Hn).
      eexists; split; [reflexivity|]. simpl. rewrite clear_loop_filter. fold kept.
      split; [done|]. split; [done|].
      split; [|intros Hn; by destruct Hn].
      intros _. unfold next_tick, set_pendingApprovals. simpl. f_equal.
      rewrite clear_loop_filter. fold kept.
      apply map_subseteq_size_eq; [apply map_filter_subseteq|lia].
    - rewrite bool_decide_eq_true_2 by done. simpl.
      match goal with
      | |- context [saveData E ?w0] => set (swept := w0)
      end.
      pose proof (saveData_persists E swept) as Hsaved.
      destruct (saveData_spec E swept) as (w1 & Hsave & [Hp Hs] & _ & Hw & Hnw).
      rewrite Hsave in *. simpl in Hsaved.
      assert (Hconsole : exists rest, console w1 = console swept ++ rest).
      { unfold saveData, try_catch, bind, Date_now, gets, modify, throw, log in Hsave.
        simpl in Hsave. destruct (fs_writable E); simpl in Hsave;
          injection Hsave as <-; simpl; [exists []; by rewrite app_nil_r|by eexists]. }
      exists w1. split; [done|].
      split; [rewrite Hp; subst swept; simpl; by rewrite clear_loop_filter|].
      split; [by rewrite Hs|].
      split; [intros Heq; by destruct Hne|]. intros _. split.
      + destruct Hconsole as (rest & ->). subst swept. simpl.
        apply elem_of_app. left. apply elem_of_app. right. by apply list_elem_of_singleton.
      + intros Hfs. eexists. by apply Hsaved. }
  destruct Hrun as (w1 & Hrun & Hp & Hs & Hzero & Hsome).
  subst w' removed. rewrite Hrun. simpl. rewrite Hp.
  split; [done|]. split; [done|]. split; [|split; [|split; [done|split]]].
  - intros k c Hk. destruct (created_before cutoffTime c) eqn:Hold.
    + apply map_lookup_filter_None_2. right. intros x Hx. simpl. congruence.
    + by apply map_lookup_filter_Some_2.
  - intros k Hk. apply map_lookup_filter_None_2. by left.
  - intros Hz. apply Hzero. lia.
  - intros Hnz. replace (Z.of_nat (size (pendingApprovals w) - size kept))
      with (Z.of_nat (size (pendingApprovals w)) - Z.of_nat (size kept)) by lia.
    apply Hsome. lia.
Qed.

(** C7. After [saveData] has written the snapshot, [loadData] reproduces the
    candidate map and the processed set that were saved, in whatever memory
    it starts from; so does a restart, which builds a new handler on the
    data file. *)
Theorem reload_restores_store (E : env) (w : world) :
  fs_writable E = true ->
  let saved := (saveData E w).2 in
  (forall w2 : world,
     dataFile w2 = dataFile saved ->
     loadData w2 = (Normal tt, (loadData w2).2) /\
     pendingApprovals (loadData w2).2 = pendingApprovals w /\
     processedMessages (loadData w2).2 = processedMessages w) /\
  constructor saved = (Normal tt, (constructor saved).2) /\
  pendingApprovals (constructor saved).2 = pendingApprovals w /\
  processedMessages (constructor saved).2 = processedMessages w.
Proof.
  intros Hfs saved.
  assert (Hfile : dataFile saved = Some (Stored (snapshot_of w (clock E (tick w))))).
  { subst saved. destruct (saveData_spec E w) as (w1 & Hrun & _ & _ & Hw & _).
    rewrite Hrun. simpl. by destruct (Hw Hfs). }
  assert (Hload : forall w2 : world,
            dataFile w2 = dataFile saved ->
            loadData w2 = (Normal tt, (loadData w2).2) /\
            pendingApprovals (loadData w2).2 = pendingApprovals w /\
            processedMessages (loadData w2).2 = processedMessages w).
  { intros w2 Hw2. rewrite Hfile in Hw2.
    destruct (loadData_stored _ w2 Hw2) as (w3 & Hrun & Hp & Hs & _).
    rewrite Hrun. simpl. split; [done|]. rewrite Hp, Hs. simpl.
    by rewrite Map_of_map_to_list, Set_of_elements. }
  split; [done|].
  unfold constructor, bind, modify. simpl. by apply Hload.
Qed.

(** C8, amended. [analyzeFeedback] never throws. It returns a judgment
    exactly when the model answered, the text of the answer, stripped of its
    fence and of trailing commas, parses to an object, and
    [feedback.isFeedback && feedback.confidence >= 60] holds of it as
    JavaScript evaluates it: [isFeedback] is truthy, and [confidence]
    compares as at least 60. The judgment is that object with the source
    name. When the answer does not parse, parses to something that is no
    object, or the call to the model fails, it returns null. For a boolean
    [isFeedback] and a numeric [confidence] the condition is: [isFeedback]
    is true and [confidence] is at least 60. A string counts as a true
    [isFeedback] when it is not empty, whatever it says; a missing or null
    [isFeedback] or [confidence] never passes. *)
Theorem judge_fails_closed (E : env) (text sourceName : string) (w : world) :
  exists (result : option obj) (w' : world),
    analyzeFeedback E text sourceName w = (Normal result, w') /\
    (forall judgment : obj,
       result = Some judgment <->
       exists first rest feedback,
         messages_create E sourceName text = Normal (first :: rest) /\
         JSON_parse (extract_json (responseText_of first)) = Some (JObj feedback) /\
         truthy (feedback !! "isFeedback") = true /\
         ge_60 (feedback !! "confidence") = true /\
         judgment = <["sourceName" := JStr sourceName]> feedback) /\
    (forall first rest,
       messages_create E sourceName text = Normal (first :: rest) ->
       JSON_parse (extract_json (responseText_of first)) = None ->
       result = None) /\
    (forall first rest (v : json),
       messages_create E sourceName text = Normal (first :: rest) ->
       JSON_parse (extract_json (responseText_of first)) = Some v ->
       (forall feedback : obj, v <> JObj feedback) ->
       result = None) /\
    (forall error, messages_create E sourceName text = Throw error -> result = None) /\
    (forall (b : bool) (q : Q),
       truthy (Some (JBool b)) = true /\ ge_60 (Some (JNum q)) = true
       <-> b = true /\ (60 <= q)%Q) /\
    (forall (s : string) (q : Q),
       truthy (Some (JStr s)) = true /\ ge_60 (Some (JNum q)) = true
       <-> s <> "" /\ (60 <= q)%Q) /\
    (forall feedback : obj,
       feedback !! "isFeedback" = None \/ feedback !! "isFeedback" = Some JNull \/
       feedback !! "confidence" = None \/ feedback !! "confidence" = Some JNull ->
       ~ (truthy (feedback !! "isFeedback") = true /\
          ge_60 (feedback !! "confidence") = true)).
Proof.
  destruct (analyzeFeedback_spec E text sourceName w) as (w' & Hrun & _).
  eexists _, w'. split; [exact Hrun|]. unfold judgment_of, accepted. split_and!.
  - intros judgment. split.
    + destruct (messages_create E sourceName text) as [[|first rest]|e]; try done.
      destruct (JSON_parse _) as [[| | | | |feedback]|] eqn:Hparse; try done.
      destruct (truthy (feedback !! "isFeedback")) eqn:Htruthy; [|done].
      destruct (ge_60 (feedback !! "confidence")) eqn:Hge; [|done].
      intros [= <-]. by exists first, rest, feedback.
    + intros (first & rest & feedback & -> & -> & -> & -> & ->). done.
  - intros first rest -> ->. done.
  - intros first rest v -> -> Hnot. destruct v as [| | | | |feedback]; try done.
    by destruct (Hnot feedback).
  - intros error ->. done.
  - intros b q. simpl. rewrite Qle_bool_iff. split; [done|]. by intros [-> ?].
  - intros s q. simpl. rewrite Qle_bool_iff. unfold str_truthy.
    destruct (String.eqb_spec s "") as [->|Hne]; simpl; split; intros [? ?]; done.
  - intros feedback [H|[H|[H|H]]] [? ?]; rewrite H in *; done.
Qed.

Lemma approval_blocks_ignore_link (item : obj) (messageId : string) :
  approval_blocks item messageId = approval_blocks (delete "messageLink" item) messageId.
Proof. unfold approval_blocks. by rewrite !lookup_delete_ne. Qed.

(** C9, amended. When the permalink of an ingested message resolves, it is
    set on the item only after [addPendingApproval] has stored its copy: the
    stored candidate has the [messageLink] of the judgment of the extractor,
    which is none when the judgment has the fields the extractor asks for,
    and not the permalink. The item handed to [sendApprovalMessage] does
    carry the permalink, but the blocks of the prompt are the same with and
    without it: the prompt does not show it. The task payload of a later
    approve click has the link of the stored candidate, so [messageLink] is
    null although the permalink had been resolved. *)
Theorem permalink_is_not_stored (E : env) (ev : event) (w : world) (result : obj) (p : string) :
  ev_ts ev ∉ processedMessages w ->
  has_text ev ->
  judgment_of (messages_create E "#feedback" (trim (messageText_of ev))) "#feedback"
    = Some result ->
  chat_getPermalink E (ev_channel ev) (ev_ts ev) = Normal (Some p) ->
  p <> "" ->
  let messageId := messageId_of (ev_ts ev) in
  let w1 := (processFeedbackMessage E ev w).2 in
  exists candidate shown : obj,
    pendingApprovals w1 !! messageId = Some candidate /\
    candidate !! "messageLink" = result !! "messageLink" /\
    shown !! "messageLink" = Some (JStr p) /\
    posted (trace w1) = posted (trace w) ++ prompt_posts E shown messageId /\
    approval_blocks shown messageId = approval_blocks (delete "messageLink" shown) messageId /\
    forall (E2 : env) (triggerId responseUrl : option string),
      let w2 := (handleApproval E2 messageId triggerId responseUrl w1).2 in
      exists t : taskData,
        created (trace w2) = created (trace w1) ++ [t] /\
        td_messageLink t = or_null (result !! "messageLink") /\
        (result !! "messageLink" = None -> td_messageLink t = JNull).
Proof.
  intros Hnew Htext Hjudged Hlink Hp messageId w1.
  destruct (ingestion_pipeline E ev w Hnew Htext)
    as (w_mid & w' & t & Hrun & Hmark & _ & Ht & _ & Hj).
  simpl in Hj. rewrite Hjudged, Hlink in Hj. destruct Hj as (name & Hstored & Hposted).
  destruct (markAsProcessed_spec E (ev_ts ev) w_mid) as (w2 & Hrun2 & Hp2 & _ & Hq2).
  rewrite Hmark in Hrun2. injection Hrun2 as <-.
  subst w1. rewrite Hrun. simpl.
  set (item := described name (item_of (message_of ev) result)) in *.
  assert (Hitem : item !! "messageLink" = result !! "messageLink").
  { unfold item, described, item_of. by rewrite !lookup_insert_ne. }
  assert (Htruthy : str_truthy p = true).
  { unfold str_truthy. apply negb_true_iff. by apply String.eqb_neq. }
  simpl in Hposted. rewrite Htruthy in Hposted.
  exists (pending_at (clock E (tick w)) item), (<["messageLink" := JStr p]> item).
  assert (Hk : pendingApprovals w' !! messageId
               = Some (pending_at (clock E (tick w)) item)).
  { rewrite Hp2, Hstored. apply lookup_insert_eq. }
  assert (Hcand : pending_at (clock E (tick w)) item !! "messageLink"
                  = result !! "messageLink").
  { unfold pending_at. by rewrite !lookup_insert_ne. }
  split; [done|]. split; [done|]. split; [apply lookup_insert_eq|]. split.
  - rewrite (quiet_posted _ _ Hq2), Ht, posted_app.
    change (posted (EModelCall "#feedback" (msg_text (message_of ev)) :: t)) with (posted t).
    by rewrite Hposted.
  - split; [apply approval_blocks_ignore_link|].
    intros E2 triggerId responseUrl.
    destruct (handleApproval_present E2 messageId _ triggerId responseUrl w' Hk)
      as (w3 & Hrun3 & _ & _ & Hcr & _).
    rewrite Hrun3. simpl. eexists. split; [exact Hcr|].
    assert (Hpayload : td_messageLink
                         (taskData_of (approved_at (clock E2 (tick w'))
                                         (pending_at (clock E (tick w)) item)))
                       = or_null (result !! "messageLink")).
    { unfold taskData_of, approved_at. simpl. by rewrite !lookup_insert_ne, Hcand. }
    split; [done|]. intros Hnone. by rewrite Hpayload, Hnone.
Qed.

End Properties.

(** * The properties at the sample data *)

(** ** The string operations on small inputs *)

Example trim_strips_both_ends : trim (" " +:+ nl +:+ "a b" +:+ nl) = "a b".
Proof. reflexivity. Qed.

Example code_block_lazy : code_block "x ```json {a} ``` y ``` z" = Some "{a} ".
Proof. reflexivity. Qed.

Example code_block_unclosed : code_block "x ```json {a}" = None.
Proof. reflexivity. Qed.

Example object_match_greedy : object_match "so: {a{b}c} and } then" = Some "{a{b}c} and }".
Proof. reflexivity. Qed.

Example object_match_needs_order : object_match "} {" = None.
Proof. reflexivity. Qed.

Example strip_trailing_commas_in_lists :
  strip_trailing_commas "{a:1, b:[1,2, ], }" = "{a:1, b:[1,2]}".
Proof. reflexivity. Qed.

Example strip_trailing_commas_keeps_first : strip_trailing_commas "a, ,  ]" = "a, ]".
Proof. reflexivity. Qed.

Example extract_json_of_reply : extract_json Sample.reply = Sample.judgment_text.
Proof. reflexivity. Qed.

Example extract_json_of_prose :
  extract_json ("Here it is: " +:+ Sample.judgment_text +:+ " Done.") = Sample.judgment_text.
Proof. reflexivity. Qed.

Example messageId_of_ts : messageId_of "111.222" = "msg_111_222".
Proof. reflexivity. Qed.

(** ** The scenarios of the specification *)

(** Ingesting the message: one pending candidate keyed from [111.222], the
    one that [Sample.registered] spells out, one prompt, and the message
    processed. *)
Example scenario_ingest :
  (@processFeedbackMessage Sample.runtime Sample.healthy Sample.ev Sample.fresh).1 = Normal tt /\
  pendingApprovals Sample.ingested = {[Sample.key := Sample.registered]} /\
  has_status "pending" Sample.registered = true /\
  length (posted (trace Sample.ingested)) = 1%nat /\
  (@isProcessed "111.222" Sample.ingested).1 = Normal true.
Proof. repeat apply conj; vm_compute; reflexivity. Qed.

(** Approving that candidate: one task with the title of the judgment, the
    candidate removed, and the confirmation posted. *)
Example scenario_approve :
  let w := (@handleBlockActions Sample.runtime Sample.healthy Sample.click_approve
              None (Some Sample.url) Sample.ingested).2 in
  td_title <$> created (trace w) = [Some (JStr "Mobile search broken")] /\
  pendingApprovals w = ∅ /\
  su_text <$> omap (fun e => match e with EFetch _ body => Some body | _ => None end) (trace w)
  = ["✅ Task created: Mobile search broken"].
Proof. cbv zeta. repeat apply conj; vm_compute; reflexivity. Qed.

(** Rejecting the pending candidate: state rejected, no task. *)
Example scenario_reject :
  has_status "rejected" (default ∅ (pendingApprovals Sample.rejected !! Sample.key)) = true /\
  created (trace Sample.rejected) = [].
Proof. repeat apply conj; vm_compute; reflexivity. Qed.

(** ** The claims at the sample data *)

(** The two runs of the scenario: one prompt, the message marked by the
    first run, the second run skipped. *)
Lemma ingestion_is_idempotent_witness :
  let w2 := (@processFeedbackMessage Sample.runtime Sample.later Sample.ev Sample.ingested).2 in
  (length (posted (trace w2)) <= 0 + 1)%nat /\
  "111.222" ∈ processedMessages Sample.ingested /\
  @processFeedbackMessage Sample.runtime Sample.later Sample.ev Sample.ingested
  = (Normal tt, print LogAlreadyProcessed Sample.ingested).
Proof.
  destruct (@ingestion_is_idempotent Sample.runtime Sample.healthy Sample.later
              Sample.ev Sample.ev Sample.fresh eq_refl) as (Hle & Hfirst & Hsecond).
  destruct Hfirst as [_ Hin].
  - apply not_elem_of_empty.
  - unfold has_text. vm_compute. discriminate.
  - split; [exact Hle|]. split; [exact Hin|]. exact (Hsecond Hin).
Defined.

(** A click on a key the store does not hold. *)
Lemma unknown_key_is_not_found_witness :
  @approveFeedback Sample.runtime Sample.healthy "msg_000_000" None Sample.ingested
  = (Normal None, Sample.ingested) /\
  @rejectFeedback Sample.runtime Sample.healthy "msg_000_000" Sample.ingested
  = (Normal None, Sample.ingested).
Proof.
  apply (@unknown_key_is_not_found Sample.runtime Sample.healthy "msg_000_000" None
           Sample.ingested).
  reflexivity.
Defined.

(** The message of white space is skipped and stays unmarked. *)
Lemma blank_message_is_not_marked_witness :
  @processFeedbackMessage Sample.runtime Sample.healthy Sample.blank_ev Sample.ingested
  = (Normal tt, print LogNoText Sample.ingested).
Proof.
  apply (@blank_message_is_not_marked Sample.runtime Sample.healthy Sample.blank_ev
           Sample.ingested).
  - vm_compute. discriminate.
  - reflexivity.
Defined.

(** C4 as the specification states it fails when the model API is down: the
    run leaves the store changed, with the message in the processed set and
    in the data file, so the next delivery of the message is skipped. *)
Lemma model_failure_counterexample :
  let r := @processFeedbackMessage Sample.runtime Sample.model_down Sample.ev Sample.fresh in
  messages_create Sample.model_down "#feedback" "the search feature is broken on mobile"
  = Throw "APIConnectionError" /\
  r.1 = Normal tt /\
  processedMessages Sample.fresh = ∅ /\
  processedMessages r.2 = {["111.222"]} /\
  dataFile Sample.fresh = None /\
  dataFile r.2 = Some (Stored {| snap_pendingApprovals := Some [];
                                 snap_processedMessages := Some ["111.222"];
                                 snap_lastSaved := Some "1970-01-01T00:00:00.000Z" |}) /\
  @processFeedbackMessage Sample.runtime Sample.healthy Sample.ev r.2
  = (Normal tt, print LogAlreadyProcessed r.2).
Proof. cbv zeta. repeat apply conj; vm_compute; reflexivity. Qed.

Lemma model_failure_marks_processed_witness :
  let w' := (@processFeedbackMessage Sample.runtime Sample.model_down Sample.ev Sample.fresh).2 in
  pendingApprovals w' = ∅ /\ posted (trace w') = [] /\
  processedMessages w' = {["111.222"]} ∪ ∅.
Proof.
  destruct (@model_failure_marks_processed Sample.runtime Sample.model_down Sample.ev
              Sample.fresh "APIConnectionError") as (_ & Hp & Hpo & Hs & _).
  - apply not_elem_of_empty.
  - unfold has_text. vm_compute. discriminate.
  - reflexivity.
  - split; [exact Hp|]. split; [exact Hpo|]. exact Hs.
Defined.

(** The backlog store is down when the pending candidate is approved. *)
Lemma failed_creation_keeps_candidate_witness :
  let w' := (@handleApproval Sample.runtime Sample.notion_down Sample.key None
               (Some Sample.url) Sample.ingested).2 in
  pendingApprovals w' !! Sample.key = Some (@approved_at Sample.runtime 0 Sample.registered) /\
  EFetch Sample.url task_failed_update ∈ trace w'.
Proof.
  destruct (@failed_creation_keeps_candidate Sample.runtime Sample.notion_down Sample.key
              Sample.registered None (Some Sample.url) Sample.ingested "APIResponseError")
    as (_ & Hk & _ & _ & Hn).
  - reflexivity.
  - reflexivity.
  - split; [exact Hk|]. apply (Hn _ eq_refl). discriminate.
Defined.

(** C2 as the specification states it fails on a candidate that was resolved
    and is still stored. After ingestion and a click on ``Reject'', the
    candidate is rejected; a click on ``Approve as-is'' on the same prompt
    then creates a task and removes the record. After an approval whose task
    creation failed, the candidate is approved; a second click on
    ``Approve as-is'' calls task creation again, and a click on ``Reject''
    turns the record into a rejected one. *)
Lemma click_on_resolved_counterexample :
  let clicked (E : env) (click : list action) (w : world) :=
    (@handleBlockActions Sample.runtime E click None (Some Sample.url) w).2 in
  let status_of (w : world) := default ∅ (pendingApprovals w !! Sample.key) !! "status" in
  status_of Sample.rejected = Some (JStr "rejected") /\
  created (trace Sample.rejected) = [] /\
  pendingApprovals (clicked Sample.later Sample.click_approve Sample.rejected) !! Sample.key
  = None /\
  length (created (trace (clicked Sample.later Sample.click_approve Sample.rejected))) = 1%nat /\
  status_of Sample.approved = Some (JStr "approved") /\
  length (created (trace Sample.approved)) = 1%nat /\
  length (created (trace (clicked Sample.later Sample.click_approve Sample.approved))) = 2%nat /\
  status_of (clicked Sample.later Sample.click_reject Sample.approved) = Some (JStr "rejected").
Proof. cbv zeta. repeat apply conj; vm_compute; reflexivity. Qed.

Lemma click_on_resolved_candidate_witness :
  let wr := (@handleRejection Sample.runtime Sample.later Sample.key None None
               Sample.approved).2 in
  pendingApprovals wr !! Sample.key
  = Some (@rejected_at Sample.runtime (8 * Sample.day)
            (@approved_at Sample.runtime 0 Sample.registered)) /\
  created (trace wr) = created (trace Sample.approved).
Proof.
  destruct (@click_on_resolved_candidate Sample.runtime Sample.later Sample.key None None
              Sample.approved) as [_ Hstored].
  destruct (Hstored (@approved_at Sample.runtime 0 Sample.registered))
    as (_ & _ & _ & Hr & _ & Hcr).
  - reflexivity.
  - split; [exact Hr|exact Hcr].
Defined.

(** C6 as the specification states it fails on its last part: eight days
    after ingestion the sweep removes the one candidate of the store, and
    returns no value, not the count. *)
Lemma sweep_counterexample :
  let r := @clearOldApprovals Sample.runtime Sample.later 7 Sample.ingested in
  size (pendingApprovals Sample.ingested) = 1%nat /\
  size (pendingApprovals r.2) = 0%nat /\
  r.1 = Normal Undefined /\
  r.1 <> Normal (Returned (JNum 1)) /\
  console r.2 = console Sample.ingested ++ [LogCleared 1].
Proof. cbv zeta. repeat apply conj; vm_compute; try reflexivity. discriminate. Qed.

(** The store of the scenario is written and read back. *)
Lemma reload_restores_store_witness :
  let saved := (@saveData Sample.runtime Sample.later Sample.ingested).2 in
  pendingApprovals (constructor saved).2 = pendingApprovals Sample.ingested /\
  processedMessages (constructor saved).2 = processedMessages Sample.ingested.
Proof.
  destruct (@reload_restores_store Sample.runtime Sample.later Sample.ingested eq_refl)
    as (_ & _ & Hp & Hs).
  split; [exact Hp|exact Hs].
Defined.

(** C9 as the specification states it fails on its last part: the permalink
    resolves, one prompt is posted, and no string of the prompt holds the
    permalink, while it does hold the title. *)
Lemma permalink_counterexample :
  chat_getPermalink Sample.healthy (ev_channel Sample.ev) (ev_ts Sample.ev)
  = Normal (Some Sample.permalink) /\
  length (posted (trace Sample.ingested)) = 1%nat /\
  forallb (fun m => negb (shows Sample.permalink m)) (posted (trace Sample.ingested)) = true /\
  forallb (shows "Mobile search broken") (posted (trace Sample.ingested)) = true.
Proof. repeat apply conj; vm_compute; reflexivity. Qed.

Lemma permalink_is_not_stored_witness :
  pendingApprovals Sample.ingested !! Sample.key = Some Sample.registered /\
  Sample.registered !! "messageLink" = None /\
  forall E2 : env,
    exists t : taskData,
      created (trace (@handleApproval Sample.runtime E2 Sample.key None None Sample.ingested).2)
      = created (trace Sample.ingested) ++ [t] /\
      td_messageLink t = JNull.
Proof.
  destruct (@permalink_is_not_stored Sample.runtime Sample.healthy Sample.ev Sample.fresh
              (<["sourceName" := JStr "#feedback"]> Sample.judgment) Sample.permalink)
    as (candidate & shown & Hk & Hlink & _ & _ & _ & Happrove).
  - apply not_elem_of_empty.
  - unfold has_text. vm_compute. discriminate.
  - reflexivity.
  - reflexivity.
  - discriminate.
  - assert (Hcandidate : candidate = Sample.registered).
    { change (pendingApprovals Sample.ingested !! Sample.key = Some candidate) in Hk.
      assert (Hreg : pendingApprovals Sample.ingested !! Sample.key = Some Sample.registered)
        by reflexivity.
      congruence. }
    subst candidate. split; [exact Hk|]. split; [exact Hlink|].
    intros E2. destruct (Happrove E2 None None) as (t & Hcr & _ & Hnull).
    exists t. split; [exact Hcr|]. apply Hnull. reflexivity.
Defined.

(** C8 as the specification states it fails on a reply whose [isFeedback]
    is not the boolean: the model answers with the string ["false"] and a
    confidence of 85, the reply parses to an object whose [isFeedback] is
    not true, and [analyzeFeedback] returns the judgment. *)
Lemma judge_counterexample :
  let r := @analyzeFeedback Coerced.runtime Coerced.services
             "the search feature is broken on mobile" "#feedback" Sample.fresh in
  messages_create Coerced.services "#feedback" "the search feature is broken on mobile"
  = Normal [ {| cb_type := "text"; cb_text := Coerced.reply |} ] /\
  @JSON_parse Coerced.runtime (extract_json Coerced.reply) = Some (JObj Coerced.judgment) /\
  Coerced.judgment !! "isFeedback" = Some (JStr "false") /\
  Coerced.judgment !! "isFeedback" <> Some (JBool true) /\
  Coerced.judgment !! "confidence" = Some (JNum 85) /\
  r.1 = Normal (Some (<["sourceName" := JStr "#feedback"]> Coerced.judgment)).
Proof. cbv zeta. repeat apply conj; vm_compute; try reflexivity. discriminate. Qed.

(** * More properties of the code *)

Section Extras.
Context `{R : Runtime}.

(** ** The approval store *)

Lemma approveFeedback_updates (E : env) (messageId : string) (approval : obj)
    (updates : option obj) (w : world) :
  pendingApprovals w !! messageId = Some approval ->
  let approved := approved_with (clock E (tick w)) approval updates in
  exists w', approveFeedback E messageId updates w = (Normal (Some approved), w') /\
    pendingApprovals w' = <[messageId := approved]> (pendingApprovals w) /\
    processedMessages w' = processedMessages w /\
    quiet w w'.
Proof.
  intros H. unfold approveFeedback, bind, gets, Date_now, modify. rewrite H. simpl.
  destruct (saveData_spec E
              (set_pendingApprovals
                 (<[messageId := approved_with (clock E (tick w)) approval updates]>)
                 (next_tick w))) as (w1 & Hrun & [Hp Hs] & Hq & _).
  unfold approved_with in *. rewrite Hrun. simpl. by exists w1.
Qed.

Lemma approved_list (w : world) (x : obj) :
  exists l, getApprovedFeedbacks w = (Normal l, w) /\
    (x ∈ l <-> has_status "approved" x = true /\ exists k, pendingApprovals w !! k = Some x).
Proof.
  unfold getApprovedFeedbacks, gets. eexists. split; [reflexivity|].
  rewrite list_elem_of_filter, list_elem_of_fmap. split.
  - intros [Hst ([k c] & -> & Hin)]. split; [done|]. exists k. by apply elem_of_map_to_list.
  - intros [Hst (k & Hk)]. split; [done|]. exists (k, x). split; [done|].
    by apply elem_of_map_to_list.
Qed.

(** X1. After [addPendingApproval messageId feedback], [getPendingApproval]
    finds under the key a candidate in state pending, stamped with the time
    of the registration, that has every other field of [feedback]. The
    candidates under other keys are as before, and registering a key that is
    already there replaces its candidate: the number of candidates does not
    change. *)
Theorem register_then_get (E : env) (messageId : string) (feedback : obj) (w : world) :
  let w' := (addPendingApproval E messageId feedback w).2 in
  exists candidate : obj,
    getPendingApproval messageId w' = (Normal (Some candidate), w') /\
    candidate !! "status" = Some (JStr "pending") /\
    candidate !! "createdAt" = Some (JStr (toISOString (clock E (tick w)))) /\
    (forall field : string,
       field <> "status" -> field <> "createdAt" -> candidate !! field = feedback !! field) /\
    (forall other : string,
       other <> messageId -> pendingApprovals w' !! other = pendingApprovals w !! other) /\
    (is_Some (pendingApprovals w !! messageId) ->
     size (pendingApprovals w') = size (pendingApprovals w)) /\
    (pendingApprovals w !! messageId = None ->
     size (pendingApprovals w') = S (size (pendingApprovals w))).
Proof.
  intros w'. destruct (addPendingApproval_spec E messageId feedback w)
    as (w1 & Hrun & Hp & _). subst w'. rewrite Hrun. simpl.
  exists (pending_at (clock E (tick w)) feedback).
  unfold getPendingApproval, gets. rewrite Hp, lookup_insert_eq.
  split; [done|]. unfold pending_at.
  split; [apply lookup_insert_eq|].
  split; [rewrite lookup_insert_ne by done; apply lookup_insert_eq|].
  split; [intros field H1 H2; by rewrite !lookup_insert_ne|].
  split; [intros other Hne; by rewrite lookup_insert_ne|].
  split.
  - intros Hsome. by apply map_size_insert_Some.
  - intros Hnone. by apply map_size_insert_None.
Qed.

(** X2. Approving a stored candidate puts it, in state approved, among the
    approved feedbacks; after [removePendingApproval] the key is not found
    any more, and the approved feedbacks are the approved candidates that
    were stored under the other keys. *)
Theorem approve_then_remove (E1 E2 : env) (messageId : string) (approval : obj)
    (updates : option obj) (w : world) :
  pendingApprovals w !! messageId = Some approval ->
  let approved := approved_with (clock E1 (tick w)) approval updates in
  let w1 := (approveFeedback E1 messageId updates w).2 in
  let w2 := (removePendingApproval E2 messageId w1).2 in
  (approveFeedback E1 messageId updates w).1 = Normal (Some approved) /\
  has_status "approved" approved = true /\
  (exists l, getApprovedFeedbacks w1 = (Normal l, w1) /\ approved ∈ l) /\
  getPendingApproval messageId w2 = (Normal None, w2) /\
  (exists l, getApprovedFeedbacks w2 = (Normal l, w2) /\
     forall x : obj,
       x ∈ l <->
       has_status "approved" x = true /\
       exists k, k <> messageId /\ pendingApprovals w !! k = Some x).
Proof.
  intros Hk approved w1 w2.
  destruct (approveFeedback_updates E1 messageId approval updates w Hk)
    as (w1' & Hrun1 & Hp1 & _).
  fold approved in Hrun1, Hp1.
  destruct (removePendingApproval_spec E2 messageId w1') as (w2' & Hrun2 & Hp2 & _).
  subst w2 w1. rewrite Hrun1. simpl. rewrite Hrun2. simpl.
  assert (Hst : has_status "approved" approved = true).
  { unfold has_status, approved, approved_with.
    rewrite lookup_insert_ne by done. by rewrite lookup_insert_eq. }
  split; [done|]. split; [done|]. split; [|split].
  - destruct (approved_list w1' approved) as (l & Hl & Hin). exists l. split; [done|].
    apply Hin. split; [done|]. exists messageId. rewrite Hp1. apply lookup_insert_eq.
  - unfold getPendingApproval, gets. by rewrite Hp2, Hp1, delete_insert_eq, lookup_delete_eq.
  - unfold getApprovedFeedbacks, gets. eexists. split; [reflexivity|]. intros x.
    rewrite list_elem_of_filter, list_elem_of_fmap, Hp2, Hp1, delete_insert_eq. split.
    + intros [Hx ([k c] & -> & Hin)]. split; [done|]. exists k.
      apply elem_of_map_to_list in Hin. simpl in *.
      destruct (decide (k = messageId)) as [->|Hne].
      * by rewrite lookup_delete_eq in Hin.
      * by rewrite lookup_delete_ne in Hin.
    + intros [Hx (k & Hne & Hkx)]. split; [done|]. exists (k, x). split; [done|].
      apply elem_of_map_to_list. by rewrite lookup_delete_ne.
Qed.

(** *** Counting candidates by state *)

Lemma one_status (c : obj) :
  known_status c = true ->
  ((if has_status "pending" c then 1 else 0)
   + (if has_status "approved" c then 1 else 0)
   + (if has_status "rejected" c then 1 else 0) = 1)%nat.
Proof.
  unfold known_status, has_status. destruct (c !! "status") as [[| | |t| |]|]; try done.
  destruct (String.eqb_spec t "pending") as [->|]; [done|].
  destruct (String.eqb_spec t "approved") as [->|]; [done|].
  destruct (String.eqb_spec t "rejected") as [->|]; done.
Qed.

Lemma at_most_one_status (c : obj) :
  ((if has_status "pending" c then 1 else 0)
   + (if has_status "approved" c then 1 else 0)
   + (if has_status "rejected" c then 1 else 0) <= 1)%nat.
Proof.
  unfold has_status. destruct (c !! "status") as [[| | |t| |]|]; try (simpl; lia).
  destruct (String.eqb_spec t "pending") as [->|]; [simpl; lia|].
  destruct (String.eqb_spec t "approved") as [->|]; [simpl; lia|].
  destruct (String.eqb_spec t "rejected") as [->|]; simpl; lia.
Qed.

Lemma count_cons (s : string) (c : obj) (l : list obj) :
  length (filter (fun a => has_status s a = true) (c :: l))
  = ((if has_status s c then 1 else 0)
     + length (filter (fun a => has_status s a = true) l))%nat.
Proof.
  destruct (has_status s c) eqn:Hc.
  - by rewrite filter_cons_True.
  - rewrite filter_cons_False; [done|]. by rewrite Hc.
Qed.

Lemma counts_of_list (l : list obj) :
  let count s := length (filter (fun a => has_status s a = true) l) in
  (count "pending" + count "approved" + count "rejected" <= length l)%nat /\
  (Forall (fun c => known_status c = true) l ->
   (count "pending" + count "approved" + count "rejected" = length l)%nat).
Proof.
  induction l as [|c l [IHle IHeq]]; [by split|].
  cbv beta zeta in *. rewrite !count_cons. pose proof (at_most_one_status c). split.
  - simpl. lia.
  - intros Hall. inversion Hall as [|? ? Hc Hl]; subst.
    pose proof (one_status c Hc). specialize (IHeq Hl). simpl. lia.
Qed.

(** Replacing the candidate under a key moves one unit from the count of
    its old state to the count of its new one. *)
Lemma count_status_insert (s : string) (k : string) (old new : obj) (m : gmap string obj) :
  m !! k = Some old ->
  (count_status s (<[k := new]> m) + (if has_status s old then 1 else 0)
   = count_status s m + (if has_status s new then 1 else 0))%nat.
Proof.
  intros Hk. unfold count_status.
  assert (Hnew : snd <$> map_to_list (<[k := new]> m)
                 ≡ₚ new :: (snd <$> map_to_list (delete k m))).
  { rewrite <- insert_delete_eq.
    rewrite map_to_list_insert by apply lookup_delete_eq. done. }
  assert (Hold : snd <$> map_to_list m ≡ₚ old :: (snd <$> map_to_list (delete k m))).
  { rewrite <- (insert_delete_id m k old Hk) at 1.
    rewrite map_to_list_insert by apply lookup_delete_eq. done. }
  rewrite Hnew, Hold, !count_cons. lia.
Qed.

Lemma known_pending (now : Z) (feedback : obj) :
  known_status (pending_at now feedback) = true.
Proof. unfold known_status, has_status, pending_at. by rewrite lookup_insert_eq. Qed.

Lemma known_approved (now : Z) (approval : obj) (updates : option obj) :
  known_status (approved_with now approval updates) = true.
Proof.
  unfold known_status, has_status, approved_with.
  rewrite lookup_insert_ne by done. by rewrite lookup_insert_eq.
Qed.

Lemma known_rejected (now : Z) (approval : obj) :
  known_status (rejected_at now approval) = true.
Proof.
  unfold known_status, has_status, rejected_at.
  rewrite lookup_insert_ne by done. by rewrite lookup_insert_eq.
Qed.

Lemma clearOldApprovals_memory (E : env) (days : Z) (w : world) :
  pendingApprovals (clearOldApprovals E days w).2
  = filter (fun e => created_before (clock E (tick w) - days * 24 * 60 * 60 * 1000) e.2 = false)
      (pendingApprovals w) /\
  processedMessages (clearOldApprovals E days w).2 = processedMessages w.
Proof.
  unfold clearOldApprovals, bind, Date_now, gets, modify, ret, log. simpl.
  rewrite clear_loop_filter.
  match goal with |- context [bool_decide ?P] => destruct (bool_decide P) end;
    simpl; rewrite ?clear_loop_filter; [|done].
  match goal with
  | |- context [saveData E ?w0] =>
      destruct (saveData_spec E w0) as (w1 & Hrun & [Hp Hs] & _)
  end.
  rewrite Hrun. simpl. rewrite Hp, Hs. simpl. by rewrite ?clear_loop_filter.
Qed.

(** X3. Every candidate the handler stores is pending, approved or
    rejected: a store that starts without a data file has this property, and
    registering, approving (with any updates), rejecting, removing, marking
    and sweeping keep it. *)
Theorem statuses_stay_known (E : env) (w : world) :
  statuses_known w ->
  (forall messageId feedback, statuses_known (addPendingApproval E messageId feedback w).2) /\
  (forall messageId updates, statuses_known (approveFeedback E messageId updates w).2) /\
  (forall messageId, statuses_known (rejectFeedback E messageId w).2) /\
  (forall messageId, statuses_known (removePendingApproval E messageId w).2) /\
  (forall messageTs, statuses_known (markAsProcessed E messageTs w).2) /\
  (forall days, statuses_known (clearOldApprovals E days w).2) /\
  (forall w0, dataFile w0 = None -> statuses_known (constructor w0).2).
Proof.
  unfold statuses_known. intros Hw. repeat split.
  - intros messageId feedback.
    destruct (addPendingApproval_spec E messageId feedback w) as (w' & Hrun & Hp & _).
    rewrite Hrun. simpl. rewrite Hp. apply map_Forall_insert_2; [apply known_pending|done].
  - intros messageId updates. destruct (pendingApprovals w !! messageId) as [c|] eqn:Hk.
    + destruct (approveFeedback_updates E messageId c updates w Hk) as (w' & Hrun & Hp & _).
      rewrite Hrun. simpl. rewrite Hp. apply map_Forall_insert_2; [apply known_approved|done].
    + by rewrite (approveFeedback_absent E messageId updates w Hk).
  - intros messageId. destruct (pendingApprovals w !! messageId) as [c|] eqn:Hk.
    + destruct (rejectFeedback_present E messageId c w Hk) as (w' & Hrun & Hp & _).
      rewrite Hrun. simpl. rewrite Hp. apply map_Forall_insert_2; [apply known_rejected|done].
    + by rewrite (rejectFeedback_absent E messageId w Hk).
  - intros messageId.
    destruct (removePendingApproval_spec E messageId w) as (w' & Hrun & Hp & _).
    rewrite Hrun. simpl. rewrite Hp. by apply map_Forall_delete.
  - intros messageTs.
    destruct (markAsProcessed_spec E messageTs w) as (w' & Hrun & Hp & _).
    rewrite Hrun. simpl. by rewrite Hp.
  - intros days. destruct (clearOldApprovals_memory E days w) as [Hp _]. rewrite Hp.
    intros k c Hkc. apply map_lookup_filter_Some in Hkc as [Hkc _]. by apply (Hw k).
  - intros w0 Hnone. unfold constructor, loadData, bind, try_catch, gets, modify. simpl.
    rewrite Hnone. simpl. apply map_Forall_empty.
Qed.

(** X4. The three counters of [getStats] never count a candidate twice, and
    when every stored candidate is pending, approved or rejected they add up
    to the number of stored candidates; [processed] is the number of marked
    messages. Reading the statistics changes nothing. *)
Theorem stats_add_up (w : world) :
  exists s : stats,
    getStats w = (Normal s, w) /\
    (st_pending s + st_approved s + st_rejected s <= size (pendingApprovals w))%nat /\
    (statuses_known w ->
     (st_pending s + st_approved s + st_rejected s = size (pendingApprovals w))%nat) /\
    st_processed s = size (processedMessages w).
Proof.
  unfold getStats, gets. eexists. split; [reflexivity|]. simpl. unfold count_status.
  destruct (counts_of_list (snd <$> map_to_list (pendingApprovals w))) as [Hle Heq].
  cbv beta zeta in *. rewrite length_fmap, length_map_to_list in Hle, Heq.
  split; [done|]. split; [|done].
  intros Hknown. apply Heq. apply Forall_fmap, list.Forall_forall. intros [k c] Hin.
  apply elem_of_map_to_list in Hin. by apply (Hknown k).
Qed.

(** X5. Approving a pending candidate moves one unit of the statistics from
    pending to approved, rejecting it moves one unit from pending to
    rejected; the other counters stay. *)
Theorem resolution_moves_one_in_stats (E : env) (messageId : string) (candidate : obj)
    (updates : option obj) (w : world) :
  pendingApprovals w !! messageId = Some candidate ->
  has_status "pending" candidate = true ->
  let wa := (approveFeedback E messageId updates w).2 in
  let wr := (rejectFeedback E messageId w).2 in
  exists s sa sr : stats,
    getStats w = (Normal s, w) /\
    getStats wa = (Normal sa, wa) /\
    getStats wr = (Normal sr, wr) /\
    st_pending s = S (st_pending sa) /\ st_approved sa = S (st_approved s) /\
    st_rejected sa = st_rejected s /\ st_processed sa = st_processed s /\
    st_pending s = S (st_pending sr) /\ st_rejected sr = S (st_rejected s) /\
    st_approved sr = st_approved s /\ st_processed sr = st_processed s.
Proof.
  intros Hk Hpending wa wr.
  destruct (approveFeedback_updates E messageId candidate updates w Hk)
    as (wa' & Hruna & Hpa & Hsa & _).
  destruct (rejectFeedback_present E messageId candidate w Hk)
    as (wr' & Hrunr & Hpr & Hsr & _).
  subst wa wr. rewrite Hruna, Hrunr. simpl.
  unfold getStats, gets. do 3 eexists. do 3 (split; [reflexivity|]). simpl.
  rewrite Hpa, Hpr, Hsa, Hsr.
  set (approved := approved_with (clock E (tick w)) candidate updates).
  set (rejected := rejected_at (clock E (tick w)) candidate).
  assert (Hcand : has_status "approved" candidate = false /\
                  has_status "rejected" candidate = false).
  { revert Hpending. unfold has_status.
    destruct (candidate !! "status") as [[| | |t| |]|]; try done.
    destruct (String.eqb_spec t "pending") as [->|]; done. }
  destruct Hcand as [Hca Hcr].
  assert (Happ : has_status "approved" approved = true /\
                 has_status "pending" approved = false /\
                 has_status "rejected" approved = false).
  { unfold has_status, approved, approved_with.
    rewrite lookup_insert_ne by done. by rewrite lookup_insert_eq. }
  assert (Hrej : has_status "rejected" rejected = true /\
                 has_status "pending" rejected = false /\
                 has_status "approved" rejected = false).
  { unfold has_status, rejected, rejected_at.
    rewrite lookup_insert_ne by done. by rewrite lookup_insert_eq. }
  destruct Happ as (Ha1 & Ha2 & Ha3). destruct Hrej as (Hr1 & Hr2 & Hr3).
  pose proof (count_status_insert "pending" messageId candidate approved _ Hk) as H1.
  pose proof (count_status_insert "approved" messageId candidate approved _ Hk) as H2.
  pose proof (count_status_insert "rejected" messageId candidate approved _ Hk) as H3.
  pose proof (count_status_insert "pending" messageId candidate rejected _ Hk) as H4.
  pose proof (count_status_insert "approved" messageId candidate rejected _ Hk) as H5.
  pose proof (count_status_insert "rejected" messageId candidate rejected _ Hk) as H6.
  rewrite ?Hpending, ?Hca, ?Hcr, ?Ha1, ?Ha2, ?Ha3, ?Hr1, ?Hr2, ?Hr3 in *.
  repeat split; lia.
Qed.

(** *** Marks *)

(** X6. After [markAsProcessed ts], [isProcessed ts] answers true; the marks
    of the other messages and the candidates are as before; marking a
    marked message changes no mark, and the counter of processed messages
    grows by one exactly when the message was not marked. *)
Theorem mark_then_isProcessed (E E2 : env) (messageTs : string) (w : world) :
  let w' := (markAsProcessed E messageTs w).2 in
  isProcessed messageTs w' = (Normal true, w') /\
  (forall other : string,
     other <> messageTs -> (isProcessed other w').1 = (isProcessed other w).1) /\
  pendingApprovals w' = pendingApprovals w /\
  processedMessages (markAsProcessed E2 messageTs w').2 = processedMessages w' /\
  size (processedMessages w')
  = (if bool_decide (messageTs ∈ processedMessages w)
     then size (processedMessages w) else S (size (processedMessages w))).
Proof.
  intros w'. destruct (markAsProcessed_spec E messageTs w) as (w1 & Hrun & Hp & Hs & _).
  destruct (markAsProcessed_spec E2 messageTs w1) as (w2 & Hrun2 & _ & Hs2 & _).
  subst w'. rewrite Hrun. simpl. rewrite Hrun2. simpl.
  unfold isProcessed, gets. simpl. rewrite Hs2, Hs.
  generalize (processedMessages w). clear - Hp. intros marks. repeat split.
  - f_equal. f_equal. apply bool_decide_eq_true.
    apply elem_of_union. left. by apply elem_of_singleton.
  - intros other Hne. f_equal. apply bool_decide_ext.
    rewrite elem_of_union, elem_of_singleton. tauto.
  - done.
  - by rewrite (assoc_L (∪)), (idemp_L (∪)).
  - destruct (decide (messageTs ∈ marks)) as [Hin|Hout].
    + rewrite bool_decide_eq_true_2 by done. f_equal. apply subseteq_union_1_L.
      by apply singleton_subseteq_l.
    + rewrite bool_decide_eq_false_2 by done.
      rewrite size_union by (by apply disjoint_singleton_l).
      by rewrite size_singleton.
Qed.

(** *** The data file *)

Lemma saveData_unwritable (E : env) (w : world) :
  fs_writable E = false ->
  saveData E w = (Normal tt, print (LogError "Error saving approval data:") (next_tick w)).
Proof.
  intros Hfs. unfold saveData, try_catch, bind, Date_now, gets, throw, log, modify.
  by rewrite Hfs.
Qed.

(** What a process finds in memory when it starts on the data file that
    holds the memory of [w]. *)
Lemma restart_on_file (w w' : world) :
  persisted w -> dataFile w' = dataFile w -> same_memory w (constructor w').2.
Proof.
  intros [now Hfile] Hsame. unfold constructor, bind, modify.
  set (w0 := set_processedMessages _ _).
  assert (Hfile0 : dataFile w0 = Some (Stored (snapshot_of w now))) by (simpl; congruence).
  destruct (loadData_stored _ w0 Hfile0) as (w1 & Hrun & Hp & Hs & _).
  rewrite Hrun. simpl in *. split.
  - rewrite Hp. apply Map_of_map_to_list.
  - rewrite Hs. apply Set_of_elements.
Qed.

Lemma written_app (t1 t2 : list effect) : written (t1 ++ t2) = written t1 ++ written t2.
Proof. apply omap_app. Qed.

Lemma unsaved_after_saveData {A} (E : env) (a : A) (w w0 : world) :
  fs_writable E = false ->
  persisted w ->
  dataFile w0 = dataFile w -> trace w0 = trace w ->
  unsaved w (Normal a, (saveData E w0).2).
Proof.
  intros Hfs Hw Hfile Htrace. rewrite (saveData_unwritable E w0 Hfs). simpl.
  split; [by exists a|]. split; [done|]. split; [by f_equal|].
  split; [apply elem_of_app; right; apply list_elem_of_singleton; done|].
  by apply restart_on_file.
Qed.

(** X7. When the data file cannot be written, every operation of the
    handler that changes the memory still returns: the failure only shows on
    the console, the file stays as it was, and a process that starts
    afterwards finds the store the file held, without the change. A message
    marked in such a run is not marked after a restart. *)
Theorem unwritable_file_loses_changes (E : env) (w : world) :
  fs_writable E = false ->
  persisted w ->
  (forall messageId feedback, unsaved w (addPendingApproval E messageId feedback w)) /\
  (forall messageTs, unsaved w (markAsProcessed E messageTs w)) /\
  (forall messageId, unsaved w (removePendingApproval E messageId w)) /\
  (forall messageId updates,
     is_Some (pendingApprovals w !! messageId) ->
     unsaved w (approveFeedback E messageId updates w)) /\
  (forall messageId,
     is_Some (pendingApprovals w !! messageId) ->
     unsaved w (rejectFeedback E messageId w)) /\
  (forall messageTs,
     messageTs ∉ processedMessages w ->
     let w' := (markAsProcessed E messageTs w).2 in
     messageTs ∈ processedMessages w' /\
     messageTs ∉ processedMessages (constructor w').2).
Proof.
  intros Hfs Hw. split_and!.
  - intros messageId feedback. unfold addPendingApproval, bind, Date_now, modify. simpl.
    match goal with |- context [saveData E ?w0] =>
      pose proof (unsaved_after_saveData E tt w w0 Hfs Hw eq_refl eq_refl) as Hu;
      rewrite (saveData_unwritable E w0 Hfs) in *
    end. exact Hu.
  - intros messageTs. unfold markAsProcessed, bind, modify. simpl.
    match goal with |- context [saveData E ?w0] =>
      pose proof (unsaved_after_saveData E tt w w0 Hfs Hw eq_refl eq_refl) as Hu;
      rewrite (saveData_unwritable E w0 Hfs) in *
    end. exact Hu.
  - intros messageId. unfold removePendingApproval, bind, modify. simpl.
    match goal with |- context [saveData E ?w0] =>
      pose proof (unsaved_after_saveData E tt w w0 Hfs Hw eq_refl eq_refl) as Hu;
      rewrite (saveData_unwritable E w0 Hfs) in *
    end. exact Hu.
  - intros messageId updates [c Hk].
    unfold approveFeedback, bind, gets, Date_now, modify, ret. rewrite Hk. simpl.
    match goal with |- context [saveData E ?w0] =>
      pose proof (unsaved_after_saveData E (Some (approved_with (clock E (tick w)) c updates))
                    w w0 Hfs Hw eq_refl eq_refl) as Hu;
      rewrite (saveData_unwritable E w0 Hfs) in *
    end. exact Hu.
  - intros messageId [c Hk].
    unfold rejectFeedback, bind, gets, Date_now, modify, ret. rewrite Hk. simpl.
    match goal with |- context [saveData E ?w0] =>
      pose proof (unsaved_after_saveData E (Some (rejected_at (clock E (tick w)) c))
                    w w0 Hfs Hw eq_refl eq_refl) as Hu;
      rewrite (saveData_unwritable E w0 Hfs) in *
    end. exact Hu.
  - intros messageTs Hnew w'. subst w'.
    destruct (markAsProcessed_spec E messageTs w) as (w1 & Hrun & _ & Hs & _).
    destruct (saveData_spec E (set_processedMessages (fun s => {[messageTs]} ∪ s) w))
      as (w2 & Hrun2 & _ & _ & _ & Hkept).
    destruct (Hkept Hfs) as [Hfile _].
    assert (Hw1 : w1 = w2).
    { unfold markAsProcessed, bind, modify in Hrun. simpl in Hrun. congruence. }
    subst w2. rewrite Hrun. simpl. split.
    + rewrite Hs. apply elem_of_union. left. by apply elem_of_singleton.
    + destruct (restart_on_file w w1 Hw Hfile) as [_ Hs1]. by rewrite Hs1.
Qed.

Lemma Map_of_snoc (entries : list (string * obj)) (e : string * obj) :
  Map_of (entries ++ [e]) = <[e.1 := e.2]> (Map_of entries).
Proof. unfold Map_of. by rewrite foldl_app. Qed.

(** [new Map(entries)] holds under a key the value of its last entry. *)
Lemma Map_of_last (entries : list (string * obj)) (k : string) :
  Map_of entries !! k = snd <$> list.last (filter (fun e => e.1 = k) entries).
Proof.
  induction entries as [|e entries IH] using rev_ind; [done|].
  rewrite Map_of_snoc, list.filter_app. destruct (decide (e.1 = k)) as [<-|Hne].
  - rewrite lookup_insert_eq, filter_cons_True by done. rewrite filter_nil.
    by rewrite last_snoc.
  - rewrite lookup_insert_ne by done. rewrite filter_cons_False by done.
    by rewrite filter_nil, app_nil_r.
Qed.

(** X8. Starting never fails, whatever the data file holds, leaves the file
    as it is and forgets what the memory held. Without a file the store
    starts empty; with a file that does not parse it starts empty too, and
    the console tells. From a file that parses, a list that is missing
    counts as empty, a key listed twice gets the candidate of its last
    entry, and the marks are the listed ones. *)
Theorem constructor_survives_bad_file (w : world) :
  let w' := (constructor w).2 in
  constructor w = (Normal tt, w') /\
  dataFile w' = dataFile w /\ trace w' = trace w /\
  (dataFile w = None ->
   pendingApprovals w' = ∅ /\ processedMessages w' = ∅ /\ console w' = console w) /\
  (dataFile w = Some Unparsable ->
   pendingApprovals w' = ∅ /\ processedMessages w' = ∅ /\
   console w' = console w ++ [LogError "Error loading approval data:"]) /\
  (forall data : snapshot,
     dataFile w = Some (Stored data) ->
     (forall k : string,
        pendingApprovals w' !! k
        = snd <$> list.last (filter (fun e => e.1 = k) (default [] (snap_pendingApprovals data)))) /\
     (forall ts : string,
        ts ∈ processedMessages w' <-> ts ∈ default [] (snap_processedMessages data)) /\
     console w' = console w).
Proof.
  intros w'. subst w'.
  unfold constructor, loadData, try_catch, bind, gets, modify, throw, log, ret. simpl.
  destruct (dataFile w) as [[|data]|] eqn:Hfile; simpl; split_and!; try done.
  intros data' Hdata. injection Hdata as <-. split_and!; [|intros ts|done].
  - apply Map_of_last.
  - unfold Set_of. apply elem_of_list_to_set.
Qed.

(** X9. A message that was analysed stays skipped across a restart: when
    the data file can be written, a process that starts after
    [processFeedbackMessage] finds the memory the run left, and skips the
    same message without calling anything. *)
Theorem restart_keeps_skipping (E E2 : env) (ev : event) (w : world) :
  fs_writable E = true ->
  ev_ts ev ∉ processedMessages w ->
  has_text ev ->
  let w1 := (processFeedbackMessage E ev w).2 in
  let w2 := (constructor w1).2 in
  same_memory w1 w2 /\
  processFeedbackMessage E2 ev w2 = (Normal tt, print LogAlreadyProcessed w2).
Proof.
  intros Hfs Hnew Htext w1 w2.
  destruct (ingestion_pipeline E ev w Hnew Htext) as (w_mid & w' & t & Hrun & Hmark & Hs & _).
  destruct (mutations_are_persisted E w_mid Hfs) as (_ & Hpersisted & _).
  specialize (Hpersisted (ev_ts ev)). rewrite Hmark in Hpersisted. simpl in Hpersisted.
  destruct (markAsProcessed_spec E (ev_ts ev) w_mid) as (w'' & Hmark' & _ & Hs' & _).
  assert (Hw : w'' = w') by congruence. subst w''.
  subst w1 w2. rewrite Hrun. simpl.
  destruct (persisted_restart w' Hpersisted) as [Hp2 Hs2].
  split; [by split|].
  apply ingestion_skips_processed. rewrite Hs2, Hs'.
  apply elem_of_union. left. by apply elem_of_singleton.
Qed.

(** ** The analyzer *)

Lemma length_omap_le {A B} (f : A -> option B) (l : list A) :
  (length (omap f l) <= length l)%nat.
Proof. induction l as [|a l IH]; csimpl; [lia|]. destruct (f a); csimpl; lia. Qed.

(** X10. [analyzeBatch] never throws. It calls the model once for each
    message, in their order, and returns one item for each message the model
    judges to be feedback, in the same order: the judgment with the message
    and its snippet. Messages whose call or whose answer fails give no
    item. The store is not touched. *)
Theorem batch_judges_each_message (E : env) (messages : list message) (w : world) :
  exists w' : world,
    analyzeBatch E messages w = (Normal (batch_items E messages), w') /\
    same_store w w' /\
    trace w' = trace w ++ batch_calls messages /\
    (length (batch_items E messages) <= length messages)%nat /\
    (forall item : obj,
       item ∈ batch_items E messages ->
       exists (msg : message) (judgment : obj),
         msg ∈ messages /\
         item !! "originalMessage" = Some (JObj (message_obj msg)) /\
         item !! "messageSnippet" = Some (JStr (messageSnippet (msg_text msg))) /\
         (forall field : string,
            field <> "originalMessage" -> field <> "messageSnippet" ->
            item !! field = judgment !! field)).
Proof.
  assert (Hrun : exists w', analyzeBatch E messages w = (Normal (batch_items E messages), w') /\
                   same_store w w' /\ trace w' = trace w ++ batch_calls messages).
  { revert w. induction messages as [|msg rest IH]; intros w.
    - exists w. simpl. unfold ret. by rewrite app_nil_r.
    - simpl. unfold bind at 1.
      destruct (analyzeFeedback_spec E (msg_text msg) ("#" +:+ msg_channelName msg) w)
        as (w1 & Hrun1 & [[Hp1 Hs1] Hf1] & _ & Ht1).
      rewrite Hrun1. unfold bind at 1.
      destruct (IH w1) as (w2 & Hrun2 & [[Hp2 Hs2] Hf2] & Ht2). rewrite Hrun2.
      exists w2. unfold ret, sourceName_of, item_of, same_store, same_memory.
      split; [|split].
      + by destruct (judgment_of _ _).
      + repeat split; congruence.
      + rewrite Ht2, Ht1, <- app_assoc. done. }
  destruct Hrun as (w' & Hrun & Hstore & Htrace). exists w'.
  split; [done|]. split; [done|]. split; [done|]. split.
  - unfold batch_items. apply length_omap_le.
  - intros item Hin. unfold batch_items in Hin. apply list_elem_of_omap in Hin
      as (msg & Hmsg & Hitem).
    destruct (judgment_of _ _) as [judgment|]; [|done]. simpl in Hitem.
    injection Hitem as <-. exists msg, judgment. unfold item_of.
    split; [done|]. split; [|split].
    + rewrite lookup_insert_ne by done. apply lookup_insert_eq.
    + apply lookup_insert_eq.
    + intros field H1 H2. by rewrite !lookup_insert_ne.
Qed.

Lemma length_append (a b : string) :
  String.length (a +:+ b) = (String.length a + String.length b)%nat.
Proof. induction a as [|c a IH]; simpl; [done|]. by rewrite IH. Qed.

Lemma substring_short (n : nat) (s : string) :
  (String.length s <= n)%nat -> String.substring 0 n s = s.
Proof.
  revert n. induction s as [|c s IH]; intros [|n] Hn; simpl in *; try done; try lia.
  f_equal. apply IH. lia.
Qed.

Lemma length_substring (n : nat) (s : string) :
  String.length (String.substring 0 n s) = (n `min` String.length s)%nat.
Proof.
  revert n. induction s as [|c s IH]; intros [|n]; simpl; try done.
  by rewrite IH.
Qed.

(** X11. The snippet of a message is the message itself when it has at
    most 100 code units; otherwise it is its first 100 code units followed
    by three dots. A snippet is never longer than 103 code units. *)
Theorem snippet_is_bounded (text : string) :
  (String.length (messageSnippet text) <= 103)%nat /\
  ((String.length text <= 100)%nat -> messageSnippet text = text) /\
  ((100 < String.length text)%nat ->
   messageSnippet text = take_str 100 text +:+ "..." /\
   String.length (take_str 100 text) = 100%nat /\
   String.length (messageSnippet text) = 103%nat).
Proof.
  unfold messageSnippet, take_str.
  destruct (Nat.ltb_spec 100 (String.length text)) as [Hlong|Hshort].
  - rewrite length_append, length_substring. simpl String.length. split_and!; try lia.
    intros _. split_and!; try done; lia.
  - rewrite substring_short by done. assert (Hnil : forall s, s +:+ "" = s).
    { intros s. induction s as [|c s IH]; [done|].
      change (String c s +:+ "") with (String c (s +:+ "")). by rewrite IH. }
    rewrite Hnil. split_and!; try done; lia.
Qed.

(** ** Keys of candidates *)

(** [s.replace('.', '_')], as a scan. *)
Lemma replace_first_dot (s : string) :
  replace_first "." "_" s
  = (fix scan (s : string) : string :=
       match s with
       | String c t => if Ascii.eqb c "."%char then String "_"%char t else String c (scan t)
       | EmptyString => EmptyString
       end) s.
Proof.
  unfold replace_first, indexOf, take_str. induction s as [|c s IH]; [done|].
  cbn [String.index String.prefix]. destruct (ascii_dec "." c) as [<-|Hne].
  - by destruct s.
  - destruct (Ascii.eqb_spec c ".") as [->|_]; [done|].
    destruct (String.index 0 "." s) as [i|]; [|by rewrite <- IH].
    rewrite <- IH. by destruct s.
Qed.

(** X12. Two timestamps that hold no underscore and differ give different
    candidate keys: [messageId_of] loses nothing of such a timestamp. *)
Theorem keys_do_not_collide (ts1 ts2 : string) :
  "_"%char ∉ String.list_ascii_of_string ts1 ->
  "_"%char ∉ String.list_ascii_of_string ts2 ->
  ts1 <> ts2 ->
  messageId_of ts1 <> messageId_of ts2.
Proof.
  unfold messageId_of. rewrite !replace_first_dot. intros H1 H2 Hne Heq. apply Hne. clear Hne.
  simpl in Heq. injection Heq as Heq. revert ts2 H1 H2 Heq.
  induction ts1 as [|c1 t1 IH]; intros [|c2 t2] H1 H2 Heq.
  - done.
  - simpl in Heq. by destruct (Ascii.eqb c2 ".").
  - simpl in Heq. by destruct (Ascii.eqb c1 ".").
  - simpl in H1, H2. apply not_elem_of_cons in H1 as [Hc1 H1].
    apply not_elem_of_cons in H2 as [Hc2 H2]. simpl in Heq.
    destruct (Ascii.eqb_spec c1 ".") as [->|Hd1];
      destruct (Ascii.eqb_spec c2 ".") as [->|Hd2].
    + by injection Heq as ->.
    + injection Heq as Hc _. done.
    + injection Heq as Hc _. done.
    + injection Heq as -> Heq. f_equal. by apply IH.
Qed.

(** ** Which messages are analysed *)

Lemma blank_append (a b : string) : blank (a +:+ b) = blank a && blank b.
Proof. induction a as [|c a IH]; simpl; [done|]. by rewrite IH, andb_assoc. Qed.

Lemma trimStart_blank (s : string) : blank s = true -> trimStart s = "".
Proof.
  induction s as [|c s IH]; simpl; [done|]. intros [Hc Hs]%andb_prop.
  rewrite Hc. by apply IH.
Qed.

Lemma trimEnd_nonblank (s : string) : blank s = false -> trimEnd s <> "".
Proof.
  induction s as [|c s IH]; simpl; [done|]. intros Hb.
  destruct (trimEnd s) eqn:Hs; [|done]. destruct (is_space c); [|done].
  simpl in Hb. by apply IH in Hb.
Qed.

Lemma trimStart_nonblank (s : string) : blank s = false -> blank (trimStart s) = false.
Proof.
  induction s as [|c s IH]; simpl; [done|]. destruct (is_space c) eqn:Hc; simpl.
  - done.
  - by rewrite Hc.
Qed.

(** [s.trim()] is empty exactly when [s] holds white space only. *)
Lemma trim_blank (s : string) : trim s = "" <-> blank s = true.
Proof.
  unfold trim. split.
  - intros Htrim. destruct (blank s) eqn:Hb; [done|].
    by apply trimStart_nonblank, trimEnd_nonblank in Hb.
  - intros Hb. by rewrite trimStart_blank.
Qed.

Lemma blank_messageText (ev : event) :
  blank (messageText_of ev) = forallb blank (text_parts ev).
Proof.
  unfold messageText_of, text_parts. generalize (default "" (ev_text ev)).
  induction (default [] (ev_attachments ev)) as [|a l IH]; intros text; simpl.
  - by rewrite andb_true_r.
  - rewrite IH. simpl. by rewrite blank_append, andb_assoc.
Qed.

(** X13. A message that is not marked is skipped for want of text exactly
    when its text and the text taken from each attachment hold white space
    only: nothing is called and nothing is stored then. Otherwise the model
    is called with the whole text, trimmed, and the message is marked. *)
Theorem blank_messages_are_skipped (E : env) (ev : event) (w : world) :
  ev_ts ev ∉ processedMessages w ->
  let r := processFeedbackMessage E ev w in
  (forallb blank (text_parts ev) = true -> r = (Normal tt, print LogNoText w)) /\
  (forallb blank (text_parts ev) = false ->
   r.1 = Normal tt /\
   (exists t, trace r.2 = trace w ++ EModelCall "#feedback" (trim (messageText_of ev)) :: t) /\
   ev_ts ev ∈ processedMessages r.2).
Proof.
  intros Hnew r. subst r. rewrite <- blank_messageText. split.
  - intros Hb. apply ingestion_skips_blank; [done|]. by apply trim_blank.
  - intros Hb. assert (Htext : has_text ev).
    { unfold has_text. rewrite trim_blank. by rewrite Hb. }
    destruct (ingestion_pipeline E ev w Hnew Htext)
      as (w_mid & w' & t & Hrun & Hmark & _ & Htrace & _).
    destruct (markAsProcessed_spec E (ev_ts ev) w_mid)
      as (w'' & Hmark' & _ & Hs & [t' [Ht' _]]).
    assert (Hw : w'' = w') by congruence. subst w''.
    rewrite Hrun. simpl. split; [done|]. split.
    + exists (t ++ t'). rewrite Ht', Htrace. simpl. by rewrite <- app_assoc.
    + rewrite Hs. apply elem_of_union. left. by apply elem_of_singleton.
Qed.

(** ** Clicks *)

Lemma handleReview_spec (E : env) (messageId : string) (triggerId : option string) (w : world) :
  exists w', handleReview E messageId triggerId w = (Normal tt, w') /\
    same_store w w' /\ tick w' = tick w /\
    match pendingApprovals w !! messageId with
    | Some approval =>
        trace w' = trace w ++ [EViewsOpen triggerId (review_modal_of messageId approval)] /\
        match views_open E triggerId (review_modal_of messageId approval) with
        | Normal _ => console w' = console w
        | Throw _ => console w' = console w ++ [LogError "Error opening modal:"]
        end
    | None => w' = print (LogNoPending messageId) w
    end.
Proof.
  unfold handleReview, getPendingApproval, bind, gets.
  destruct (pendingApprovals w !! messageId) as [approval|] eqn:Hk.
  - unfold try_catch, call, log, modify, review_modal_of.
    destruct (views_open E triggerId _) as [[]|error] eqn:Hopen; eexists;
      (split; [reflexivity|]); simpl; by rewrite ?Hopen.
  - unfold log, modify. eexists. split; [reflexivity|]. done.
Qed.

Lemma notify_console (E : env) (responseUrl : option string) (body : slack_update) (w : world) :
  exists l, console (notify E responseUrl body w).2 = console w ++ l.
Proof.
  unfold notify. destruct responseUrl as [url|]; [|by exists []; rewrite app_nil_r].
  destruct (str_truthy url); [|by exists []; rewrite app_nil_r].
  unfold bind, sendSlackUpdate, try_catch, call, log, modify, ret.
  destruct (fetch E url body); simpl.
  - exists []. by rewrite app_nil_r.
  - by eexists [_].
Qed.

Lemma notify_trace (E : env) (responseUrl : option string) (body : slack_update) (w : world) :
  trace (notify E responseUrl body w).2 = trace w ++ update_posts responseUrl body.
Proof.
  unfold notify, update_posts. destruct responseUrl as [url|]; [|by rewrite app_nil_r].
  destruct (str_truthy url); [|by rewrite app_nil_r].
  unfold bind, sendSlackUpdate, try_catch, call, log, modify, ret.
  by destruct (fetch E url body).
Qed.

Lemma handleAssignToJohn_spec (E : env) (pageId : string) (responseUrl : option string)
    (w : world) :
  let outcome := assign_outcome (notion_assignTaskToPerson E pageId "John Rice") in
  exists w', handleAssignToJohn E pageId responseUrl w = (Normal tt, w') /\
    same_store w w' /\ tick w' = tick w /\
    trace w' = trace w ++ EAssignTask pageId "John Rice" :: update_posts responseUrl outcome /\
    (forall error, notion_assignTaskToPerson E pageId "John Rice" = Throw error ->
                   LogError "Error assigning task:" ∈ console w').
Proof.
  unfold handleAssignToJohn, try_catch, bind at 1, call.
  destruct (notion_assignTaskToPerson E pageId "John Rice") as [[]|error]; simpl.
  - set (w0 := emit (EAssignTask pageId "John Rice") w).
    pose proof (notify_trace E responseUrl assigned_update w0) as Htrace.
    destruct (notify_spec E responseUrl assigned_update w0)
      as (w' & Hrun & [[Hp Hs] Hf] & _ & Htick & _).
    rewrite Hrun in *. exists w'. split; [done|]. simpl in *.
    split; [done|]. split; [done|]. split; [by rewrite Htrace, <- app_assoc|]. done.
  - unfold bind, log, modify.
    set (w0 := print (LogError "Error assigning task:")
                 (emit (EAssignTask pageId "John Rice") w)).
    destruct (notify_console E responseUrl assign_failed_update w0) as [l Hl].
    pose proof (notify_trace E responseUrl assign_failed_update w0) as Htrace.
    destruct (notify_spec E responseUrl assign_failed_update w0)
      as (w' & Hrun & [[Hp Hs] Hf] & _ & Htick & _).
    rewrite Hrun in *. exists w'. split; [done|]. simpl in *.
    split; [done|]. split; [done|]. split; [by rewrite Htrace, <- app_assoc|].
    intros _ _. rewrite Hl. apply elem_of_app. left. apply elem_of_app. right.
    by apply list_elem_of_singleton.
Qed.

(** X14. ``Review & Edit'' changes nothing in the store and creates
    nothing. For a key that is stored it opens one modal, named after the
    key, that carries the title and the description of the candidate; when
    Slack refuses the modal the error goes to the console and the click
    still returns. For a key that is not stored it only warns. *)
Theorem review_opens_modal (E : env) (messageId : string) (triggerId : option string)
    (w : world) :
  let r := handleReview E messageId triggerId w in
  r.1 = Normal tt /\
  same_store w r.2 /\
  posted (trace r.2) = posted (trace w) /\
  created (trace r.2) = created (trace w) /\
  (pendingApprovals w !! messageId = None -> r.2 = print (LogNoPending messageId) w) /\
  (forall approval : obj,
     pendingApprovals w !! messageId = Some approval ->
     trace r.2 = trace w ++ [EViewsOpen triggerId (review_modal_of messageId approval)] /\
     rm_title (review_modal_of messageId approval) = approval !! "title" /\
     rm_description (review_modal_of messageId approval) = approval !! "description" /\
     (forall error : string,
        views_open E triggerId (review_modal_of messageId approval) = Throw error ->
        console r.2 = console w ++ [LogError "Error opening modal:"])).
Proof.
  intros r. subst r.
  destruct (handleReview_spec E messageId triggerId w) as (w' & Hrun & Hstore & _ & Hcase).
  rewrite Hrun. simpl. split; [done|]. split; [done|].
  destruct (pendingApprovals w !! messageId) as [approval|].
  - destruct Hcase as [Htrace Hconsole]. rewrite Htrace, posted_app, created_app. simpl.
    rewrite !app_nil_r. split; [done|]. split; [done|]. split; [done|].
    intros ? [= <-]. split; [done|]. split; [done|]. split; [done|].
    intros error Herr. by rewrite Herr in Hconsole.
  - subst w'. split; [done|]. split; [done|]. split; [done|]. done.
Qed.

(** X15. ``Assign to John'' asks the backlog store, once, to assign the
    page to ``John Rice'', whatever the page: the store of candidates is not
    touched and the click returns. The only other call is the post of the
    outcome to the response URL, when one came with the click: the
    assignment when the backlog store answered, the failure, which also
    goes to the console, when it threw. *)
Theorem assign_asks_for_john (E : env) (pageId : string) (responseUrl : option string)
    (w : world) :
  let r := handleAssignToJohn E pageId responseUrl w in
  let outcome := assign_outcome (notion_assignTaskToPerson E pageId "John Rice") in
  r.1 = Normal tt /\
  same_store w r.2 /\
  trace r.2 = trace w ++ EAssignTask pageId "John Rice" :: update_posts responseUrl outcome /\
  (forall url : string,
     responseUrl = Some url -> url <> "" -> update_posts responseUrl outcome = [EFetch url outcome]) /\
  (forall error : string,
     notion_assignTaskToPerson E pageId "John Rice" = Throw error ->
     outcome = assign_failed_update /\ LogError "Error assigning task:" ∈ console r.2).
Proof.
  intros r outcome. subst r.
  destruct (handleAssignToJohn_spec E pageId responseUrl w)
    as (w' & Hrun & Hstore & _ & Htrace & Hconsole).
  rewrite Hrun. simpl. split; [done|]. split; [done|]. split; [done|]. split.
  - intros url -> Hurl. unfold update_posts, str_truthy.
    by destruct (String.eqb_spec url "").
  - intros error Herr. split; [|by apply (Hconsole error)].
    unfold outcome. by rewrite Herr.
Qed.

Lemma review_click (E : env) (messageId : string) (triggerId responseUrl : option string)
    (w : world) :
  handleBlockActions E [ {| action_id := "review_" +:+ messageId; value := messageId |} ]
    triggerId responseUrl w
  = handleReview E messageId triggerId w.
Proof.
  unfold handleBlockActions, for_each, bind at 1, try_catch, action_id, value.
  replace (String.prefix "approve_" ("review_" +:+ messageId)) with false by reflexivity.
  replace (String.prefix "reject_" ("review_" +:+ messageId)) with false by reflexivity.
  rewrite prefix_append.
  destruct (handleReview_spec E messageId triggerId w) as (w' & Hrun & _). by rewrite Hrun.
Qed.

Lemma assign_click (E : env) (pageId : string) (triggerId responseUrl : option string)
    (w : world) :
  handleBlockActions E [ {| action_id := "assign_john_" +:+ pageId; value := pageId |} ]
    triggerId responseUrl w
  = handleAssignToJohn E pageId responseUrl w.
Proof.
  unfold handleBlockActions, for_each, bind at 1, try_catch, action_id, value.
  replace (String.prefix "approve_" ("assign_john_" +:+ pageId)) with false by reflexivity.
  replace (String.prefix "reject_" ("assign_john_" +:+ pageId)) with false by reflexivity.
  replace (String.prefix "review_" ("assign_john_" +:+ pageId)) with false by reflexivity.
  rewrite prefix_append.
  destruct (handleAssignToJohn_spec E pageId responseUrl w) as (w' & Hrun & _).
  by rewrite Hrun.
Qed.

(** X16. The prompt for a candidate has three buttons, and a click on each
    reaches the handler it names with the key of the candidate, whatever
    the key: ``Review & Edit'' runs [handleReview], ``Approve as-is'' runs
    [handleApproval], ``Reject'' runs [handleRejection]. *)
Theorem prompt_buttons_dispatch (E : env) (feedback : obj) (messageId : string)
    (triggerId responseUrl : option string) (w : world) :
  exists review approve reject : action,
    omap click (buttons (approval_blocks feedback messageId)) = [review; approve; reject] /\
    handleBlockActions E [review] triggerId responseUrl w
    = handleReview E messageId triggerId w /\
    handleBlockActions E [approve] triggerId responseUrl w
    = handleApproval E messageId triggerId responseUrl w /\
    handleBlockActions E [reject] triggerId responseUrl w
    = handleRejection E messageId triggerId responseUrl w.
Proof.
  do 3 eexists. split; [reflexivity|]. split; [|split].
  - apply review_click.
  - apply approve_click.
  - apply reject_click.
Qed.

Lemma handleBlockActions_cons (E : env) (a : action) (rest : list action)
    (triggerId responseUrl : option string) (w : world) :
  (handleBlockActions E [a] triggerId responseUrl w).1 = Normal tt /\
  handleBlockActions E (a :: rest) triggerId responseUrl w
  = handleBlockActions E rest triggerId responseUrl
      (handleBlockActions E [a] triggerId responseUrl w).2.
Proof.
  unfold handleBlockActions. cbn [for_each]. cbv beta zeta.
  match goal with |- context [try_catch ?m ?h] =>
    assert (Hrun : exists w', try_catch m h w = (Normal tt, w'))
  end.
  { unfold try_catch, log, modify.
    match goal with |- context [let (_, _) := ?m0 w in _] =>
      destruct (m0 w) as [[[]|error] w']
    end; by eexists. }
  destruct Hrun as [w' Hrun]. unfold bind. by rewrite Hrun.
Qed.

(** The handlers never throw: one click is the run of its handler. *)
Lemma single_click (E : env) (a : action) (triggerId responseUrl : option string) (w : world) :
  handleBlockActions E [a] triggerId responseUrl w
  = (if String.prefix "approve_" (action_id a)
     then handleApproval E (value a) triggerId responseUrl
     else if String.prefix "reject_" (action_id a)
     then handleRejection E (value a) triggerId responseUrl
     else if String.prefix "review_" (action_id a)
     then handleReview E (value a) triggerId
     else if String.prefix "assign_john_" (action_id a)
     then handleAssignToJohn E (value a) responseUrl
     else ret tt) w.
Proof.
  unfold handleBlockActions, for_each, bind, try_catch.
  destruct (String.prefix "approve_" (action_id a)).
  { by rewrite handleApproval_returns. }
  destruct (String.prefix "reject_" (action_id a)).
  { by rewrite handleRejection_returns. }
  destruct (String.prefix "review_" (action_id a)).
  { destruct (handleReview_spec E (value a) triggerId w) as (w' & Hrun & _).
    by rewrite Hrun. }
  destruct (String.prefix "assign_john_" (action_id a)); [|done].
  destruct (handleAssignToJohn_spec E (value a) responseUrl w) as (w' & Hrun & _).
  by rewrite Hrun.
Qed.

(** What one click does to the store and to the tasks. *)
Lemma action_step (E : env) (a : action) (triggerId responseUrl : option string) (w : world) :
  let w' := (handleBlockActions E [a] triggerId responseUrl w).2 in
  processedMessages w' = processedMessages w /\
  posted (trace w') = posted (trace w) /\
  dom (pendingApprovals w') ⊆ dom (pendingApprovals w) /\
  (length (created (trace w'))
   <= length (created (trace w)) + length (filter approves [a]))%nat /\
  (~ approves a -> created (trace w') = created (trace w)) /\
  (unknown a -> w' = w).
Proof.
  intros w'. subst w'. rewrite single_click. unfold approves, unknown.
  destruct (String.prefix "approve_" (action_id a)) eqn:Happrove.
  { rewrite filter_cons_True by done. simpl.
    destruct (pendingApprovals w !! value a) as [approval|] eqn:Hk.
    - destruct (handleApproval_present E (value a) approval triggerId responseUrl w Hk)
        as (w' & Hrun & Hs & Hpo & Hcr & Hcase).
      rewrite Hrun. simpl. rewrite Hcr, length_app. simpl.
      split; [done|]. split; [done|]. split; [|split; [lia|split; [done|]]].
      + destruct (notion_createTask E _) as [[notionTask|]|error].
        * destruct Hcase as [-> _]. rewrite dom_delete_L. apply subseteq_difference_l. done.
        * rewrite Hcase. by rewrite dom_insert_lookup_L.
        * destruct Hcase as [-> _]. by rewrite dom_insert_lookup_L.
      + intros (? & _). done.
    - rewrite handleApproval_absent by done. simpl.
      split; [done|]. split; [done|]. split; [done|]. split; [lia|]. split; [done|].
      intros (? & _). done. }
  rewrite filter_cons_False by (by rewrite Happrove). simpl.
  destruct (String.prefix "reject_" (action_id a)) eqn:Hreject.
  { destruct (pendingApprovals w !! value a) as [approval|] eqn:Hk.
    - destruct (handleRejection_present E (value a) approval triggerId responseUrl w Hk)
        as (w' & Hrun & Hp & Hs & Hpo & Hcr & _).
      rewrite Hrun. simpl. rewrite Hp, Hcr, dom_insert_lookup_L by done.
      split; [done|]. split; [done|]. split; [done|]. split; [lia|]. split; [done|].
      intros (_ & ? & _). done.
    - rewrite handleRejection_absent by done. simpl.
      split; [done|]. split; [done|]. split; [done|]. split; [lia|]. split; [done|].
      intros (_ & ? & _). done. }
  destruct (String.prefix "review_" (action_id a)) eqn:Hreview.
  { destruct (handleReview_spec E (value a) triggerId w)
      as (w' & Hrun & [[Hp Hs] _] & _ & Hcase).
    rewrite Hrun. simpl. rewrite Hp.
    assert (Htrace : posted (trace w') = posted (trace w) /\
                     created (trace w') = created (trace w)).
    { destruct (pendingApprovals w !! value a).
      - destruct Hcase as [-> _]. rewrite posted_app, created_app. simpl.
        by rewrite !app_nil_r.
      - by subst w'. }
    destruct Htrace as [-> ->].
    split; [done|]. split; [done|]. split; [done|]. split; [lia|]. split; [done|].
    intros (_ & _ & ? & _). done. }
  destruct (String.prefix "assign_john_" (action_id a)) eqn:Hassign.
  { destruct (handleAssignToJohn_spec E (value a) responseUrl w)
      as (w' & Hrun & [[Hp Hs] _] & _ & Htrace & _).
    rewrite Hrun. simpl. rewrite Hp.
    assert (Htasks : posted (trace w') = posted (trace w) /\
                     created (trace w') = created (trace w)).
    { rewrite Htrace, posted_app, created_app. unfold update_posts.
      destruct responseUrl as [url|]; simpl; [|by rewrite !app_nil_r].
      destruct (str_truthy url); simpl; by rewrite !app_nil_r. }
    destruct Htasks as [-> ->].
    split; [done|]. split; [done|]. split; [done|]. split; [lia|]. split; [done|].
    intros (_ & _ & _ & ?). done. }
  unfold ret. simpl. split; [done|]. split; [done|]. split; [done|]. split; [lia|]. done.
Qed.

(** X17. A batch of clicks never throws, posts no prompt, marks no message
    and adds no candidate. It hands at most one task to the backlog store
    for each click on ``Approve as-is'', and none when there is no such
    click; clicks whose identifier starts with none of the four known
    prefixes change nothing at all. *)
Theorem clicks_are_contained (E : env) (actions : list action)
    (triggerId responseUrl : option string) (w : world) :
  let r := handleBlockActions E actions triggerId responseUrl w in
  r.1 = Normal tt /\
  processedMessages r.2 = processedMessages w /\
  posted (trace r.2) = posted (trace w) /\
  dom (pendingApprovals r.2) ⊆ dom (pendingApprovals w) /\
  (length (created (trace r.2))
   <= length (created (trace w)) + length (filter approves actions))%nat /\
  (Forall (fun a => ~ approves a) actions -> created (trace r.2) = created (trace w)) /\
  (Forall unknown actions -> r.2 = w).
Proof.
  intros r. subst r. revert w. induction actions as [|a rest IH]; intros w.
  - simpl. split_and!; try done. simpl. lia.
  - destruct (handleBlockActions_cons E a rest triggerId responseUrl w) as [_ ->].
    destruct (action_step E a triggerId responseUrl w) as (Hs & Hpo & Hdom & Hlen & Hcr & Hun).
    destruct (IH (handleBlockActions E [a] triggerId responseUrl w).2)
      as (Hret & Hs' & Hpo' & Hdom' & Hlen' & Hcr' & Hun').
    split; [done|]. split; [congruence|]. split; [congruence|].
    split; [by etrans|]. split; [|split].
    + assert (Hcount : length (filter approves (a :: rest))
                       = (length (filter approves [a]) + length (filter approves rest))%nat).
      { change (a :: rest) with ([a] ++ rest). by rewrite list.filter_app, length_app. }
      lia.
    + intros Hall. inversion Hall as [|? ? Ha Hrest]; subst.
      rewrite Hcr' by done. by apply Hcr.
    + intros Hall. inversion Hall as [|? ? Ha Hrest]; subst.
      rewrite Hun' by done. by apply Hun.
Qed.

Lemma remove_dashes_clean (s : string) :
  "-"%char ∉ String.list_ascii_of_string (remove_dashes s).
Proof.
  induction s as [|c s IH]; simpl; [apply not_elem_of_nil|].
  destruct (Ascii.eqb_spec c "-") as [->|Hne]; [done|].
  simpl. apply not_elem_of_cons. split; [congruence|done].
Qed.

Lemma persisted_same_store (w w' : world) : persisted w -> same_store w w' -> persisted w'.
Proof.
  intros [now Hfile] [[Hp Hs] Hf]. exists now. unfold snapshot_of in *. by rewrite Hf, Hp, Hs.
Qed.

(** X18. ``Approve as-is'' on a stored candidate, when the backlog store
    answers with a page: the task handed over carries the title, the
    description, the priority and the type of the candidate, the candidate is
    removed from the store and, when the data file can be written, from the
    file. The confirmation posted to the response URL links to the page
    under [https://notion.so/] with the dashes of its identifier removed,
    and its button ``Assign to John'' runs [handleAssignToJohn] on the
    page. *)
Theorem approval_creates_task (E : env) (messageId : string) (candidate : obj)
    (triggerId responseUrl : option string) (w : world) (notionTask : page) :
  pendingApprovals w !! messageId = Some candidate ->
  let task := taskData_of (approved_at (clock E (tick w)) candidate) in
  notion_createTask E task = Normal (Some notionTask) ->
  let r := handleApproval E messageId triggerId responseUrl w in
  let update := task_created_update task notionTask in
  r.1 = Normal tt /\
  pendingApprovals r.2 = delete messageId (pendingApprovals w) /\
  (fs_writable E = true -> persisted r.2) /\
  created (trace r.2) = created (trace w) ++ [task] /\
  (td_title task = candidate !! "title" /\
   td_description task = candidate !! "description" /\
   td_priority task = candidate !! "priority" /\
   td_type task = candidate !! "type" /\
   td_messageLink task = or_null (candidate !! "messageLink") /\
   td_dueDate task = or_null (candidate !! "dueDate")) /\
  notified responseUrl update r.2 /\
  links (su_blocks update) = ["https://notion.so/" +:+ remove_dashes (page_id notionTask)] /\
  ("-"%char ∉ String.list_ascii_of_string (remove_dashes (page_id notionTask))) /\
  exists assign : action,
    omap click (buttons (su_blocks update)) = [assign] /\
    forall (E2 : env) (triggerId2 responseUrl2 : option string) (w2 : world),
      handleBlockActions E2 [assign] triggerId2 responseUrl2 w2
      = handleAssignToJohn E2 (page_id notionTask) responseUrl2 w2.
Proof.
  intros Hk task Hcreate r update.
  assert (Hpersisted : fs_writable E = true -> persisted r.2).
  { intros Hfs. subst r. unfold handleApproval, getPendingApproval, bind at 1, gets.
    rewrite Hk. unfold bind at 1.
    destruct (approveFeedback_present E messageId candidate w Hk) as (w1 & Hrun1 & _).
    rewrite Hrun1. unfold try_catch, bind at 1, call. fold task. rewrite Hcreate.
    unfold bind at 1. set (w2 := emit (ECreateTask task) w1).
    destruct (mutations_are_persisted E w2 Hfs) as (_ & _ & Hremove & _).
    specialize (Hremove messageId).
    destruct (removePendingApproval_spec E messageId w2) as (w3 & Hrun3 & _).
    rewrite Hrun3 in *. simpl in Hremove.
    destruct (notify_spec E responseUrl (task_created_update task notionTask) w3)
      as (w4 & Hrun4 & Hstore & _).
    rewrite Hrun4. simpl. by apply (persisted_same_store w3). }
  subst r.
  destruct (handleApproval_present E messageId candidate triggerId responseUrl w Hk)
    as (w' & Hrun & _ & _ & Hcr & Hcase).
  fold task in Hcr, Hcase. rewrite Hcreate in Hcase. destruct Hcase as [Hp Hn].
  rewrite Hrun in *. simpl in *.
  split; [done|]. split; [done|]. split; [done|]. split; [done|]. split.
  { unfold task, taskData_of, approved_at. simpl. by rewrite !lookup_insert_ne. }
  split; [done|]. split; [done|]. split; [apply remove_dashes_clean|].
  eexists. split; [reflexivity|]. intros E2 triggerId2 responseUrl2 w2. apply assign_click.
Qed.

(** X19. Ingesting a message never throws, never hands a task to the
    backlog store and never drops or changes a candidate stored under
    another key than the one of the message. The only mark it can add is the
    one of the message. *)
Theorem ingestion_is_contained (E : env) (ev : event) (w : world) :
  let r := processFeedbackMessage E ev w in
  r.1 = Normal tt /\
  created (trace r.2) = created (trace w) /\
  (forall k : string,
     k <> messageId_of (ev_ts ev) -> pendingApprovals r.2 !! k = pendingApprovals w !! k) /\
  dom (pendingApprovals w) ⊆ dom (pendingApprovals r.2) /\
  (forall ts : string,
     ts ∈ processedMessages r.2 <-> ts ∈ processedMessages w \/
                                    (ts = ev_ts ev /\ has_text ev)).
Proof.
  intros r. subst r.
  destruct (decide (ev_ts ev ∈ processedMessages w)) as [Hold|Hnew].
  { rewrite ingestion_skips_processed by done. simpl. split_and!; try done.
    intros ts. split; [by left|]. intros [Hin|[-> _]]; done. }
  destruct (decide (trim (messageText_of ev) = "")) as [Hblank|Htext].
  { rewrite ingestion_skips_blank by done. simpl. split_and!; try done.
    intros ts. split; [by left|]. intros [Hin|[_ Hbad]]; done. }
  destruct (ingestion_pipeline E ev w Hnew Htext)
    as (w_mid & w' & t & Hrun & Hmark & Hs & Htrace & Hcr & Hcase).
  destruct (markAsProcessed_spec E (ev_ts ev) w_mid)
    as (w'' & Hmark' & Hp' & Hs' & Hq).
  assert (Hw : w'' = w') by congruence. subst w''.
  rewrite Hrun. simpl. split; [done|]. split.
  { rewrite (quiet_created _ _ Hq), Htrace, created_app. simpl. by rewrite Hcr, app_nil_r. }
  rewrite Hp', Hs', Hs.
  assert (Hpending : pendingApprovals w_mid = pendingApprovals w \/
                     exists c, pendingApprovals w_mid
                               = <[messageId_of (ev_ts ev) := c]> (pendingApprovals w)).
  { destruct (judgment_of _ _) as [result|].
    - destruct Hcase as (reporterName & Hp & _). right. by eexists.
    - destruct Hcase as [Hp _]. by left. }
  split; [|split].
  - intros k Hne. destruct Hpending as [->|[c ->]]; [done|]. by rewrite lookup_insert_ne.
  - destruct Hpending as [->|[c ->]]; [done|]. apply dom_insert_subseteq.
  - intros ts. rewrite elem_of_union, elem_of_singleton. split.
    + intros [->|Hin]; [by right|by left].
    + intros [Hin|[-> _]]; [by right|by left].
Qed.

(** ** Who asked *)

Lemma reporterName_of_value (E : env) (ev : event) (w : world) :
  (reporterName_of E ev w).1 = Normal (reporter_of E ev).
Proof.
  unfold reporterName_of, reporter_of, bind at 1.
  destruct (ev_user ev) as [user|]; [|done].
  destruct (str_truthy user); [|done].
  unfold try_catch, bind, getUserInfo, try_catch, call, log, modify, ret.
  by destruct (users_info E user) as [[u|]|error].
Qed.

(** X20. The candidate registered for a message the model judges to be
    feedback has the fields of the judgment, except that its description
    starts with the line ``Task requested by'' and the name of the reporter;
    it is pending. The reporter is the real name of the user of the event
    when [users.info] gives one that is not blank and is not ``Unknown'';
    when [users.info] fails or gives no user, and the event has no
    attachments, it is ``Unknown''. *)
Theorem candidate_names_reporter (E : env) (ev : event) (w : world) (result : obj) :
  ev_ts ev ∉ processedMessages w ->
  has_text ev ->
  judgment_of (messages_create E "#feedback" (trim (messageText_of ev))) "#feedback"
  = Some result ->
  let r := processFeedbackMessage E ev w in
  (exists candidate : obj,
     pendingApprovals r.2 !! messageId_of (ev_ts ev) = Some candidate /\
     candidate !! "description"
     = Some (JStr ("Task requested by " +:+ reporter_of E ev +:+ nl +:+ nl
                   +:+ template (result !! "description"))) /\
     candidate !! "status" = Some (JStr "pending") /\
     candidate !! "originalMessage" = Some (JObj (message_obj (message_of ev))) /\
     (forall field : string,
        field ∉ ["description"; "status"; "createdAt"; "originalMessage"; "messageSnippet"] ->
        candidate !! field = result !! field)) /\
  (forall (user name : string) (u : userInfo),
     ev_user ev = Some user -> user <> "" ->
     users_info E user = Normal (Some u) ->
     ui_real_name u = Some name -> nonblank (Some name) = true -> name <> "Unknown" ->
     reporter_of E ev = name) /\
  (forall user : string,
     ev_user ev = Some user ->
     (users_info E user = Normal None \/ exists error, users_info E user = Throw error) ->
     ev_attachments ev = None ->
     reporter_of E ev = "Unknown").
Proof.
  intros Hnew Htext Hjudged r. split; [|split].
  - subst r. set (msg := message_of ev).
    unfold processFeedbackMessage, try_catch, bind at 1, isProcessed, gets.
    rewrite bool_decide_eq_false_2 by done.
    destruct (negb _ || _) eqn:Hblank; [by apply blank_test in Hblank|].
    fold (message_of ev). fold msg. unfold bind at 1.
    destruct (analyzeBatch_one E msg w) as (w1 & Hrun1 & _).
    change ("#" +:+ msg_channelName msg) with "#feedback" in *.
    change (msg_text msg) with (trim (messageText_of ev)) in Hrun1.
    rewrite Hrun1, Hjudged. clear Hrun1. simpl.
    unfold bind at 1. unfold bind at 1.
    pose proof (reporterName_of_value E ev w1) as Hname.
    destruct (reporterName_of_spec E ev w1) as (name & w2 & Hrun2 & _).
    rewrite Hrun2 in *. simpl in Hname. injection Hname as ->. unfold bind at 1.
    destruct (request_approval_spec E msg (reporter_of E ev) (item_of msg result) w2)
      as (w3 & t3 & Hrun3 & Hp3 & _).
    rewrite Hrun3. unfold ret.
    destruct (markAsProcessed_spec E (ev_ts ev) w3) as (w4 & Hrun4 & Hp4 & _).
    rewrite Hrun4. simpl. eexists. rewrite Hp4, Hp3. split; [apply lookup_insert_eq|].
    unfold pending_at, described, item_of. split_and!.
    + rewrite !lookup_insert_ne by done. rewrite lookup_insert_eq.
      by rewrite ?lookup_insert_ne by done.
    + apply lookup_insert_eq.
    + rewrite !lookup_insert_ne by done. apply lookup_insert_eq.
    + intros field Hfield. rewrite !not_elem_of_cons in Hfield.
      destruct Hfield as (? & ? & ? & ? & ? & _). by rewrite !lookup_insert_ne.
  - intros user name u Huser Hne Hinfo Hreal Hnonblank Hknown.
    unfold reporter_of. rewrite Huser, Hinfo. unfold str_truthy.
    destruct (String.eqb_spec user ""); [done|]. simpl.
    unfold name_of_userInfo. rewrite Hreal, Hnonblank. simpl.
    by destruct (String.eqb_spec name "Unknown").
  - intros user Huser Hinfo Hatt. unfold reporter_of. rewrite Huser, Hatt.
    destruct (str_truthy user); [|done]. by destruct Hinfo as [->|[error ->]].
Qed.

(** X21. A candidate whose task could not be created stays among the
    approved feedbacks: after ``Approve as-is'' with the backlog store
    throwing, [getApprovedFeedbacks] lists the candidate, approved, and the
    statistics count it as approved. *)
Theorem failed_approvals_stay_listed (E : env) (messageId : string) (candidate : obj)
    (triggerId responseUrl : option string) (w : world) (error : string) :
  pendingApprovals w !! messageId = Some candidate ->
  let approved := approved_at (clock E (tick w)) candidate in
  notion_createTask E (taskData_of approved) = Throw error ->
  let w' := (handleApproval E messageId triggerId responseUrl w).2 in
  exists (l : list obj) (s : stats),
    getApprovedFeedbacks w' = (Normal l, w') /\ approved ∈ l /\
    getStats w' = (Normal s, w') /\ (0 < st_approved s)%nat /\
    (st_pending s + st_approved s + st_rejected s <= size (pendingApprovals w))%nat.
Proof.
  intros Hk approved Hcreate w'. subst w'.
  destruct (handleApproval_present E messageId candidate triggerId responseUrl w Hk)
    as (w' & Hrun & _ & _ & _ & Hcase).
  fold approved in Hcase. rewrite Hcreate in Hcase. destruct Hcase as [Hp _].
  rewrite Hrun. simpl.
  assert (Hst : has_status "approved" approved = true).
  { unfold has_status, approved, approved_at.
    rewrite lookup_insert_ne by done. by rewrite lookup_insert_eq. }
  destruct (approved_list w' approved) as (l & Hl & Hin).
  assert (Hlisted : approved ∈ l).
  { apply Hin. split; [done|]. exists messageId. rewrite Hp. apply lookup_insert_eq. }
  exists l. eexists. split; [done|]. split; [done|].
  unfold getStats, gets. split; [reflexivity|]. simpl.
  destruct (counts_of_list (snd <$> map_to_list (pendingApprovals w'))) as [Hle _].
  cbv beta zeta in Hle. rewrite length_fmap, length_map_to_list in Hle.
  assert (Hsize : size (pendingApprovals w') = size (pendingApprovals w)).
  { rewrite Hp. by apply map_size_insert_Some. }
  rewrite Hsize in Hle. unfold count_status.
  split; [|done]. unfold getApprovedFeedbacks, gets in Hl. injection Hl as Hl.
  rewrite Hl. destruct l; [by apply elem_of_nil in Hlisted|simpl; lia].
Qed.

(** ** The routes *)

Lemma route_answer (E : env) (directory : nat -> completion (list channel)) (r : request)
    (s : server) :
  (match r with
   | Events body => slack_events E directory body s
   | Interactions body => slack_interactions E body s
   end).1 = reply_to r.
Proof. by destruct r as [[| |]|[|]]. Qed.

Lemma serve_cons (E : env) (directory : nat -> completion (list channel)) (r : request)
    (rest : list request) (s : server) :
  let step := match r with
              | Events body => slack_events E directory body s
              | Interactions body => slack_interactions E body s
              end in
  serve E directory (r :: rest) s
  = (reply_to r :: (serve E directory rest step.2).1, (serve E directory rest step.2).2).
Proof.
  intros step. pose proof (route_answer E directory r s) as Hanswer. fold step in Hanswer.
  cbn [serve]. fold step. destruct step as [answer s1]. simpl in *. subst answer.
  by destruct (serve E directory rest s1).
Qed.

Lemma warm_lookup (directory : nat -> completion (list channel)) (s : server) :
  opt_truthy (feedbackChannelId s) = true ->
  getFeedbackChannelId directory s = (feedbackChannelId s, s).
Proof. intros Hwarm. unfold getFeedbackChannelId. by rewrite Hwarm. Qed.

Lemma passed_over_step (E : env) (directory : nat -> completion (list channel)) (r : request)
    (s : server) :
  opt_truthy (feedbackChannelId s) = true ->
  passed_over (feedbackChannelId s) r ->
  (match r with
   | Events body => slack_events E directory body s
   | Interactions body => slack_interactions E body s
   end).2 = s.
Proof.
  intros Hwarm Hover. destruct r as [[challenge|e|]|[error|payload]]; simpl in *; try done.
  - destruct (String.eqb_spec (se_type e) "message") as [Htype|Htype]; [|done].
    destruct (has_content (se_event e)) eqn:Hcontent; [|done]. simpl.
    rewrite warm_lookup by done.
    destruct Hover as [Hover|[Hover|Hover]]; [done|done|]. by rewrite Hover.
  - destruct (ia_type payload) as [type|] eqn:Htype; [|done].
    destruct (String.eqb_spec type "block_actions") as [->|Hne]; [|done].
    destruct Hover as [Hover|Hover]; [done|]. by rewrite Hover.
Qed.

(** X22. With the feedback channel known, requests that do not reach a
    handler change nothing in the server: URL verifications, events that are
    not messages, messages without text and attachments, messages of bots,
    messages in threads, messages of other channels, interactions that are
    not block actions (the submission of the review modal is one), and
    payloads that do not parse. Each is answered: the challenge is sent
    back, a payload that does not parse gets status 500 with the error, and
    the others get status 200 with an empty body. *)
Theorem passed_over_requests_change_nothing (E : env)
    (directory : nat -> completion (list channel)) (requests : list request) (s : server) :
  opt_truthy (feedbackChannelId s) = true ->
  Forall (passed_over (feedbackChannelId s)) requests ->
  serve E directory requests s = (reply_to <$> requests, s).
Proof.
  intros Hwarm Hall. induction Hall as [|r rest Hr Hrest IH]; [done|].
  rewrite serve_cons. cbv zeta. rewrite (passed_over_step E directory r s Hwarm Hr).
  by rewrite IH.
Qed.

Lemma warm_step (E : env) (directory : nat -> completion (list channel)) (r : request)
    (s : server) :
  opt_truthy (feedbackChannelId s) = true ->
  let s' := (match r with
             | Events body => slack_events E directory body s
             | Interactions body => slack_interactions E body s
             end).2 in
  feedbackChannelId s' = feedbackChannelId s /\ lookups s' = lookups s.
Proof.
  intros Hwarm. destruct r as [[challenge|e|]|[error|payload]]; simpl; try done.
  - destruct (String.eqb (se_type e) "message" && has_content (se_event e)); [|done].
    rewrite warm_lookup by done. by destruct (from_feedback_channel e _).
  - destruct (ia_type payload) as [type|]; [|done].
    destruct (String.eqb type "block_actions"); [|done].
    by destruct (ia_actions payload).
Qed.

(** X23. The answer to a request never depends on what the handlers do.
    Once the identifier of the feedback channel is known, no request makes
    the server ask for the list of channels again. While it is not known,
    each message event asks once: when the list has a channel named
    [feedback] its identifier is kept, and the message is ingested if it
    comes from that channel, is not from a bot and not in a thread; when the
    call fails or the channel is missing, the message is dropped, though
    answered with status 200. *)
Theorem channel_lookup_is_cached (E : env) (directory : nat -> completion (list channel)) :
  (forall (requests : list request) (s : server),
     (serve E directory requests s).1 = reply_to <$> requests) /\
  (forall (requests : list request) (s : server),
     opt_truthy (feedbackChannelId s) = true ->
     feedbackChannelId (serve E directory requests s).2 = feedbackChannelId s /\
     lookups (serve E directory requests s).2 = lookups s) /\
  (forall (e : slack_event) (s : server),
     message_event e ->
     opt_truthy (feedbackChannelId s) = false ->
     let s' := (slack_events E directory (EventCallback e) s).2 in
     lookups s' = S (lookups s) /\
     match directory (lookups s) with
     | Normal channels =>
         match find_channel "feedback" channels with
         | Some feedbackChannel =>
             feedbackChannelId s' = Some (ch_id feedbackChannel) /\
             handler s'
             = if from_feedback_channel e (Some (ch_id feedbackChannel))
               then (processFeedbackMessage E (se_event e) (handler s)).2
               else handler s
         | None => feedbackChannelId s' = feedbackChannelId s /\ handler s' = handler s
         end
     | Throw _ => feedbackChannelId s' = feedbackChannelId s /\ handler s' = handler s
     end).
Proof.
  split_and!.
  - intros requests. induction requests as [|r rest IH]; intros s; [done|].
    rewrite serve_cons. cbv zeta. simpl. by rewrite IH.
  - intros requests. induction requests as [|r rest IH]; intros s Hwarm; [done|].
    rewrite serve_cons. cbv zeta. simpl.
    destruct (warm_step E directory r s Hwarm) as [Hid Hn].
    destruct (IH _ (eq_ind_r (fun id => opt_truthy id = true) Hwarm Hid)) as [Hid' Hn'].
    split; congruence.
  - intros e s [Htype Hcontent] Hcold s'. subst s'. simpl.
    rewrite Htype, Hcontent. simpl. unfold getFeedbackChannelId. rewrite Hcold.
    destruct (directory (lookups s)) as [channels|error].
    + destruct (find_channel "feedback" channels) as [feedbackChannel|].
      * by destruct (from_feedback_channel e _).
      * replace (from_feedback_channel e None) with false; [done|].
        unfold from_feedback_channel. by destruct (ev_channel (se_event e)).
    + replace (from_feedback_channel e None) with false; [done|].
      unfold from_feedback_channel. by destruct (ev_channel (se_event e)).
Qed.

(** In the course where each handler has run when its route returns, the
    second delivery of an event changes nothing but the console. *)
Lemma settled_redelivery (E1 E2 : env) (directory : nat -> completion (list channel))
    (e : slack_event) (s : server) :
  opt_truthy (feedbackChannelId s) = true ->
  let s1 := (slack_events E1 directory (EventCallback e) s).2 in
  let s2 := (slack_events E2 directory (EventCallback e) s1).2 in
  same_store (handler s1) (handler s2) /\
  trace (handler s2) = trace (handler s1) /\
  feedbackChannelId s2 = feedbackChannelId s /\ lookups s2 = lookups s.
Proof.
  intros Hwarm s1 s2. subst s1 s2. simpl.
  destruct (String.eqb (se_type e) "message" && has_content (se_event e)); [|done].
  rewrite warm_lookup by done.
  destruct (from_feedback_channel e (feedbackChannelId s)) eqn:Hfrom.
  2:{ rewrite warm_lookup by done. by rewrite Hfrom. }
  rewrite warm_lookup by done. simpl. rewrite Hfrom. simpl.
  set (ev := se_event e). set (w := handler s).
  destruct (decide (ev_ts ev ∈ processedMessages w)) as [Hold|Hnew].
  { rewrite (ingestion_skips_processed E1 ev w Hold). simpl.
    by rewrite (ingestion_skips_processed E2 ev (print LogAlreadyProcessed w) Hold). }
  destruct (decide (trim (messageText_of ev) = "")) as [Hblank|Htext].
  { rewrite (ingestion_skips_blank E1 ev w Hnew Hblank). simpl.
    by rewrite (ingestion_skips_blank E2 ev (print LogNoText w) Hnew Hblank). }
  destruct (ingestion_marks E1 ev w Hnew Htext) as (w' & ps & Hrun & Hs & _).
  rewrite Hrun. simpl. rewrite ingestion_skips_processed; [done|].
  rewrite Hs. apply elem_of_union. left. by apply elem_of_singleton.
Qed.

(** *** Deliveries that overlap *)

Lemma start_processed (ev : event) (w : world) :
  ev_ts ev ∈ processedMessages w ->
  processFeedbackMessage_start ev w = (Normal None, print LogAlreadyProcessed w).
Proof.
  intros Hold. unfold processFeedbackMessage_start, bind at 1, isProcessed, gets.
  by rewrite bool_decide_eq_true_2.
Qed.

Lemma start_blank (ev : event) (w : world) :
  ev_ts ev ∉ processedMessages w ->
  trim (messageText_of ev) = "" ->
  processFeedbackMessage_start ev w = (Normal None, print LogNoText w).
Proof.
  intros Hnew Hblank. unfold processFeedbackMessage_start, bind at 1, isProcessed, gets.
  rewrite bool_decide_eq_false_2 by done. apply blank_test in Hblank. by rewrite Hblank.
Qed.

Lemma start_message (ev : event) (w : world) :
  ev_ts ev ∉ processedMessages w ->
  has_text ev ->
  processFeedbackMessage_start ev w = (Normal (Some (message_of ev)), w).
Proof.
  intros Hnew Htext. unfold processFeedbackMessage_start, bind at 1, isProcessed, gets.
  rewrite bool_decide_eq_false_2 by done.
  destruct (negb _ || _) eqn:Hblank; [by apply blank_test in Hblank|]. done.
Qed.

(** [processFeedbackMessage] is its start followed, when the start gives a
    message, by its rest. *)
Lemma processFeedbackMessage_staged (E : env) (ev : event) (w : world) :
  processFeedbackMessage E ev w
  = match processFeedbackMessage_start ev w with
    | (Normal (Some message), w1) => processFeedbackMessage_rest E ev message w1
    | (Normal None, w1) => (Normal tt, w1)
    | (Throw error, w1) => (Throw error, w1)
    end.
Proof.
  destruct (decide (ev_ts ev ∈ processedMessages w)) as [Hold|Hnew].
  { by rewrite start_processed, ingestion_skips_processed. }
  destruct (decide (trim (messageText_of ev) = "")) as [Hblank|Htext].
  { by rewrite start_blank, ingestion_skips_blank. }
  rewrite start_message by done.
  unfold processFeedbackMessage, processFeedbackMessage_rest, try_catch, bind at 1,
    isProcessed, gets.
  rewrite bool_decide_eq_false_2 by done.
  destruct (negb _ || _) eqn:Hblank; [by apply blank_test in Hblank|]. done.
Qed.

(** The rest of [processFeedbackMessage], from any state of the store. *)
Lemma rest_posts (E : env) (ev : event) (w : world) :
  exists w' ps,
    processFeedbackMessage_rest E ev (message_of ev) w = (Normal tt, w') /\
    posted (trace w') = posted (trace w) ++ ps /\
    created (trace w') = created (trace w) /\
    ev_ts ev ∈ processedMessages w' /\
    match judgment_of (messages_create E "#feedback" (trim (messageText_of ev))) "#feedback"
    with
    | Some result => exists shown, ps = prompt_posts E shown (messageId_of (ev_ts ev))
    | None => ps = []
    end.
Proof.
  set (msg := message_of ev).
  unfold processFeedbackMessage_rest, try_catch, bind at 1.
  destruct (analyzeBatch_one E msg w) as (w1 & Hrun1 & _ & _ & Ht1).
  change ("#" +:+ msg_channelName msg) with "#feedback" in *.
  change (msg_text msg) with (trim (messageText_of ev)) in *.
  rewrite Hrun1. clear Hrun1.
  destruct (judgment_of _ _) as [result|]; simpl.
  - unfold bind at 1. unfold bind at 1.
    destruct (reporterName_of_spec E ev w1)
      as (name & w2 & Hrun2 & _ & (t2 & Ht2 & Hpo2 & Hcr2) & _).
    rewrite Hrun2. clear Hrun2. unfold bind at 1.
    destruct (request_approval_spec E msg name (item_of msg result) w2)
      as (w3 & t3 & Hrun3 & _ & _ & Ht3 & Hcr3 & Hpo3).
    simpl in Hpo3. rewrite Hrun3. clear Hrun3. unfold ret.
    destruct (markAsProcessed_spec E (ev_ts ev) w3) as (w4 & Hrun4 & _ & Hs4 & Hq4).
    rewrite Hrun4. exists w4, (posted t3). split; [done|].
    rewrite (quiet_posted _ _ Hq4), (quiet_created _ _ Hq4), Ht3, Ht2, Ht1.
    rewrite !posted_app, !created_app, Hpo2, Hcr2, Hcr3. simpl.
    rewrite !app_nil_r. split; [done|]. split; [done|]. split.
    + rewrite Hs4. apply elem_of_union. left. by apply elem_of_singleton.
    + rewrite Hpo3. by eexists.
  - unfold bind at 1, log, modify.
    destruct (markAsProcessed_spec E (ev_ts ev) (print LogNoFeedback w1))
      as (w4 & Hrun4 & _ & Hs4 & Hq4).
    rewrite Hrun4. exists w4, []. split; [done|].
    rewrite (quiet_posted _ _ Hq4), (quiet_created _ _ Hq4). simpl. rewrite Ht1.
    rewrite !posted_app, !created_app. simpl. rewrite !app_nil_r.
    split; [done|]. split; [done|]. split; [|done].
    rewrite Hs4. apply elem_of_union. left. by apply elem_of_singleton.
Qed.

Lemma with_handler_same (s : server) : with_handler (handler s) s = s.
Proof. by destruct s. Qed.

(** A delivery whose handler resumes before anything else happens is the
    course of the route whose handler has run when it returns. *)
Lemma settled_delivery (E : env) (directory : nat -> completion (list channel))
    (e : slack_event) (s : server) :
  opt_truthy (feedbackChannelId s) = true ->
  run E directory [Arrives e; Resumes 0] {| srv := s; in_flight := [] |}
  = {| srv := (slack_events E directory (EventCallback e) s).2; in_flight := [] |}.
Proof.
  intros Hwarm. cbn [run]. unfold arrives. simpl.
  destruct (String.eqb (se_type e) "message" && has_content (se_event e)); [|done].
  rewrite warm_lookup by done.
  destruct (from_feedback_channel e (feedbackChannelId s)); [|done].
  unfold settle. rewrite processFeedbackMessage_staged.
  destruct (processFeedbackMessage_start (se_event e) (handler s)) as [[[message|]|error] w1];
    done.
Qed.

(** A new message with text arrives: its handler is started and waits. *)
Lemma arrives_new (directory : nat -> completion (list channel)) (e : slack_event)
    (b : busy) :
  opt_truthy (feedbackChannelId (srv b)) = true ->
  message_event e ->
  from_feedback_channel e (feedbackChannelId (srv b)) = true ->
  ev_ts (se_event e) ∉ processedMessages (handler (srv b)) ->
  has_text (se_event e) ->
  (arrives directory e b).2
  = {| srv := srv b;
       in_flight := in_flight b ++ [ {| job_event := se_event e;
                                        job_message := message_of (se_event e) |} ] |}.
Proof.
  intros Hwarm [Htype Hcontent] Hfrom Hnew Htext. unfold arrives. simpl.
  rewrite Htype, Hcontent. simpl. rewrite warm_lookup by done.
  rewrite Hfrom, start_message by done. by rewrite with_handler_same.
Qed.

(** X24. The route does not await the handler it starts, which tests the
    mark of the message at once and sets it last. When the handler of a
    delivery has run to its end before the same event is delivered again,
    the second delivery starts no handler and changes nothing but the
    console, whatever the services answer then. When the event is
    delivered again while the first handler waits for the analyzer, the
    message being new and with text, both handlers are in flight: both run
    to their end, and when the model judges the message to be feedback and
    the approval channel is set, two prompts are posted. *)
Theorem redelivery_is_skipped (E1 E2 : env) (directory : nat -> completion (list channel))
    (e : slack_event) (s : server) :
  opt_truthy (feedbackChannelId s) = true ->
  let idle := {| srv := s; in_flight := [] |} in
  let b1 := run E1 directory [Arrives e; Resumes 0] idle in
  let b2 := run E2 directory [Arrives e; Resumes 0] b1 in
  (in_flight b1 = [] /\ in_flight b2 = [] /\
   same_store (handler (srv b1)) (handler (srv b2)) /\
   trace (handler (srv b2)) = trace (handler (srv b1)) /\
   feedbackChannelId (srv b2) = feedbackChannelId s /\ lookups (srv b2) = lookups s) /\
  (message_event e ->
   from_feedback_channel e (feedbackChannelId s) = true ->
   ev_ts (se_event e) ∉ processedMessages (handler s) ->
   has_text (se_event e) ->
   let both := run E1 directory [Arrives e; Arrives e] idle in
   let settled := run E1 directory [Resumes 0; Resumes 0] both in
   length (in_flight both) = 2%nat /\ srv both = s /\
   in_flight settled = [] /\
   ev_ts (se_event e) ∈ processedMessages (handler (srv settled)) /\
   created (trace (handler (srv settled))) = created (trace (handler s)) /\
   forall (result : obj) (channel : string),
     judgment_of (messages_create E1 "#feedback" (trim (messageText_of (se_event e))))
       "#feedback" = Some result ->
     approvalChannelId E1 = Some channel -> channel <> "" ->
     length (posted (trace (handler (srv settled))))
     = (length (posted (trace (handler s))) + 2)%nat).
Proof.
  intros Hwarm idle b1 b2. split.
  - subst b1 b2 idle. rewrite settled_delivery by done.
    pose proof (warm_step E1 directory (Events (EventCallback e)) s Hwarm) as [Hid Hn].
    cbv zeta in Hid, Hn.
    rewrite settled_delivery by (by rewrite Hid).
    destruct (settled_redelivery E1 E2 directory e s Hwarm) as (Hstore & Htrace & Hid2 & Hn2).
    simpl. done.
  - intros Hmessage Hfrom Hnew Htext both settled.
    assert (Hboth : both = {| srv := s;
                              in_flight := [ {| job_event := se_event e;
                                                job_message := message_of (se_event e) |};
                                             {| job_event := se_event e;
                                                job_message := message_of (se_event e) |} ] |}).
    { subst both idle. cbn [run].
      rewrite (arrives_new directory e {| srv := s; in_flight := [] |}) by done.
      by rewrite arrives_new. }
    subst settled. rewrite Hboth. cbn [run]. unfold resumes. simpl.
    destruct (rest_posts E1 (se_event e) (handler s))
      as (w1 & ps1 & Hrun1 & Hpo1 & Hcr1 & _ & Hcase1).
    rewrite Hrun1. simpl.
    destruct (rest_posts E1 (se_event e) w1)
      as (w2 & ps2 & Hrun2 & Hpo2 & Hcr2 & Hmarked & Hcase2).
    rewrite Hrun2. simpl.
    split; [done|]. split; [done|]. split; [done|]. split; [done|].
    split; [congruence|].
    intros result channel Hjudged Hchannel Hset.
    rewrite Hjudged in Hcase1, Hcase2.
    destruct Hcase1 as [shown1 ->]. destruct Hcase2 as [shown2 ->].
    rewrite Hpo2, Hpo1, !length_app. unfold prompt_posts. rewrite Hchannel.
    unfold str_truthy. destruct (String.eqb_spec channel ""); [done|]. simpl. lia.
Qed.

(** ** The Slack client *)

Lemma find_channel_Some (name : string) (channels : list channel) (found : channel) :
  find_channel name channels = Some found -> found ∈ channels /\ ch_name found = name.
Proof.
  unfold find_channel. intros Hfind. apply List.find_some in Hfind as [Hin Hname].
  split; [by apply list_elem_of_In|]. by apply String.eqb_eq.
Qed.

(** X25. When the configuration names no approval channel and the list of
    channels has none of the configured name, [initialize] leaves the
    approval channel unset. Feedback detected afterwards is registered as a
    pending candidate and its message is marked, but no prompt is posted:
    nobody is asked, and the message is skipped from then on. *)
Theorem unresolved_channel_drops_prompt (cfg : config) (api : slack_api) (E : env)
    (ev : event) (w : world) (result : obj) :
  approvalChannelId E = (initialize cfg api).1 ->
  opt_truthy (slack_approval_channelId cfg) = false ->
  (forall channels : list channel,
     conversations_list api = Normal channels ->
     find_channel (slack_approval_channelName cfg) channels = None) ->
  ev_ts ev ∉ processedMessages w ->
  has_text ev ->
  judgment_of (messages_create E "#feedback" (trim (messageText_of ev))) "#feedback"
  = Some result ->
  let r := processFeedbackMessage E ev w in
  initialize cfg api = (None, [ConversationsList]) /\
  r.1 = Normal tt /\
  posted (trace r.2) = posted (trace w) /\
  (exists candidate : obj,
     pendingApprovals r.2 !! messageId_of (ev_ts ev) = Some candidate /\
     has_status "pending" candidate = true) /\
  ev_ts ev ∈ processedMessages r.2 /\
  (forall E2 : env, processFeedbackMessage E2 ev r.2 = (Normal tt, print LogAlreadyProcessed r.2)).
Proof.
  intros Hchannel Hcfg Hlist Hnew Htext Hjudged r. subst r.
  assert (Hinit : initialize cfg api = (None, [ConversationsList])).
  { unfold initialize. rewrite Hcfg. destruct (conversations_list api) as [channels|error]; [|done].
    by rewrite (Hlist channels eq_refl). }
  rewrite Hinit in Hchannel. simpl in Hchannel.
  destruct (ingestion_pipeline E ev w Hnew Htext)
    as (w_mid & w' & t & Hrun & Hmark & Hs & Htrace & Hcr & Hcase).
  simpl in Hcase. rewrite Hjudged in Hcase. destruct Hcase as (reporterName & Hp & Hposted).
  unfold prompt_posts in Hposted. rewrite Hchannel in Hposted.
  destruct (markAsProcessed_spec E (ev_ts ev) w_mid) as (w'' & Hmark' & Hp' & Hs' & Hq).
  assert (Hw : w'' = w') by congruence. subst w''.
  rewrite Hrun. simpl.
  assert (Hin : ev_ts ev ∈ processedMessages w').
  { rewrite Hs'. apply elem_of_union. left. by apply elem_of_singleton. }
  split; [done|]. split; [done|]. split; [|split; [|split; [done|]]].
  - rewrite (quiet_posted _ _ Hq), Htrace, posted_app. simpl. by rewrite Hposted, app_nil_r.
  - eexists. rewrite Hp', Hp, lookup_insert_eq. split; [done|].
    unfold has_status, pending_at. by rewrite lookup_insert_eq.
  - intros E2. by apply ingestion_skips_processed.
Qed.

(** X26. [getRecentMessages] returns only messages of the history of the
    channel the configuration names as the feedback channel: each has the
    name and the identifier of that channel, comes from a message of the
    history that no bot wrote and that is not in a thread, and has a text of
    at least [minMessageLength] code units. It returns nothing when the list
    of channels fails or has no such channel, in which case the history is
    not asked for, and nothing when the history fails. *)
Theorem recent_messages_are_filtered (cfg : config) (api : slack_api) (now lookbackDays : Z) :
  let r := getRecentMessages cfg api now lookbackDays in
  let oldest := now / 1000 - lookbackDays * 24 * 60 * 60 in
  (forall msg : message,
     msg ∈ r.1 ->
     msg_channelName msg = slack_feedback_channelName cfg /\
     (scheduler_minMessageLength cfg <= String.length (msg_text msg))%nat /\
     msg_text msg <> "" /\
     exists (channels : list channel) (feedbackChannel : channel)
            (history : list history_message) (hm : history_message),
       conversations_list api = Normal channels /\
       feedbackChannel ∈ channels /\
       msg_channelId msg = Some (ch_id feedbackChannel) /\
       conversations_history api (ch_id feedbackChannel) oldest
         (scheduler_maxMessagesPerRun cfg) = Normal history /\
       hm ∈ history /\
       hm_text hm = Some (msg_text msg) /\ hm_ts hm = msg_ts msg /\
       hm_user hm = msg_userId msg /\
       opt_truthy (hm_bot_id hm) = false /\ opt_truthy (hm_thread_ts hm) = false) /\
  ((forall channels : list channel,
      conversations_list api = Normal channels ->
      find_channel (slack_feedback_channelName cfg) channels = None) ->
   r = ([], [ConversationsList])) /\
  (forall (channels : list channel) (feedbackChannel : channel) (error : string),
     conversations_list api = Normal channels ->
     find_channel (slack_feedback_channelName cfg) channels = Some feedbackChannel ->
     conversations_history api (ch_id feedbackChannel) oldest
       (scheduler_maxMessagesPerRun cfg) = Throw error ->
     r.1 = []) /\
  (forall (channels : list channel) (feedbackChannel : channel)
          (history : list history_message),
     conversations_list api = Normal channels ->
     find_channel (slack_feedback_channelName cfg) channels = Some feedbackChannel ->
     conversations_history api (ch_id feedbackChannel) oldest
       (scheduler_maxMessagesPerRun cfg) = Normal history ->
     r.1 = omap (recent_message cfg feedbackChannel) history /\
     (length r.1 <= length history)%nat).
Proof.
  intros r oldest. subst r. unfold getRecentMessages. fold oldest. split_and!.
  - intros msg. destruct (conversations_list api) as [channels|error]; [|by intros ?%elem_of_nil].
    destruct (find_channel _ channels) as [feedbackChannel|] eqn:Hfind;
      [|by intros ?%elem_of_nil].
    apply find_channel_Some in Hfind as [Hin Hname].
    destruct (conversations_history api _ _ _) as [history|error] eqn:Hhistory;
      [|by intros ?%elem_of_nil].
    simpl. intros (hm & Hhm & Hrecent)%list_elem_of_omap.
    unfold recent_message in Hrecent.
    destruct (opt_truthy (hm_bot_id hm)) eqn:Hbot; [done|].
    destruct (opt_truthy (hm_thread_ts hm)) eqn:Hthread; [done|].
    destruct (hm_text hm) as [text|] eqn:Htext; [|done]. simpl in Hrecent.
    destruct (str_truthy text) eqn:Htruthy; [|done]. simpl in Hrecent.
    destruct (Nat.leb_spec (scheduler_minMessageLength cfg) (String.length text))
      as [Hlong|Hshort]; [|done].
    injection Hrecent as <-. simpl. split; [done|]. split; [done|]. split.
    { intros ->. done. }
    exists channels, feedbackChannel, history, hm. by rewrite Htext.
  - intros Hnone. destruct (conversations_list api) as [channels|error]; [|done].
    by rewrite (Hnone channels eq_refl).
  - intros channels feedbackChannel error -> Hfind Hhistory. by rewrite Hfind, Hhistory.
  - intros channels feedbackChannel history -> Hfind Hhistory. rewrite Hfind, Hhistory.
    simpl. split; [done|]. apply length_omap_le.
Qed.

(** ** The Notion client *)

Section Notion.
Context `{C : Casing}.

Lemma lookup_optional (b : bool) (k k' : string) (v : property) (m : gmap string property) :
  (if b then <[k := v]> m else m) !! k'
  = if decide (k = k') then (if b then Some v else m !! k') else m !! k'.
Proof.
  destruct (decide (k = k')) as [<-|Hne], b; try done.
  - apply lookup_insert_eq.
  - by apply lookup_insert_ne.
Qed.

Lemma dom_optional (b : bool) (k : string) (v : property) (m : gmap string property)
    (names : gset string) :
  k ∈ names -> dom m ⊆ names -> dom (if b then <[k := v]> m else m) ⊆ names.
Proof.
  intros Hk Hm. destruct b; [|done]. rewrite dom_insert_L.
  apply union_subseteq. split; [|done]. by apply singleton_subseteq_l.
Qed.

Lemma task_property (k : string) :
  k ∈ ["Name"; "Description"; "Priority"; "Area"; "Due Date"; "Slack Message Link";
       "Multi-select"] ->
  k ∈ task_properties.
Proof.
  unfold task_properties. rewrite !elem_of_cons, !elem_of_union, !elem_of_singleton.
  intros H. repeat (destruct H as [->|H]; [tauto|]). by apply elem_of_nil in H.
Qed.

(** What [createTask] asks Notion for when the type of the feedback is
    falsy or a string. *)
Lemma createTask_spec (api : notion_api) (feedback : taskData) :
  truthy (td_type feedback) = false \/ (exists s, td_type feedback = Some (JStr s)) ->
  exists properties : gmap string property,
    createTask api feedback = (pages_create api properties, [PagesCreate properties]) /\
    properties !! "Name" = Some (Title (td_title feedback)) /\
    properties !! "Multi-select" = Some (MultiSelect ["To-do"]) /\
    properties !! "Description"
    = (if truthy (td_description feedback) then Some (RichText (td_description feedback))
       else None) /\
    properties !! "Priority"
    = (if truthy (td_priority feedback) then Some (Select (td_priority feedback)) else None) /\
    properties !! "Area"
    = (if truthy (td_type feedback)
       then match capitalizeFirst (td_type feedback) with
            | Normal area => Some (Select area)
            | Throw _ => None
            end
       else None) /\
    properties !! "Due Date"
    = (if truthy (Some (td_dueDate feedback)) then Some (DateStart (td_dueDate feedback))
       else None) /\
    properties !! "Slack Message Link"
    = (if truthy (Some (td_messageLink feedback)) then Some (Url (td_messageLink feedback))
       else None) /\
    properties !! "Person" = None /\
    dom properties ⊆ task_properties.
Proof.
  intros Htype. unfold createTask.
  assert (Harea : exists area,
            (if truthy (td_type feedback) then capitalizeFirst (td_type feedback)
             else Normal None) = Normal area /\
            (truthy (td_type feedback) = true ->
             capitalizeFirst (td_type feedback) = Normal area)).
  { destruct (truthy (td_type feedback)) eqn:Htruthy; [|by eexists].
    destruct Htype as [Hfalse|[s Hs]]; [done|]. unfold capitalizeFirst.
    rewrite Hs in *. simpl in *. rewrite Htruthy. simpl. destruct s; [done|]. by eexists. }
  destruct Harea as (area & Harea & Harea'). rewrite Harea. eexists. split; [reflexivity|].
  split_and!;
    try (rewrite lookup_insert_ne by done; rewrite !lookup_optional; simpl;
         rewrite ?lookup_singleton_eq, ?lookup_singleton_ne by done; try done).
  - apply lookup_insert_eq.
  - destruct (truthy (td_type feedback)); [|done]. by rewrite Harea'.
  - rewrite dom_insert_L. apply union_subseteq. split.
    { apply singleton_subseteq_l, task_property. set_unfold. tauto. }
    repeat (apply dom_optional; [apply task_property; set_unfold; tauto|]).
    rewrite dom_singleton_L. apply singleton_subseteq_l, task_property. set_unfold. tauto.
Qed.

Lemma createTask_throws (api : notion_api) (feedback : taskData) :
  truthy (td_type feedback) = true ->
  (forall s : string, td_type feedback <> Some (JStr s)) ->
  createTask api feedback = (Throw "TypeError", []).
Proof.
  intros Htruthy Hnot. unfold createTask, capitalizeFirst. rewrite Htruthy. simpl.
  destruct (td_type feedback) as [[| | |s| |]|]; try done.
  destruct s; [done|]. by destruct (Hnot (String a s)).
Qed.

Lemma type_cases (feedback : taskData) :
  (truthy (td_type feedback) = true /\ forall s : string, td_type feedback <> Some (JStr s)) \/
  (truthy (td_type feedback) = false \/ exists s, td_type feedback = Some (JStr s)).
Proof.
  destruct (td_type feedback) as [[|b|q|s| |]|] eqn:Htype; simpl;
    try (by right; left); try (by right; right; eexists); try (by left).
  - destruct b; [by left|by right; left].
  - destruct (negb (Qeq_bool q 0)); [by left|by right; left].
Qed.

(** X27. [createTask] sends one request to Notion, and returns its page or
    throws its error. The page always has the title under [Name] and
    [To-do] under [Multi-select]; it has [Description], [Priority],
    [Due Date] and [Slack Message Link] exactly when the feedback has a
    truthy value for them, [Area] with the capitalised type exactly when the
    type is a non-empty string, and no other property: never [Person]. A
    type that is truthy and not a string makes it throw before anything is
    sent. *)
Theorem task_page_properties (api : notion_api) (feedback : taskData) :
  (truthy (td_type feedback) = true ->
   (forall s : string, td_type feedback <> Some (JStr s)) ->
   createTask api feedback = (Throw "TypeError", [])) /\
  (truthy (td_type feedback) = false \/ (exists s, td_type feedback = Some (JStr s)) ->
   exists properties : gmap string property,
     createTask api feedback = (pages_create api properties, [PagesCreate properties]) /\
     properties !! "Name" = Some (Title (td_title feedback)) /\
     properties !! "Multi-select" = Some (MultiSelect ["To-do"]) /\
     (is_Some (properties !! "Description") <-> truthy (td_description feedback) = true) /\
     (is_Some (properties !! "Priority") <-> truthy (td_priority feedback) = true) /\
     (is_Some (properties !! "Area") <-> truthy (td_type feedback) = true) /\
     (is_Some (properties !! "Due Date") <-> truthy (Some (td_dueDate feedback)) = true) /\
     (is_Some (properties !! "Slack Message Link")
      <-> truthy (Some (td_messageLink feedback)) = true) /\
     (forall (c : ascii) (rest : string),
        td_type feedback = Some (JStr (String c rest)) ->
        properties !! "Area"
        = Some (Select (Some (JStr (toUpperCase (String c "") +:+ toLowerCase rest))))) /\
     properties !! "Person" = None /\
     dom properties ⊆ task_properties).
Proof.
  split; [apply createTask_throws|].
  - intros Htype.
    destruct (createTask_spec api feedback Htype)
      as (properties & Hrun & Hname & Hmulti & Hd & Hp & Ha & Hdue & Hlink & Hperson & Hdom).
    exists properties. split; [done|]. split; [done|]. split; [done|].
    assert (Hiff : forall (b : bool) (v : property) (k : string),
              properties !! k = (if b then Some v else None) ->
              is_Some (properties !! k) <-> b = true).
    { intros b v k ->. destruct b; split; try done; by intros [? ?]. }
    split; [by eapply Hiff|]. split; [by eapply Hiff|]. split.
    { rewrite Ha. destruct (truthy (td_type feedback)) eqn:Htruthy.
      - destruct Htype as [?|[s Hs]]; [done|]. unfold capitalizeFirst.
        rewrite Hs in *. rewrite Htruthy. simpl. by destruct s.
      - split; [by intros [? ?]|done]. }
    split; [by eapply Hiff|]. split; [by eapply Hiff|]. split; [|done].
    intros c rest Hs. rewrite Ha. unfold capitalizeFirst. by rewrite Hs.
Qed.

(** X28. With this client behind [createTask], a click on
    ``Approve as-is'' for a stored candidate always tells the user how it
    went, when a response URL came with it: either Notion made the page, the
    candidate is removed and the confirmation is posted, or the client threw,
    the candidate stays, approved, and the failure is posted. A candidate
    that has no [messageLink] gives a page without [Slack Message Link]. *)
Theorem approval_always_answers (api : notion_api) (E : env) (messageId : string)
    (candidate : obj) (triggerId : option string) (url : string) (w : world) :
  (forall t : taskData, notion_createTask E t = createTask_answer api t) ->
  pendingApprovals w !! messageId = Some candidate ->
  url <> "" ->
  let task := taskData_of (approved_at (clock E (tick w)) candidate) in
  let r := handleApproval E messageId triggerId (Some url) w in
  r.1 = Normal tt /\
  created (trace r.2) = created (trace w) ++ [task] /\
  match (createTask api task).1 with
  | Normal page =>
      pendingApprovals r.2 !! messageId = None /\
      EFetch url (task_created_update task page) ∈ trace r.2
  | Throw _ =>
      has_status "approved" <$> pendingApprovals r.2 !! messageId = Some true /\
      EFetch url task_failed_update ∈ trace r.2
  end /\
  (candidate !! "messageLink" = None ->
   forall properties : gmap string property,
     PagesCreate properties ∈ (createTask api task).2 ->
     properties !! "Slack Message Link" = None).
Proof.
  intros Hclient Hk Hurl task r. subst r.
  destruct (handleApproval_present E messageId candidate triggerId (Some url) w Hk)
    as (w' & Hrun & _ & _ & Hcr & Hcase).
  fold task in Hcr, Hcase. rewrite Hclient in Hcase. unfold createTask_answer in Hcase.
  rewrite Hrun. simpl. split; [done|]. split; [done|]. split.
  - destruct (createTask api task).1 as [page|error].
    + destruct Hcase as [-> Hn]. split; [apply lookup_delete_eq|]. by apply Hn.
    + destruct Hcase as [-> Hn]. rewrite lookup_insert_eq. split; [|by apply Hn].
      simpl. f_equal. unfold has_status, approved_at.
      rewrite lookup_insert_ne by done. by rewrite lookup_insert_eq.
  - intros Hlink properties Hin. destruct (type_cases task) as [[Htruthy Hnot]|Htype].
    + rewrite (createTask_throws api task Htruthy Hnot) in Hin. by apply elem_of_nil in Hin.
    + destruct (createTask_spec api task Htype)
        as (properties' & Hrun' & _ & _ & _ & _ & _ & _ & Hl & _).
      rewrite Hrun' in Hin. apply list_elem_of_singleton in Hin. injection Hin as ->.
      rewrite Hl. unfold task, taskData_of, approved_at. simpl.
      rewrite !lookup_insert_ne by done. by rewrite Hlink.
Qed.

Lemma find_first (personName : string) (before after : list notion_user) (user : notion_user) :
  Forall (fun u => name_matches personName u = false) before ->
  name_matches personName user = true ->
  List.find (name_matches personName) (before ++ user :: after) = Some user.
Proof.
  intros Hbefore Huser. induction Hbefore as [|u before Hu _ IH]; simpl.
  - by rewrite Huser.
  - by rewrite Hu.
Qed.

Lemma find_nobody (personName : string) (results : list notion_user) :
  Forall (fun u => name_matches personName u = false) results ->
  List.find (name_matches personName) results = None.
Proof. intros Hall. induction Hall as [|u results Hu _ IH]; simpl; [done|]. by rewrite Hu. Qed.

(** X29. [assignTaskToPerson] asks Notion for its users once. It assigns
    the page to the first user of the list whose name, in lower case, holds
    the name asked for, in lower case: one update, with that user alone
    under [Person]; users without a name are passed over unless the name
    asked for is empty in lower case. When no user matches it throws and
    updates nothing, and when the list of users fails it throws that error
    and updates nothing. *)
Theorem assignment_picks_first_match (api : notion_api) (pageId personName : string) :
  let r := assignTaskToPerson api pageId personName in
  (forall error : string, users_list api = Throw error -> r = (Throw error, [UsersList])) /\
  (forall results : list notion_user,
     users_list api = Normal results ->
     Forall (fun u => name_matches personName u = false) results ->
     r.2 = [UsersList] /\ exists error : string, r.1 = Throw error) /\
  (forall (before after : list notion_user) (user : notion_user),
     users_list api = Normal (before ++ user :: after) ->
     Forall (fun u => name_matches personName u = false) before ->
     name_matches personName user = true ->
     let properties : gmap string property := {["Person" := People [nu_id user]]} in
     r = (pages_update api pageId properties, [UsersList; PagesUpdate pageId properties])) /\
  (forall u : notion_user,
     nu_name u = None -> toLowerCase personName <> "" -> toLowerCase "" = "" ->
     name_matches personName u = false).
Proof.
  intros r. subst r. unfold assignTaskToPerson. split_and!.
  - by intros error ->.
  - intros results -> Hnone. rewrite find_nobody by done. split; [done|]. by eexists.
  - intros before after user -> Hbefore Huser. by rewrite find_first.
  - intros u Hname Hperson Hempty. unfold name_matches, indexOf. rewrite Hname. simpl.
    rewrite Hempty. destruct (toLowerCase personName); [done|]. done.
Qed.

End Notion.

End Extras.

(** ** The properties above, on the scenario *)

(** The candidate of the scenario is approved, then removed. *)
Lemma approve_then_remove_witness :
  let w1 := (@approveFeedback Sample.runtime Sample.healthy Sample.key None Sample.ingested).2 in
  let w2 := (@removePendingApproval Sample.runtime Sample.healthy Sample.key w1).2 in
  getPendingApproval Sample.key w2 = (Normal None, w2).
Proof.
  destruct (@approve_then_remove Sample.runtime Sample.healthy Sample.healthy Sample.key
              Sample.registered None Sample.ingested) as (_ & _ & _ & Hgone & _).
  - reflexivity.
  - exact Hgone.
Defined.

Lemma statuses_stay_known_witness :
  statuses_known
    (@approveFeedback Sample.runtime Sample.later Sample.key None Sample.ingested).2.
Proof.
  destruct (@statuses_stay_known Sample.runtime Sample.later Sample.ingested)
    as (_ & Happrove & _).
  - assert (Hstore : pendingApprovals Sample.ingested = {[Sample.key := Sample.registered]})
      by reflexivity.
    unfold statuses_known. rewrite Hstore. apply map_Forall_singleton. reflexivity.
  - exact (Happrove Sample.key None).
Defined.

(** The statistics of the scenario before and after the candidate is
    resolved. *)
Lemma resolution_moves_one_in_stats_witness :
  exists s sa : stats,
    getStats Sample.ingested = (Normal s, Sample.ingested) /\
    (getStats (@approveFeedback Sample.runtime Sample.healthy Sample.key None
                 Sample.ingested).2).1 = Normal sa /\
    st_pending s = S (st_pending sa) /\ st_approved sa = S (st_approved s).
Proof.
  destruct (@resolution_moves_one_in_stats Sample.runtime Sample.healthy Sample.key
              Sample.registered None Sample.ingested)
    as (s & sa & sr & Hs & Hsa & _ & Hp & Ha & _).
  - reflexivity.
  - reflexivity.
  - exists s, sa. split; [exact Hs|]. split; [by rewrite Hsa|]. split; [exact Hp|exact Ha].
Defined.

(** The disk turns read-only after the message of the scenario was
    ingested. *)
Lemma unwritable_file_loses_changes_witness :
  @unsaved Sample.runtime unit Sample.ingested
    (@removePendingApproval Sample.runtime Outage.read_only Sample.key Sample.ingested).
Proof.
  destruct (@unwritable_file_loses_changes Sample.runtime Outage.read_only Sample.ingested)
    as (_ & _ & Hremove & _).
  - reflexivity.
  - exists 0. reflexivity.
  - exact (Hremove Sample.key).
Defined.

Lemma restart_keeps_skipping_witness :
  let w2 := (constructor Sample.ingested).2 in
  @processFeedbackMessage Sample.runtime Sample.later Sample.ev w2
  = (Normal tt, print LogAlreadyProcessed w2).
Proof.
  destruct (@restart_keeps_skipping Sample.runtime Sample.healthy Sample.later Sample.ev
              Sample.fresh) as [_ Hskip].
  - reflexivity.
  - apply not_elem_of_empty.
  - unfold has_text. vm_compute. discriminate.
  - exact Hskip.
Defined.

Lemma keys_do_not_collide_witness : messageId_of "111.222" <> messageId_of "111.333".
Proof.
  apply keys_do_not_collide.
  - apply (bool_decide_unpack _). reflexivity.
  - apply (bool_decide_unpack _). reflexivity.
  - discriminate.
Defined.

Lemma blank_messages_are_skipped_witness :
  @processFeedbackMessage Sample.runtime Sample.healthy Sample.blank_ev Sample.ingested
  = (Normal tt, print LogNoText Sample.ingested).
Proof.
  destruct (@blank_messages_are_skipped Sample.runtime Sample.healthy Sample.blank_ev
              Sample.ingested) as [Hskip _].
  - vm_compute. discriminate.
  - apply Hskip. reflexivity.
Defined.

(** The candidate of the scenario is approved while the backlog store
    answers. *)
Lemma approval_creates_task_witness :
  let r := @handleApproval Sample.runtime Sample.healthy Sample.key None (Some Sample.url)
             Sample.ingested in
  pendingApprovals r.2 = delete Sample.key (pendingApprovals Sample.ingested) /\
  @persisted Sample.runtime r.2.
Proof.
  destruct (@approval_creates_task Sample.runtime Sample.healthy Sample.key Sample.registered
              None (Some Sample.url) Sample.ingested Outage.task_page)
    as (_ & Hp & Hfile & _).
  - reflexivity.
  - reflexivity.
  - split; [exact Hp|]. apply Hfile. reflexivity.
Defined.

(** A URL verification, the prompt of the bot itself, the submission of the
    review modal and a payload that does not parse. *)
Lemma passed_over_requests_change_nothing_witness :
  @serve Sample.runtime Sample.healthy (fun _ => Throw "ratelimited")
    [ Events (UrlVerification (Some (JStr "3eZbrw1aB")));
      Events (EventCallback Workspace.own_prompt);
      Interactions (Payload Workspace.submission);
      Interactions (BadPayload "Unexpected token") ]
    Workspace.running
  = ([ Challenge 200 (Some (JStr "3eZbrw1aB")); Empty 200; Empty 200;
       Failure 500 "Unexpected token" ], Workspace.running).
Proof.
  apply (@passed_over_requests_change_nothing Sample.runtime Sample.healthy).
  - reflexivity.
  - repeat apply Forall_cons_2; try apply Forall_nil_2; simpl; try exact I.
    + right. right. reflexivity.
    + left. discriminate.
Defined.

(** The message of the scenario is delivered twice: the second time after
    the handler of the first has run to its end, and the second time while
    the first waits for the analyzer. *)
Lemma redelivery_is_skipped_witness :
  let idle := {| srv := Workspace.listening; in_flight := [] |} in
  let directory := fun _ : nat => Throw (A := list channel) "ratelimited" in
  let b1 := @run Sample.runtime Sample.healthy directory
              [Arrives Workspace.delivery; Resumes 0] idle in
  let b2 := @run Sample.runtime Sample.later directory
              [Arrives Workspace.delivery; Resumes 0] b1 in
  let settled := @run Sample.runtime Sample.healthy directory
                   [Arrives Workspace.delivery; Arrives Workspace.delivery;
                    Resumes 0; Resumes 0] idle in
  trace (handler (srv b2)) = trace (handler (srv b1)) /\
  length (posted (trace (handler (srv settled)))) = 2%nat.
Proof.
  destruct (@redelivery_is_skipped Sample.runtime Sample.healthy Sample.later
              (fun _ => Throw "ratelimited") Workspace.delivery Workspace.listening)
    as [(_ & _ & _ & Htrace & _) Hoverlap].
  - reflexivity.
  - split; [exact Htrace|].
    destruct Hoverlap as (_ & _ & _ & _ & _ & Hposted).
    + split; reflexivity.
    + reflexivity.
    + apply not_elem_of_empty.
    + unfold has_text. vm_compute. discriminate.
    + apply (Hposted (<["sourceName" := JStr "#feedback"]> Sample.judgment) "C0APPROVAL").
      * reflexivity.
      * reflexivity.
      * discriminate.
Defined.

(** The workspace has no channel named [bot-feedback]. *)
Lemma unresolved_channel_drops_prompt_witness :
  let r := @processFeedbackMessage Sample.runtime Workspace.no_channel Sample.ev Sample.fresh in
  posted (trace r.2) = posted (trace Sample.fresh) /\ ev_ts Sample.ev ∈ processedMessages r.2.
Proof.
  destruct (@unresolved_channel_drops_prompt Sample.runtime Workspace.settings Workspace.slack
              Workspace.no_channel Sample.ev Sample.fresh
              (<["sourceName" := JStr "#feedback"]> Sample.judgment))
    as (_ & _ & Hposted & _ & Hmarked & _).
  - reflexivity.
  - reflexivity.
  - intros channels [= <-]. reflexivity.
  - apply not_elem_of_empty.
  - unfold has_text. vm_compute. discriminate.
  - reflexivity.
  - split; [exact Hposted|exact Hmarked].
Defined.

(** The candidate of the scenario is approved with the Notion client behind
    [createTask]. *)
Lemma approval_always_answers_witness :
  let r := @handleApproval Sample.runtime Workspace.office Sample.key None (Some Sample.url)
             Sample.ingested in
  r.1 = Normal tt /\
  forall properties : gmap string property,
    PagesCreate properties
    ∈ (@createTask Workspace.casing Workspace.notion
         (taskData_of (@approved_at Sample.runtime 0 Sample.registered))).2 ->
    properties !! "Slack Message Link" = None.
Proof.
  destruct (@approval_always_answers Sample.runtime Workspace.casing Workspace.notion
              Workspace.office Sample.key Sample.registered None Sample.url Sample.ingested)
    as (Hreturns & _ & _ & Hlink).
  - intros t. reflexivity.
  - reflexivity.
  - discriminate.
  - split; [exact Hreturns|]. apply Hlink. reflexivity.
Defined.

(** ** The clients and the routes on the workspace *)

(** The history of the feedback channel holds the message of the scenario,
    one that is too short and one of a bot: the first is returned. *)
Example scenario_recent_messages :
  getRecentMessages Workspace.settings Workspace.slack (8 * Sample.day) 1
  = ([ {| msg_text := "the search feature is broken on mobile";
          msg_userId := Some "U123";
          msg_channelId := Some "C0FEEDBACK";
          msg_channelName := "feedback";
          msg_ts := "111.222" |} ],
     [ ConversationsList; ConversationsHistory "C0FEEDBACK" 604800 50 ]).
Proof. vm_compute. reflexivity. Qed.

(** The page of the task of the scenario: the type [bug] gives the area
    [Bug], and there is no link to the message. *)
Example scenario_task_page :
  (@createTask Workspace.casing Workspace.notion
     (taskData_of (@approved_at Sample.runtime 0 Sample.registered))).2
  = [ PagesCreate
        (<["Name" := Title (Some (JStr "Mobile search broken"))]>
           (<["Description" :=
                RichText (Some (JStr ("Task requested by Ada Lovelace" +:+ nl +:+ nl
                                      +:+ "Search returns nothing on mobile.")))]>
              (<["Priority" := Select (Some (JStr "High Priority"))]>
                 (<["Area" := Select (Some (JStr "Bug"))]>
                    (<["Multi-select" := MultiSelect ["To-do"]]> ∅))))) ].
Proof. vm_compute. reflexivity. Qed.

(** ``John Rice'' is the third user of the workspace and the first whose
    name holds the name asked for. *)
Example scenario_assignment :
  @assignTaskToPerson Workspace.casing Workspace.notion "59833787" "John Rice"
  = (Normal {| page_id := "59833787" |},
     [ UsersList; PagesUpdate "59833787" {["Person" := People ["u-3"]]} ]).
Proof. vm_compute. reflexivity. Qed.

(** The server starts, and the message of the scenario arrives: the
    feedback channel is looked up, and the message is ingested. *)
Example scenario_first_delivery :
  let s := (@slack_events Sample.runtime Sample.healthy
              (fun _ => Normal Workspace.channels)
              (EventCallback Workspace.delivery) Workspace.started).2 in
  feedbackChannelId s = Some "C0FEEDBACK" /\ lookups s = 1%nat /\
  handler s = Sample.ingested.
Proof. cbv zeta. repeat apply conj; vm_compute; reflexivity. Qed.

(** The reporter of the scenario is the user [users.info] knows. *)
Lemma candidate_names_reporter_witness :
  @reporter_of Sample.runtime Sample.healthy Sample.ev = "Ada Lovelace".
Proof.
  destruct (@candidate_names_reporter Sample.runtime Sample.healthy Sample.ev Sample.fresh
              (<["sourceName" := JStr "#feedback"]> Sample.judgment)) as (_ & Hname & _).
  - apply not_elem_of_empty.
  - unfold has_text. vm_compute. discriminate.
  - reflexivity.
  - apply (Hname "U123" "Ada Lovelace"
             {| ui_real_name := Some "Ada Lovelace"; ui_profile_real_name := None;
                ui_profile_display_name := None; ui_name := Some "ada" |});
      try reflexivity; discriminate.
Defined.

(** The backlog store is down when the candidate of the scenario is
    approved. *)
Lemma failed_approvals_stay_listed_witness :
  let w' := (@handleApproval Sample.runtime Sample.notion_down Sample.key None
               (Some Sample.url) Sample.ingested).2 in
  exists l : list obj,
    getApprovedFeedbacks w' = (Normal l, w') /\
    @approved_at Sample.runtime 0 Sample.registered ∈ l.
Proof.
  destruct (@failed_approvals_stay_listed Sample.runtime Sample.notion_down Sample.key
              Sample.registered None (Some Sample.url) Sample.ingested "APIResponseError")
    as (l & s & Hl & Hin & _).
  - reflexivity.
  - reflexivity.
  - exists l. split; [exact Hl|exact Hin].
Defined.
